(** * Verification of [notebooks/datasource.py] (KISysBio/qsar-tutorial)

    A shallow embedding of the [Preprocessing] cleaning pipeline and of the
    record normalisation of [ChEMBLApiDataSource], together with the pandas
    operations they call, and the properties of the cleaning pipeline.

    Conventions of the embedding.
    - A pandas [DataFrame] is its ordered list of column labels and its
      ordered list of rows; a row is a finite map from column label to cell,
      a label that is missing from a row reads as NaN.  Row labels (the
      pandas index) are positional and not represented.
    - A cell is None/NaN ([Null]), a string, a finite float, an integer or a
      boolean.  A finite binary64 float is the rational it denotes ([Qc]),
      NaN is [None] in [float64]; infinities are outside the model.
      Comparing floats and converting a count are exact.
    - Python exceptions are values of [exn]; fallible code lives in the
      error monad [result].
    - The arithmetic of numpy rounds.  The sum of an array, the difference,
      the product, the quotient and the square root are library functions,
      as are [float(str)], [float(int)] and [str.lower()]: they are
      parameters of the development ([PyNumerics], [PyStrings]), with the
      cases in which they are exact as laws.  The examples run on instances
      that round to the nearest binary64 value. *)

From Stdlib Require Import QArith Qcanon Ascii String.
From stdpp Require Import base option list strings gmap numbers sorting.

Local Open Scope Qc_scope.
Local Open Scope string_scope.
Local Open Scope list_scope.

(** ** Python values and exceptions *)

Inductive cell :=
  | Null
  | Str (s : string)
  | Num (q : Qc)
  | Int (z : Z)
  | Bool (b : bool).

Global Instance cell_eq_dec : EqDecision cell.
Proof. solve_decision. Defined.

Inductive exn :=
  | AttributeError (name : string)
  | KeyError (key : string)
  | ValueError (msg : string)
  | TypeError (msg : string)
  | MergeError (msg : string)
  | ZeroDivisionError.

Global Instance exn_eq_dec : EqDecision exn.
Proof. solve_decision. Defined.

Inductive result (A : Type) :=
  | Ok (a : A)
  | Raise (e : exn).
Global Arguments Ok {A} a.
Global Arguments Raise {A} e.

Global Instance result_eq_dec {A} `{EqDecision A} : EqDecision (result A).
Proof. solve_decision. Defined.

Global Instance result_ret : MRet result := fun A a => Ok a.
Global Instance result_bind : MBind result := fun A B f m =>
  match m with
  | Ok a => f a
  | Raise e => Raise e
  end.

Fixpoint result_mapM {A B} (f : A → result B) (l : list A) : result (list B) :=
  match l with
  | [] => Ok []
  | a :: l => b ← f a; bs ← result_mapM f l; Ok (b :: bs)
  end.

(** [float64] values: [None] is NaN. *)
Definition float64 := option Qc.

Definition float_cell (x : float64) : cell :=
  match x with
  | Some q => Num q
  | None => Null
  end.

(** ** pandas data frames *)

Record DataFrame := mkDataFrame {
  columns : list string;
  rows : list (gmap string cell);
}.

Global Instance DataFrame_eq_dec : EqDecision DataFrame.
Proof. solve_decision. Defined.

(** The cell of a row under a column label. *)
Definition at_col (r : gmap string cell) (c : string) : cell :=
  default Null (r !! c).

(** [Series.isnull()], elementwise. *)
Definition isnull (c : cell) : bool :=
  match c with
  | Null => true
  | _ => false
  end.

(** [series == s] for a string [s], elementwise. *)
Definition eq_str (s : string) (c : cell) : bool :=
  match c with
  | Str t => bool_decide (t = s)
  | _ => false
  end.

(** [df[col]]: the cells of one column, [KeyError] when there is none. *)
Definition getitem (df : DataFrame) (col : string) : result (list cell) :=
  if bool_decide (col ∈ columns df)
  then Ok ((λ r, at_col r col) <$> rows df)
  else Raise (KeyError col).

(** [df[mask]] for a boolean mask aligned with the rows. *)
Fixpoint select_rows {A} (l : list A) (mask : list bool) : list A :=
  match l, mask with
  | x :: l, b :: mask => if b then x :: select_rows l mask else select_rows l mask
  | _, _ => []
  end.

Definition getitem_mask (df : DataFrame) (mask : list bool) : DataFrame :=
  {| columns := columns df; rows := select_rows (rows df) mask |}.

(** [df.copy()]: a new object with the same content. *)
Definition copy (df : DataFrame) : DataFrame := df.

(** ** [Preprocessing] *)

Record Preprocessing := mkPreprocessing {
  self_activity_column : string;
}.

(** [Preprocessing.__init__(activity_column='median_activity_value')] *)
Definition Preprocessing_init (activity_column : option string) : Preprocessing :=
  {| self_activity_column := default "median_activity_value" activity_column |}.

(** [Preprocessing._default_filter_chembl] *)
Definition _default_filter_chembl (bioactivities_df : DataFrame) : result DataFrame :=
  (* Relation measured must be of type equality *)
  relation ← getitem bioactivities_df "relation";
  let valid_rows := eq_str "=" <$> relation in
  let bioactivities_df := getitem_mask bioactivities_df valid_rows in
  (* Remove data that is marked as potential invalid *)
  comment ← getitem bioactivities_df "data_validity_comment";
  let valid_rows := isnull <$> comment in
  let bioactivities_df := getitem_mask bioactivities_df valid_rows in
  (* There must be a valid pCHEMBL value *)
  pchembl ← getitem bioactivities_df "pchembl_value";
  let valid_rows := negb <$> (isnull <$> pchembl) in
  let bioactivities_df := getitem_mask bioactivities_df valid_rows in
  Ok bioactivities_df.

(** ** Numerics

    The library functions the pipeline calls on floats.  [py_float s] is
    Python's [float(s)] on a string: [None] when it raises [ValueError],
    [Some None] for a NaN; [py_float_of_int] is [float(n)].  [np_sum] is
    the sum of an array ([ndarray.sum], pairwise summation), [np_sub],
    [np_mul], [np_div] and [np_sqrt] are the rounded operations on two
    floats and the rounded root.  The laws are cases in which binary64
    arithmetic is exact: the sum of one value, [x - x], [0 * 0], [x / 1]. *)

Class PyNumerics := {
  py_float : string → option float64;
  py_float_of_int : Z → Qc;
  np_sum : list Qc → Qc;
  np_sub : Qc → Qc → Qc;
  np_mul : Qc → Qc → Qc;
  np_div : Qc → Qc → Qc;
  np_sqrt : Qc → Qc;
  np_sum_one : ∀ x, np_sum [x] = x;
  np_sub_diag : ∀ x, np_sub x x = 0;
  np_mul_zero : np_mul 0 0 = 0;
  np_div_one : ∀ x, np_div x 1 = x;
}.

Definition Qc_of_nat (n : nat) : Qc := Q2Qc (inject_Z (Z.of_nat n)).

(** [x > 1] on a float: false on NaN. *)
Definition gt_one (x : float64) : bool :=
  match x with
  | Some q => bool_decide (1 < q)
  | None => false
  end.

Section Numerics.
Context `{PyNumerics}.

(** [pandas.core.nanops.nanvar] (without bottleneck): [count] is the number
    of entries that are not NaN, the NaN entries are set to 0, [avg] is the
    sum over the count, the squared deviations [(avg - values) ** 2] are set
    to 0 at the NaN entries, summed and divided by [count - ddof]; NaN when
    [count <= ddof]. *)
Definition nanvar (ddof : nat) (values : list float64) : float64 :=
  let count := length (omap id values) in
  if bool_decide (count ≤ ddof)%nat then None
  else
    let avg := np_div (np_sum (default 0 <$> values)) (Qc_of_nat count) in
    let sqr := (λ v, match v with
                     | Some x => np_mul (np_sub avg x) (np_sub avg x)
                     | None => 0
                     end) <$> values in
    Some (np_div (np_sum sqr) (Qc_of_nat (count - ddof))).

(** [numpy.median] of a one-dimensional array: NaN as soon as one entry is
    NaN, else the middle of the sorted values, for an even count the mean
    of the two middle values (their sum over 2). *)
Definition np_median (values : list float64) : float64 :=
  xs ← mapM id values;
  let s := merge_sort Qcle xs in
  let n := length s in
  if bool_decide (n = 0)%nat then None
  else if Nat.even n
  then Some (np_div (np_sum [default 0 (s !! (n / 2 - 1)%nat); default 0 (s !! (n / 2)%nat)])
               (Qc_of_nat 2))
  else Some (default 0 (s !! (n / 2)%nat)).

End Numerics.

(** A Python dict (and a [pd.Series] built from one): keys in insertion
    order, a repeated key overwrites the value in place. *)
Fixpoint dict_set (k : string) (v : cell) (d : list (string * cell)) : list (string * cell) :=
  match d with
  | [] => [(k, v)]
  | (k', v') :: d => if bool_decide (k = k') then (k, v) :: d else (k', v') :: dict_set k v d
  end.

Definition py_dict (items : list (string * cell)) : list (string * cell) :=
  foldl (λ d kv, dict_set kv.1 kv.2 d) [] items.

(** The result of [DataFrameGroupBy.apply]: one row per group, labelled by
    the group key. *)
Record GroupedFrame := mkGroupedFrame {
  index_name : string;
  index : list cell;
  frame : DataFrame;
}.

(** The group keys of [df.groupby(by)]: the distinct non-null values of the
    column.  pandas lists them sorted; the order of the groups is not
    observable in [clean_dataset], which joins the summary back by key. *)
Definition group_keys (col : list cell) : list cell :=
  remove_dups (filter (λ c, c ≠ Null) col).

Definition get_group (df : DataFrame) (by_ : string) (k : cell) : DataFrame :=
  {| columns := columns df; rows := filter (λ r, at_col r by_ = k) (rows df) |}.

(** [df.groupby(by).apply(f)] for an [f] that returns a Series.  Without any
    group [f] is not called, so the labels of its Series are unknown:
    pandas (1.1 to 2.x) returns an empty frame with the columns of [df],
    indexed by [by].  (Older versions return a frame without columns, on
    which the later [pd.merge] finds no common column.) *)
Definition groupby_apply (df : DataFrame) (by_ : string)
    (f : DataFrame → result (list (string * cell))) : result GroupedFrame :=
  col ← getitem df by_;
  let keys := group_keys col in
  values ← result_mapM (λ k, f (get_group df by_ k)) keys;
  match values with
  | [] => Ok {| index_name := by_; index := [];
                frame := {| columns := columns df; rows := [] |} |}
  | s :: _ => Ok {| index_name := by_; index := keys;
                    frame := {| columns := s.*1; rows := list_to_map <$> values |} |}
  end.

(** [g.reset_index()]: the index becomes the first column; [ValueError] when
    a column of that name is already there. *)
Definition reset_index (g : GroupedFrame) : result DataFrame :=
  if bool_decide (index_name g ∈ columns (frame g))
  then Raise (ValueError "cannot insert, already exists")
  else Ok {| columns := index_name g :: columns (frame g);
             rows := zip_with (λ k r, <[index_name g := k]> r) (index g) (rows (frame g)) |}.

(** The part of a row under the given column labels. *)
Definition project (cols : list string) (r : gmap string cell) : gmap string cell :=
  filter (λ kv, kv.1 ∈ cols) r.

Definition keys_match (on : list string) (l r : gmap string cell) : Prop :=
  Forall (λ c, at_col l c = at_col r c) on.

Global Instance keys_match_dec on l r : Decision (keys_match on l r).
Proof. unfold keys_match. apply _. Defined.

(** [pd.merge(left, right)]: inner join on all the columns the two frames
    share (in the order of [left]), the rows in the order of [left]; the
    columns of [left] followed by the columns of [right] that are no key.
    NaN keys match NaN keys.  The dtypes of the key columns are not
    modelled: two key cells match when they are the same value, where
    pandas compares an integer key and a float key by value and refuses
    (ValueError) to join a key column of strings with one of numbers.  In
    [clean_dataset] the two frames share the identifier column, whose cells
    the right frame takes from the left one, and the columns of the left
    frame that are named like a summary column: the dtypes can differ only
    in the latter.  (pandas before 2.2
    lists the joined rows key by key, each key in the order of [left]; the
    first row of every key, which is all [clean_dataset] keeps, is the
    same.) *)
Definition pd_merge (left right : DataFrame) : result DataFrame :=
  let on := filter (λ c, c ∈ columns right) (columns left) in
  if bool_decide (on = []) then Raise (MergeError "No common columns to perform merge on")
  else
    let extra := filter (λ c, c ∉ on) (columns right) in
    Ok {| columns := columns left ++ extra;
          rows := l ← rows left;
                  r ← filter (keys_match on l) (rows right);
                  [project (columns left) l ∪ project extra r] |}.

(** [~series] on a boolean column. *)
Definition invert (col : list cell) : result (list bool) :=
  result_mapM (λ c, match c with
                    | Bool b => Ok (negb b)
                    | _ => Raise (TypeError "bad operand type for unary ~")
                    end) col.

(** [df.groupby(by).head(1)]: the rows that are the first of their group, in
    the order of [df]; rows with a null key belong to no group. *)
Fixpoint head1 (by_ : string) (seen : list cell) (l : list (gmap string cell)) : list (gmap string cell) :=
  match l with
  | [] => []
  | r :: l =>
      if bool_decide (at_col r by_ = Null) then head1 by_ seen l
      else if bool_decide (at_col r by_ ∈ seen) then head1 by_ seen l
      else r :: head1 by_ (at_col r by_ :: seen) l
  end.

Definition groupby_head1 (df : DataFrame) (by_ : string) : result DataFrame :=
  if bool_decide (by_ ∈ columns df)
  then Ok {| columns := columns df; rows := head1 by_ [] (rows df) |}
  else Raise (KeyError by_).

(** ** Data sources *)

Inductive py_type :=
  | ChEMBLApiDataSource
  | DataSource
  | OtherType (name : string).

Global Instance py_type_eq_dec : EqDecision py_type.
Proof. solve_decision. Defined.

(** A data source with its attributes; [type_of] is [type(data_source)]. *)
Record data_source := mkDataSource {
  type_of : py_type;
  bioactivities_df : DataFrame;
  smiles_column : string;
  compound_id_column : string;
  activity_column : string;
}.

Definition unsupported_source : exn := ValueError "Data source not recognized".

Section Cleaning.
Context `{PyNumerics}.

(** [series.astype(float)] on one cell. *)
Definition cell_to_float (c : cell) : result float64 :=
  match c with
  | Null => Ok None
  | Str s =>
      match py_float s with
      | Some x => Ok x
      | None => Raise (ValueError "could not convert string to float")
      end
  | Num q => Ok (Some q)
  | Int z => Ok (Some (py_float_of_int z))
  | Bool b => Ok (Some (if b then 1 else 0))
  end.

Definition astype_float (col : list cell) : result (list float64) :=
  result_mapM cell_to_float col.

(** [np.std(series)]: numpy hands over to [Series.std(ddof=0)], the
    population standard deviation. *)
Definition np_std (values : list float64) : float64 :=
  np_sqrt <$> nanvar 0 values.

(** [Preprocessing._mark_to_remove] *)
Definition _mark_to_remove (self : Preprocessing) (data : DataFrame)
    (activity_column : string) : result (list (string * cell)) :=
  col ← getitem data activity_column;
  activity_value ← astype_float col;
  let std_deviation := np_std activity_value in
  let number_compounds := length (rows data) in
  Ok (py_dict
        [("number_compounds", Int (Z.of_nat number_compounds));
         ("standard_deviation", float_cell std_deviation);
         (self_activity_column self, float_cell (np_median activity_value));
         ("duplicated", Bool (bool_decide (1 < number_compounds)%nat));
         ("mark_to_remove", Bool (gt_one std_deviation))]).

(** [Preprocessing.clean_dataset], called with a data source that has the
    attribute [bioactivities_df].  The read of the attribute, which comes
    before the test of the type and raises AttributeError on an object
    without it, is part of [clean_dataset_obj] below. *)
Definition clean_dataset (self : Preprocessing) (data_source : data_source) : result DataFrame :=
  let bioactivities_df := copy (bioactivities_df data_source) in
  bioactivities_df ←
    (if bool_decide (type_of data_source = ChEMBLApiDataSource)
     then _default_filter_chembl bioactivities_df
     else Raise unsupported_source);
  (* Mark duplicated entries for removal *)
  grouped_dataset ←
    groupby_apply bioactivities_df (compound_id_column data_source)
      (λ x, _mark_to_remove self x (activity_column data_source));
  (* The resulting dataset, clean_df, does not contain duplicated entries *)
  right ← reset_index grouped_dataset;
  merged_df ← pd_merge bioactivities_df right;
  mark ← getitem merged_df "mark_to_remove";
  keep ← invert mark;
  let merged_df := getitem_mask merged_df keep in
  groupby_head1 merged_df (compound_id_column data_source).

End Cleaning.

(** ** Closed forms used in the statements *)

(** Each label once, in order of first occurrence: the keys of a dict
    literal, the columns of a concatenation. *)
Definition unique_in_order (ks : list string) : list string :=
  foldl (λ acc k, if bool_decide (k ∈ acc) then acc else acc ++ [k]) [] ks.

(** The labels of the Series that [_mark_to_remove] returns. *)
Definition summary_columns (self : Preprocessing) : list string :=
  unique_in_order ["number_compounds"; "standard_deviation"; self_activity_column self;
             "duplicated"; "mark_to_remove"].

(** The validity predicate of the remote-database variant. *)
Definition chembl_valid (r : gmap string cell) : Prop :=
  at_col r "relation" = Str "=" ∧
  at_col r "data_validity_comment" = Null ∧
  at_col r "pchembl_value" ≠ Null.

Global Instance chembl_valid_dec r : Decision (chembl_valid r).
Proof. unfold chembl_valid. apply _. Defined.

(** The identifiers of the rows, in row order. *)
Definition ids_of (by_ : string) (l : list (gmap string cell)) : list cell :=
  (λ r, at_col r by_) <$> l.

(** [r'] carries the cells of [r] under every label of [cols]. *)
Definition agrees_on (cols : list string) (r' r : gmap string cell) : Prop :=
  ∀ c, c ∈ cols → at_col r' c = at_col r c.

(** No column of the table is named like a summary column: the merge joins
    on the compound identifier alone. *)
Definition fresh_summary (self : Preprocessing) (df : DataFrame) : Prop :=
  ∀ c, c ∈ summary_columns self → c ∉ columns df.

Section Closed_form.
Context `{PyNumerics}.

(** The median in the words of the specification, from the values in
    increasing order: the middle value, for an even count the mean of the
    two middle values. *)
Definition middle_value (sorted : list Qc) : Qc :=
  let n := length sorted in
  if Nat.even n
  then np_div (np_sum [default 0 (sorted !! (n / 2 - 1)%nat); default 0 (sorted !! (n / 2)%nat)])
         (Qc_of_nat 2)
  else default 0 (sorted !! (n / 2)%nat).

(** The population standard deviation in the words of the specification:
    the root of the sum of the squared deviations from the mean, divided by
    N (not N - 1); NaN when there is no value.  Sum, difference, product,
    quotient and root are the ones of numpy. *)
Definition population_std (xs : list Qc) : float64 :=
  if bool_decide (xs = []) then None
  else
    let N := Qc_of_nat (length xs) in
    let mean := np_div (np_sum xs) N in
    let deviations := (λ x, np_sub mean x) <$> xs in
    Some (np_sqrt (np_div (np_sum ((λ d, np_mul d d) <$> deviations)) N)).

(** The Series of one group, from the floats of its activity column. *)
Definition summary_series (self : Preprocessing) (n : nat) (vals : list float64) : list (string * cell) :=
  py_dict
    [("number_compounds", Int (Z.of_nat n));
     ("standard_deviation", float_cell (np_std vals));
     (self_activity_column self, float_cell (np_median vals));
     ("duplicated", Bool (bool_decide (1 < n)%nat));
     ("mark_to_remove", Bool (gt_one (np_std vals)))].

(** The row of the summary frame (after [reset_index]) for the group [k]. *)
Definition summary_row (self : Preprocessing) (ds : data_source) (F : DataFrame)
    (k : cell) : result (gmap string cell) :=
  s ← _mark_to_remove self (get_group F (compound_id_column ds) k) (activity_column ds);
  Ok (<[compound_id_column ds := k]> (list_to_map s)).

(** The columns [pd.merge] joins on, and the columns it adds. *)
Definition join_keys (self : Preprocessing) (ds : data_source) (F : DataFrame) : list string :=
  filter (λ c, c ∈ compound_id_column ds :: summary_columns self) (columns F).

Definition extra_columns (self : Preprocessing) (ds : data_source) (F : DataFrame) : list string :=
  filter (λ c, c ∉ join_keys self ds F) (compound_id_column ds :: summary_columns self).

(** The rows of the merged frame that stem from the row [l] of the filtered
    frame [F]: at most one, [l] extended with the summary of its group. *)
Definition joined (self : Preprocessing) (ds : data_source) (F : DataFrame)
    (l : gmap string cell) : list (gmap string cell) :=
  match summary_row self ds F (at_col l (compound_id_column ds)) with
  | Ok R =>
      if decide (at_col l (compound_id_column ds) ≠ Null ∧ keys_match (join_keys self ds F) l R)
      then [project (columns F) l ∪ project (extra_columns self ds F) R]
      else []
  | Raise _ => []
  end.

Definition not_marked (r : gmap string cell) : Prop :=
  at_col r "mark_to_remove" = Bool false.

(** The table [clean_dataset] returns, from the filtered frame [F]. *)
Definition clean_frame (self : Preprocessing) (ds : data_source) (F : DataFrame) : DataFrame :=
  {| columns := columns F ++ extra_columns self ds F;
     rows := head1 (compound_id_column ds) []
               (filter not_marked (rows F ≫= joined self ds F)) |}.

End Closed_form.

(** The group of the compound [k]: the valid rows of the raw table of [ds]
    that carry the identifier [k], in the order of the raw table. *)
Definition group_of (ds : data_source) (k : cell) : list (gmap string cell) :=
  filter (λ l, at_col l (compound_id_column ds) = k)
    (filter chembl_valid (rows (bioactivities_df ds))).

(** The rows of a table that carry the identifier [k]. *)
Definition rows_with_id (ds : data_source) (k : cell) (df : DataFrame) : list (gmap string cell) :=
  filter (λ r, at_col r (compound_id_column ds) = k) (rows df).

(** The data source [ds] after [ds.bioactivities_df = df]. *)
Definition with_table (ds : data_source) (df : DataFrame) : data_source :=
  {| type_of := type_of ds; bioactivities_df := df;
     smiles_column := smiles_column ds;
     compound_id_column := compound_id_column ds;
     activity_column := activity_column ds |}.

(** ** [ChEMBLApiDataSource]: from the records of the API to the raw table *)

(** The values of a record of the ChEMBL API: scalars, the nested
    [ligand_efficiency] dict and the [activity_properties] list. *)
Inductive pyval :=
  | PCell (c : cell)
  | PDict (d : list (string * cell))
  | PList (l : list (list (string * cell))).

(** Lower-casing of the ASCII letters. *)
Definition ascii_lower (a : ascii) : ascii :=
  let n := nat_of_ascii a in
  if bool_decide (65 ≤ n ≤ 90)%nat then ascii_of_nat (n + 32) else a.

Fixpoint str_lower (s : string) : string :=
  match s with
  | EmptyString => EmptyString
  | String a s => String (ascii_lower a) (str_lower s)
  end.

Fixpoint str_prefix (a b : string) : bool :=
  match a, b with
  | EmptyString, _ => true
  | String x a, String y b => bool_decide (x = y) && str_prefix a b
  | String _ _, EmptyString => false
  end.

(** [needle in hay] on strings. *)
Fixpoint str_contains (needle hay : string) : bool :=
  str_prefix needle hay ||
  match hay with
  | EmptyString => false
  | String _ hay => str_contains needle hay
  end.

Definition is_ascii (s : string) : Prop :=
  Forall (λ a, nat_of_ascii a < 128)%nat (list_ascii_of_string s).

Global Instance is_ascii_dec s : Decision (is_ascii s).
Proof. unfold is_ascii. apply _. Defined.

(** [py_lower s] is Python's [s.lower()], on strings as UTF-8 bytes (a
    string is contained in another one exactly when its bytes are
    contained in the bytes of the other).  On a string of ASCII characters
    it lower-cases the letters; elsewhere it follows Unicode. *)
Class PyStrings := {
  py_lower : string → string;
  py_lower_ascii : ∀ s, is_ascii s → py_lower s = str_lower s;
}.

(** Two characters that are the same letter in upper or lower case, or the
    same character: the case-insensitive comparison of the specification. *)
Definition is_upper (a : ascii) : bool :=
  bool_decide (65 ≤ nat_of_ascii a ≤ 90)%nat.

Definition same_letter (a b : ascii) : bool :=
  bool_decide (a = b)
  || is_upper a && bool_decide (nat_of_ascii b = nat_of_ascii a + 32)%nat
  || is_upper b && bool_decide (nat_of_ascii a = nat_of_ascii b + 32)%nat.

Fixpoint same_ignoring_case (s t : string) : bool :=
  match s, t with
  | EmptyString, EmptyString => true
  | String a s, String b t => same_letter a b && same_ignoring_case s t
  | _, _ => false
  end.

(** [d[key]] on a record. *)
Fixpoint record_getitem (d : list (string * pyval)) (key : string) : result pyval :=
  match d with
  | [] => Raise (KeyError key)
  | (k, v) :: d => if bool_decide (k = key) then Ok v else record_getitem d key
  end.

(** [d.pop(key, None)]: the value (or [None]) and the record without [key]. *)
Fixpoint record_pop (d : list (string * pyval)) (key : string) : option pyval * list (string * pyval) :=
  match d with
  | [] => (None, [])
  | (k, v) :: d =>
      if bool_decide (k = key) then (Some v, d)
      else let '(x, d') := record_pop d key in (x, (k, v) :: d')
  end.

(** The cell of a one-row frame built from a value: a scalar is itself, a
    nested dict without a key 0 gives NaN, a list of another length than
    the index raises.  A list of one element would make its element, a
    dict, the cell; cells do not represent it, and the model raises for it
    as well.  The only list of the records of the API is
    [activity_properties], which is dropped before the frame is built. *)
Definition value_cell (v : pyval) : result cell :=
  match v with
  | PCell c => Ok c
  | PDict _ => Ok Null
  | PList _ => Raise (ValueError "Length of values does not match length of index")
  end.

(** [pd.DataFrame(d, index=[0])] *)
Definition DataFrame_of_record (d : list (string * pyval)) : result DataFrame :=
  cells ← result_mapM (λ kv, c ← value_cell kv.2; Ok (kv.1, c)) d;
  Ok {| columns := d.*1; rows := [list_to_map cells] |}.

(** [pd.concat([a, b], axis=1)] of two frames with the same index. *)
Definition concat_columns (a b : DataFrame) : DataFrame :=
  {| columns := columns a ++ columns b;
     rows := zip_with (λ r1 r2, r1 ∪ r2) (rows a) (rows b) |}.

(** [print_progress_bar(iteration, total, ...)]: prints, and divides by
    [total]. *)
Definition print_progress_bar (iteration total : nat) : result unit :=
  if bool_decide (total = 0)%nat then Raise ZeroDivisionError else Ok ().

Section Fetch.
Context `{PyStrings}.

(** [get_compound_df(idx, compound_dict)], the closure of
    [ChEMBLApiDataSource.__init__]; [standard_types] and
    [number_retrieved_compounds] are the attributes of [self]. *)
Definition get_compound_df (standard_types : option (list string))
    (number_retrieved_compounds : nat) (idx : nat)
    (compound_dict : list (string * pyval)) : result DataFrame :=
  is_valid_std_type ←
    match standard_types with
    | None => Ok false
    | Some types =>
        v ← record_getitem compound_dict "standard_type";
        match v with
        | PCell Null => Ok false
        | PCell (Str s) =>
            let compound_std_type := py_lower s in
            Ok (existsb (λ std_type, str_contains (py_lower std_type) compound_std_type) types)
        | _ => Raise (AttributeError "lower")
        end
    end;
  compound_df ←
    (if is_valid_std_type : bool then
       (* Drop unused columns *)
       let '(_, compound_dict) := record_pop compound_dict "activity_properties" in
       (* Capture Ligand Efficiency *)
       let '(lig_efficiency, compound_dict) := record_pop compound_dict "ligand_efficiency" in
       compound_df ← DataFrame_of_record compound_dict;
       match lig_efficiency with
       | None | Some (PCell Null) => Ok compound_df
       | Some (PDict lig) =>
           let lig_efficiency_df :=
             {| columns := (λ kv, "ligand_efficiency_" +:+ kv.1) <$> lig;
                rows := [list_to_map ((λ kv, ("ligand_efficiency_" +:+ kv.1, kv.2)) <$> lig)] |} in
           Ok (concat_columns compound_df lig_efficiency_df)
       | Some _ => Raise (ValueError "DataFrame constructor not properly called")
       end
     else Ok {| columns := compound_dict.*1; rows := [] |});
  _ ← print_progress_bar (idx + 1) number_retrieved_compounds;
  Ok compound_df.

(** [pd.concat(frames, sort=False).reset_index(drop=True)]: the union of the
    columns in order of first appearance, the rows one after the other. *)
Definition pd_concat (frames : list DataFrame) : result DataFrame :=
  match frames with
  | [] => Raise (ValueError "No objects to concatenate")
  | _ => Ok {| columns := unique_in_order (frames ≫= columns);
               rows := frames ≫= rows |}
  end.

(** The [standard_types] argument: [None], a string or a list. *)
Inductive standard_types_arg :=
  | TypesNone
  | TypesStr (s : string)
  | TypesList (l : list string).

Definition self_standard_types (standard_types : standard_types_arg) : option (list string) :=
  match standard_types with
  | TypesNone => None
  | TypesStr s => Some [s]
  | TypesList l => Some l
  end.

(** [ChEMBLApiDataSource.__init__]; [records] is [result], the list of
    records the ChEMBL client returns for the target. *)
Definition ChEMBLApiDataSource_init (target_id : string)
    (standard_types : standard_types_arg)
    (records : list (list (string * pyval))) : result data_source :=
  let number_retrieved_compounds := length records in
  _ ← print_progress_bar 0 number_retrieved_compounds;
  bioactivities_df ←
    result_mapM (λ '(idx, compound_dict),
                   get_compound_df (self_standard_types standard_types)
                     number_retrieved_compounds idx compound_dict)
      (zip (seq 0 (length records)) records);
  bioactivities_df ← pd_concat bioactivities_df;
  Ok {| type_of := ChEMBLApiDataSource;
        bioactivities_df := bioactivities_df;
        smiles_column := "canonical_smiles";
        compound_id_column := "parent_molecule_chembl_id";
        activity_column := "pchembl_value" |}.

(** The closed form of the decision of [get_compound_df]. *)
Definition accepted (standard_types : option (list string)) (v : cell) : bool :=
  match standard_types, v with
  | Some types, Str s => existsb (λ t, str_contains (py_lower t) (py_lower s)) types
  | _, _ => false
  end.

End Fetch.

(** Two records of the API: an IC50 fold change and a record without a
    measurement type. *)
Definition record_ic50 : list (string * pyval) :=
  [("activity_properties", PList []);
   ("canonical_smiles", PCell (Str "CCO"));
   ("data_validity_comment", PCell Null);
   ("ligand_efficiency", PDict [("bei", Str "14.1"); ("le", Str "0.3")]);
   ("parent_molecule_chembl_id", PCell (Str "CHEMBL1"));
   ("pchembl_value", PCell (Str "6.5"));
   ("relation", PCell (Str "="));
   ("standard_type", PCell (Str "IC50_fold"))].

Definition record_untyped : list (string * pyval) :=
  [("activity_properties", PList []);
   ("canonical_smiles", PCell (Str "CCN"));
   ("data_validity_comment", PCell Null);
   ("ligand_efficiency", PCell Null);
   ("parent_molecule_chembl_id", PCell (Str "CHEMBL2"));
   ("pchembl_value", PCell Null);
   ("relation", PCell Null);
   ("standard_type", PCell Null)].

Definition record_ki : list (string * pyval) :=
  [("activity_properties", PList []);
   ("canonical_smiles", PCell (Str "CCC"));
   ("data_validity_comment", PCell Null);
   ("ligand_efficiency", PCell Null);
   ("parent_molecule_chembl_id", PCell (Str "CHEMBL3"));
   ("pchembl_value", PCell (Str "7.0"));
   ("relation", PCell (Str "="));
   ("standard_type", PCell (Str "Ki"))].

(** ** Objects and aliasing

    The data frames are objects in a store; a data source refers to its
    table by its location, and reading the attribute gives that location,
    not a copy.  A program takes the store, returns a value or raises, and
    leaves a store.  An object can be created ([new]), read ([get]) and
    overwritten ([set]): an operation with [inplace=True] or an assignment
    to a column overwrites the frame it is given.  The operations of the
    pipeline are [df.copy()], [df[mask]], [df[label]], [groupby(...).apply]
    with a function that reads its group, [reset_index()], [pd.merge],
    [~series] and [groupby(...).head(1)]: pandas documents each as
    returning a new object. *)

Abbreviation store := (gmap positive DataFrame).

Definition prog (A : Type) : Type := store → result A * store.

Global Instance prog_ret : MRet prog := λ A a σ, (Ok a, σ).
Global Instance prog_bind : MBind prog := λ A B k m σ,
  match m σ with
  | (Ok a, σ') => k a σ'
  | (Raise e, σ') => (Raise e, σ')
  end.

(** A computation that does not touch the store. *)
Definition lift {A} (r : result A) : prog A := λ σ, (r, σ).

(** A new object. *)
Definition new (df : DataFrame) : prog positive := λ σ,
  let l := fresh (dom σ) in (Ok l, <[l:=df]> σ).

(** The object at a location; reading the attribute of a data source that
    has no table raises. *)
Definition get (l : positive) : prog DataFrame := λ σ,
  match σ !! l with
  | Some df => (Ok df, σ)
  | None => (Raise (AttributeError "bioactivities_df"), σ)
  end.

(** The object at a location is overwritten. *)
Definition set (l : positive) (df : DataFrame) : prog unit := λ σ,
  (Ok (), <[l:=df]> σ).

Definition new_from (r : result DataFrame) : prog positive :=
  df ← lift r; new df.

(** An operation that reads one frame (two frames) and returns a new one. *)
Definition op1 (f : DataFrame → result DataFrame) (l : positive) : prog positive :=
  df ← get l; new_from (f df).

Definition op2 (f : DataFrame → DataFrame → result DataFrame) (l1 l2 : positive) : prog positive :=
  a ← get l1; b ← get l2; new_from (f a b).

(** An operation that changes the frame it is given ([inplace=True]). *)
Definition op1_inplace (f : DataFrame → result DataFrame) (l : positive) : prog unit :=
  df ← get l; df' ← lift (f df); set l df'.

(** An operation that reads one frame and returns a value. *)
Definition read {A} (f : DataFrame → result A) (l : positive) : prog A :=
  df ← get l; lift (f df).

(** A data source object: its table is a reference. *)
Record source_object := mkSourceObject {
  object_type : py_type;
  object_bioactivities_df : positive;
  object_smiles_column : string;
  object_compound_id_column : string;
  object_activity_column : string;
}.

(** The data source as a value, with the table [df]. *)
Definition snapshot (o : source_object) (df : DataFrame) : data_source :=
  {| type_of := object_type o; bioactivities_df := df;
     smiles_column := object_smiles_column o;
     compound_id_column := object_compound_id_column o;
     activity_column := object_activity_column o |}.

(** [Preprocessing._default_filter_chembl] on objects: each [df[valid_rows]]
    is a new frame, the name [bioactivities_df] is rebound to it. *)
Definition _default_filter_chembl_obj (bioactivities_df : positive) : prog positive :=
  relation ← read (λ df, getitem df "relation") bioactivities_df;
  bioactivities_df ← op1 (λ df, Ok (getitem_mask df (eq_str "=" <$> relation))) bioactivities_df;
  comment ← read (λ df, getitem df "data_validity_comment") bioactivities_df;
  bioactivities_df ← op1 (λ df, Ok (getitem_mask df (isnull <$> comment))) bioactivities_df;
  pchembl ← read (λ df, getitem df "pchembl_value") bioactivities_df;
  bioactivities_df ← op1 (λ df, Ok (getitem_mask df (negb <$> (isnull <$> pchembl)))) bioactivities_df;
  mret bioactivities_df.

Section Objects.
Context `{PyNumerics}.

(** [Preprocessing.clean_dataset] on objects. *)
Definition clean_dataset_obj (self : Preprocessing) (data_source : source_object) : prog positive :=
  bioactivities_df ← op1 (λ df, Ok (copy df)) (object_bioactivities_df data_source);
  bioactivities_df ←
    (if bool_decide (object_type data_source = ChEMBLApiDataSource)
     then _default_filter_chembl_obj bioactivities_df
     else lift (Raise unsupported_source));
  grouped_dataset ←
    read (λ df, groupby_apply df (object_compound_id_column data_source)
                  (λ x, _mark_to_remove self x (object_activity_column data_source)))
      bioactivities_df;
  right ← new_from (reset_index grouped_dataset);
  merged_df ← op2 pd_merge bioactivities_df right;
  mark ← read (λ df, getitem df "mark_to_remove") merged_df;
  keep ← lift (invert mark);
  merged_df ← op1 (λ df, Ok (getitem_mask df keep)) merged_df;
  op1 (λ df, groupby_head1 df (object_compound_id_column data_source)) merged_df.

End Objects.

(** What a program that returns a new frame does on the store [σ], against
    a computation [p] on values: the store only grows, and the program
    returns a location that was free and now holds the frame of [p], or
    raises the exception of [p]. *)
Definition returns_new (m : prog positive) (p : result DataFrame) (σ : store) : Prop :=
  ∃ σ', σ ⊆ σ' ∧
    match p with
    | Ok df => ∃ l, m σ = (Ok l, σ') ∧ σ !! l = None ∧ σ' !! l = Some df
    | Raise e => m σ = (Raise e, σ')
    end.

Definition returns_val {A} (m : prog A) (p : result A) (σ : store) : Prop :=
  ∃ σ', σ ⊆ σ' ∧ m σ = (p, σ').


(** ** Instances of the library functions

    Used to run the pipeline on examples.  [round64] rounds a rational to
    the nearest binary64 value, ties to even; every operation is the exact
    operation followed by [round64], as IEEE 754 prescribes, and the sum is
    numpy's pairwise summation.  Overflow is not part of the instance: the
    exponent is not bounded above, and [parse_float] reads neither literals
    of infinity nor literals beyond the largest binary64 value. *)

(** The integer nearest to [n / d] for [d > 0], ties to the even one. *)
Definition round_half_even (n d : Z) : Z :=
  let q := (n / d)%Z in
  let r := (n mod d)%Z in
  match (2 * r ?= d)%Z with
  | Lt => q
  | Gt => (q + 1)%Z
  | Eq => if Z.even q then q else (q + 1)%Z
  end.

(** [floor (log2 (a / d))] for positive [a] and [d]. *)
Definition log2_ratio (a d : Z) : Z :=
  let k := (Z.log2 a - Z.log2 d)%Z in
  if (if (0 <=? k)%Z then (d * 2 ^ k <=? a)%Z else (d <=? a * 2 ^ (- k))%Z)
  then k else (k - 1)%Z.

(** [m * 2 ^ e] *)
Definition scale2 (m e : Z) : Qc :=
  if (0 <=? e)%Z then Q2Qc (inject_Z (m * 2 ^ e))
  else Q2Qc (m # Z.to_pos (2 ^ (- e))).

(** 53 bits of precision, the smallest exponent of a unit in the last place
    is -1074. *)
Definition round64 (x : Qc) : Qc :=
  let n := Qnum x in
  let d := Zpos (Qden x) in
  if (n =? 0)%Z then 0
  else
    let a := Z.abs n in
    let e := Z.max (log2_ratio a d - 52) (-1074) in
    let m := if (0 <=? e)%Z then round_half_even a (d * 2 ^ e)
             else round_half_even (a * 2 ^ (- e)) d in
    scale2 (Z.sgn n * m) e.

(** The square root, rounded to the nearest binary64 value; 0 below 0,
    where numpy gives NaN. *)
Definition sqrt64 (x : Qc) : Qc :=
  let a := Qnum x in
  let d := Zpos (Qden x) in
  if (a <=? 0)%Z then 0
  else
    let e := Z.max (log2_ratio a d / 2 - 52) (-1074) in
    let N := if (0 <=? e)%Z then a else (a * 4 ^ (- e))%Z in
    let D := if (0 <=? e)%Z then (d * 4 ^ e)%Z else d in
    let m := Z.sqrt (N / D) in
    let m := match (4 * N ?= (2 * m + 1) * (2 * m + 1) * D)%Z with
             | Lt => m
             | Gt => (m + 1)%Z
             | Eq => if Z.even m then m else (m + 1)%Z
             end in
    scale2 m e.

(** Adding 0 and dividing by 1 change nothing. *)
Definition add64 (x y : Qc) : Qc :=
  if Qeq_bool (this x) 0%Q then y
  else if Qeq_bool (this y) 0%Q then x
  else round64 (x + y).
Definition sub64 (x y : Qc) : Qc := round64 (x - y).
Definition mul64 (x y : Qc) : Qc := round64 (x * y).
Definition div64 (x y : Qc) : Qc :=
  if Qeq_bool (this y) 1%Q then x else round64 (x / y).

(** numpy's pairwise summation ([pairwise_sum] of loops_utils.h): fewer
    than 8 values are added from left to right; up to 128 values are added
    into 8 running sums, which are then added in pairs, and the values
    beyond the last multiple of 8 are added one by one; a longer array is
    cut in two at a multiple of 8. *)
Fixpoint add_blocks (r a : list Qc) (k : nat) : list Qc * list Qc :=
  match k with
  | O => (r, a)
  | S k => add_blocks (zip_with add64 r (take 8 a)) (drop 8 a) k
  end.

Definition sum_block (a : list Qc) : Qc :=
  let '(r, rest) := add_blocks (take 8 a) (drop 8 a) (length a / 8 - 1) in
  match r with
  | [r0; r1; r2; r3; r4; r5; r6; r7] =>
      foldl add64
        (add64 (add64 (add64 r0 r1) (add64 r2 r3)) (add64 (add64 r4 r5) (add64 r6 r7)))
        rest
  | _ => 0
  end.

(** [fuel] bounds the depth of the cuts; the length of the array is
    enough. *)
Fixpoint pairwise_sum (fuel : nat) (a : list Qc) : Qc :=
  let n := length a in
  if (n <? 8)%nat then foldl add64 0 a
  else if (n <=? 128)%nat then sum_block a
  else
    match fuel with
    | O => 0
    | S fuel =>
        let n2 := (n / 2)%nat in
        let n2 := (n2 - n2 mod 8)%nat in
        add64 (pairwise_sum fuel (take n2 a)) (pairwise_sum fuel (drop n2 a))
    end.

Definition sum64 (a : list Qc) : Qc := add64 0 (pairwise_sum (length a) a).

(** Python's [float(s)] for the literals of finite values: white space
    around, a sign, digits with at most one point, an exponent; and [nan]. *)
Definition digit_of (a : ascii) : option Z :=
  let n := Z.of_nat (nat_of_ascii a) in
  if bool_decide (48 ≤ n ≤ 57)%Z then Some (n - 48)%Z else None.

Definition is_space (a : ascii) : bool :=
  let n := nat_of_ascii a in
  bool_decide (n = 32 ∨ 9 ≤ n ≤ 13)%nat.

Fixpoint lstrip (s : string) : string :=
  match s with
  | String a s' => if is_space a then lstrip s' else s
  | EmptyString => EmptyString
  end.

Fixpoint str_rev_app (s acc : string) : string :=
  match s with
  | EmptyString => acc
  | String a s => str_rev_app s (String a acc)
  end.

Definition strip (s : string) : string :=
  str_rev_app (lstrip (str_rev_app (lstrip s) "")) "".

(** The leading digits: their value after [acc], their number, the rest. *)
Fixpoint read_digits (s : string) (acc : Z) (n : nat) : Z * nat * string :=
  match s with
  | String a s' =>
      match digit_of a with
      | Some d => read_digits s' (10 * acc + d)%Z (S n)
      | None => (acc, n, s)
      end
  | EmptyString => (acc, n, EmptyString)
  end.

Definition read_sign (s : string) : bool * string :=
  match s with
  | String a s' =>
      if bool_decide (a = "-"%char) then (true, s')
      else if bool_decide (a = "+"%char) then (false, s')
      else (false, s)
  | EmptyString => (false, s)
  end.

Definition read_exponent (s : string) : option Z :=
  match s with
  | EmptyString => Some 0%Z
  | String a s' =>
      if bool_decide (a = "e"%char ∨ a = "E"%char) then
        let '(neg, s') := read_sign s' in
        let '(e, n, rest) := read_digits s' 0 0 in
        if bool_decide (n = 0%nat ∨ rest ≠ "") then None
        else Some (if neg : bool then (- e)%Z else e)
      else None
  end.

Definition max64 : Qc := scale2 (2 ^ 53 - 1) 971.

Definition parse_float (s : string) : option float64 :=
  let '(neg, s) := read_sign (strip s) in
  if bool_decide (str_lower s = "nan") then Some None
  else
    let '(int_part, ni, s) := read_digits s 0 0 in
    let '(m, nf, s) :=
      match s with
      | String a s' =>
          if bool_decide (a = "."%char) then read_digits s' int_part 0 else (int_part, 0%nat, s)
      | EmptyString => (int_part, 0%nat, s)
      end in
    if bool_decide (ni + nf = 0)%nat then None
    else
      e ← read_exponent s;
      let e := (e - Z.of_nat nf)%Z in
      let x := if (0 <=? e)%Z then Q2Qc (inject_Z (m * 10 ^ e))
               else Q2Qc (m # Z.to_pos (10 ^ (- e))) in
      let x := round64 (if neg : bool then - x else x) in
      if bool_decide ((- max64 ≤ x)%Qc ∧ (x ≤ max64)%Qc) then Some (Some x) else None.

Definition binary64_numerics : PyNumerics :=
  {| py_float := parse_float;
     py_float_of_int := λ z, round64 (Q2Qc (inject_Z z));
     np_sum := sum64;
     np_sub := sub64;
     np_mul := mul64;
     np_div := div64;
     np_sqrt := sqrt64;
     np_sum_one := λ x, eq_refl;
     np_sub_diag := λ x, f_equal round64 (Qcplus_opp_r x);
     np_mul_zero := eq_refl;
     np_div_one := λ x, eq_refl |}.

(** [str.lower()] on ASCII letters; the other bytes are kept. *)
Definition ascii_strings : PyStrings :=
  {| py_lower := str_lower; py_lower_ascii := λ s _, eq_refl |}.

(** ** Example tables *)

Definition chembl_columns : list string :=
  ["parent_molecule_chembl_id"; "canonical_smiles"; "standard_type"; "relation";
   "data_validity_comment"; "pchembl_value"].

Definition chembl_row (id smiles relation : string) (comment pchembl : cell) : gmap string cell :=
  list_to_map
    [("parent_molecule_chembl_id", Str id); ("canonical_smiles", Str smiles);
     ("standard_type", Str "IC50"); ("relation", Str relation);
     ("data_validity_comment", comment); ("pchembl_value", pchembl)].

(** Compound A measured twice (5.0 and 5.2), compound B measured twice (9.0
    and 20.0), compound C once, and one censored measurement of compound A. *)
Definition example_raw : DataFrame :=
  {| columns := chembl_columns;
     rows := [chembl_row "A" "CCO" "<" Null (Str "4.0");
              chembl_row "A" "CCO" "=" Null (Str "5.0");
              chembl_row "A" "CCO" "=" Null (Str "5.2");
              chembl_row "B" "CCN" "=" Null (Str "9.0");
              chembl_row "B" "CCN" "=" Null (Str "20.0");
              chembl_row "C" "CCC" "=" Null (Str "7.5")] |}.

Definition chembl_source (df : DataFrame) : data_source :=
  {| type_of := ChEMBLApiDataSource; bioactivities_df := df;
     smiles_column := "canonical_smiles";
     compound_id_column := "parent_molecule_chembl_id";
     activity_column := "pchembl_value" |}.

Definition csv_source (df : DataFrame) : data_source :=
  {| type_of := OtherType "CsvDataSource"; bioactivities_df := df;
     smiles_column := "canonical_smiles";
     compound_id_column := "parent_molecule_chembl_id";
     activity_column := "pchembl_value" |}.

Definition example_source : data_source := chembl_source example_raw.

Definition empty_raw : DataFrame := {| columns := chembl_columns; rows := [] |}.

Definition default_preprocessing : Preprocessing := Preprocessing_init None.

(** The table [clean_dataset] returns on the example, or an empty frame. *)
Definition example_clean : DataFrame :=
  match @clean_dataset binary64_numerics default_preprocessing example_source with
  | Ok out => out
  | Raise _ => {| columns := []; rows := [] |}
  end.

(** A raw table in which every compound has a single valid measurement. *)
Definition singles_raw : DataFrame :=
  {| columns := chembl_columns;
     rows := [chembl_row "A" "CCO" "<" Null (Str "4.0");
              chembl_row "A" "CCO" "=" Null (Str "5.0");
              chembl_row "C" "CCC" "=" Null (Str "7.5")] |}.

Definition singles_clean : DataFrame :=
  match @clean_dataset binary64_numerics default_preprocessing (chembl_source singles_raw) with
  | Ok out => out
  | Raise _ => {| columns := []; rows := [] |}
  end.

(** The table [clean_dataset] returns on the cleaned example. *)
Definition example_clean_again : DataFrame :=
  match @clean_dataset binary64_numerics default_preprocessing
          (with_table example_source example_clean) with
  | Ok out => out
  | Raise _ => {| columns := []; rows := [] |}
  end.

(** The first row of the cleaned example, the row of compound A. *)
Definition example_clean_first : gmap string cell :=
  default ∅ (head (rows example_clean)).

(** The example after the filter of the remote-database variant. *)
Definition example_filtered : DataFrame :=
  {| columns := chembl_columns; rows := filter chembl_valid (rows example_raw) |}.



(** ** Closed forms for the fetch, and the line of the progress bar *)

(** Whether [get_compound_df] keeps the record: the decision on the value
    under its key [standard_type]. *)
Definition record_accepted `{PyStrings} (standard_types : option (list string))
    (compound_dict : list (string * pyval)) : bool :=
  match record_getitem compound_dict "standard_type" with
  | Ok (PCell v) => accepted standard_types v
  | _ => false
  end.

(** [s * n] on strings. *)
Fixpoint str_repeat (s : string) (n : nat) : string :=
  match n with
  | O => ""
  | S n => s +:+ str_repeat s n
  end.

(** What [print_progress_bar(iteration, total, length=length, fill=fill)]
    draws, for non-negative arguments: the bar between the two [|], and
    whether the final newline is printed.  The percentage, a formatted
    float, is left out. *)
Definition print_progress_bar_line (iteration total length : nat) (fill : string) :
    result (string * bool) :=
  if bool_decide (total = 0)%nat then Raise ZeroDivisionError
  else
    let filledLength := (length * iteration / total)%nat in
    let bar := str_repeat fill filledLength +:+ str_repeat "-" (length - filledLength) in
    Ok (bar, bool_decide (iteration = total)).

(** Raw tables on which [clean_dataset] raises: one without the column
    pchembl_value, one with censored measurements only, one with an
    activity that does not read as a float. *)
Definition no_pchembl_raw : DataFrame :=
  {| columns := ["parent_molecule_chembl_id"; "relation"; "data_validity_comment"];
     rows := [] |}.

Definition censored_raw : DataFrame :=
  {| columns := chembl_columns;
     rows := [chembl_row "A" "CCO" "<" Null (Str "4.0");
              chembl_row "B" "CCN" ">" Null (Str "9.0")] |}.

Definition unreadable_raw : DataFrame :=
  {| columns := chembl_columns;
     rows := [chembl_row "A" "CCO" "=" Null (Str "5.0");
              chembl_row "C" "CCC" "=" Null (Str "high")] |}.

(** The valid measurements of compound B in the example, and their Series. *)
Definition example_group_B : DataFrame :=
  get_group example_filtered "parent_molecule_chembl_id" (Str "B").

Definition example_series_B : list (string * cell) :=
  match @_mark_to_remove binary64_numerics default_preprocessing example_group_B
          "pchembl_value" with
  | Ok s => s
  | Raise _ => []
  end.

(** The data source built from three records of the API for the accepted
    type ic50, and from a record without measurement type alone. *)
Definition example_records : list (list (string * pyval)) :=
  [record_ic50; record_untyped; record_ki].

Definition example_fetch : data_source :=
  match @ChEMBLApiDataSource_init ascii_strings "CHEMBL202" (TypesStr "ic50") example_records with
  | Ok ds => ds
  | Raise _ => chembl_source empty_raw
  end.

Definition untyped_fetch : data_source :=
  match @ChEMBLApiDataSource_init ascii_strings "CHEMBL202" (TypesStr "ic50") [record_untyped] with
  | Ok ds => ds
  | Raise _ => chembl_source empty_raw
  end.

(** The frame of the first record. *)
Definition example_compound_df : DataFrame :=
  match @get_compound_df ascii_strings (Some ["ic50"]) 3 0 record_ic50 with
  | Ok df => df
  | Raise _ => empty_raw
  end.



(** An object of the class DataSource: the class sets no attribute
    [bioactivities_df], the store holds no table for it. *)
Definition bare_source : source_object :=
  {| object_type := DataSource; object_bioactivities_df := 1%positive;
     object_smiles_column := "canonical_smiles";
     object_compound_id_column := "parent_molecule_chembl_id";
     object_activity_column := "pchembl_value" |}.

(** A raw table with a group at the threshold: the measurements 2.4 and 4.4
    of compound D are 2 apart, so that their standard deviation is 1 in
    exact arithmetic and 1.0000000000000002 in binary64. *)
Definition borderline_raw : DataFrame :=
  {| columns := chembl_columns;
     rows := [chembl_row "D" "CCO" "=" Null (Str "2.4");
              chembl_row "D" "CCO" "=" Null (Str "4.4");
              chembl_row "C" "CCC" "=" Null (Str "7.5")] |}.

Definition borderline_clean : DataFrame :=
  match @clean_dataset binary64_numerics default_preprocessing (chembl_source borderline_raw) with
  | Ok out => out
  | Raise _ => {| columns := []; rows := [] |}
  end.

(** * Properties *)

(** ** The error monad *)

Lemma bind_Ok {A B} (m : result A) (k : A → result B) (b : B) :
  m ≫= k = Ok b ↔ ∃ a, m = Ok a ∧ k a = Ok b.
Proof.
  destruct m as [a|e]; simpl.
  - split; [intros; by exists a | by intros (? & [= ->] & ?)].
  - split; [done | by intros (? & ? & ?)].
Qed.

Lemma bind_Raise {A B} (m : result A) (k : A → result B) (e : exn) :
  m ≫= k = Raise e ↔ m = Raise e ∨ ∃ a, m = Ok a ∧ k a = Raise e.
Proof.
  destruct m as [a|e']; simpl.
  - split; [intros; right; by exists a | by intros [? | (? & [= ->] & ?)]].
  - split; [intros [= ->]; by left | by intros [[= ->] | (? & ? & ?)]].
Qed.

Lemma result_mapM_Ok {A B} (f : A → result B) (l : list A) (bs : list B) :
  result_mapM f l = Ok bs ↔ Forall2 (λ a b, f a = Ok b) l bs.
Proof.
  revert bs. induction l as [|a l IH]; intros bs; simpl.
  - split; [intros [= <-]; constructor | by inversion 1].
  - rewrite bind_Ok. split.
    + intros (b & Hb & Hrest). apply bind_Ok in Hrest as (bs' & Hbs' & [= <-]).
      constructor; [done | by apply IH].
    + inversion 1 as [|? b ? bs' Hb Hbs']; subst. exists b. split; [done|].
      apply bind_Ok. exists bs'. split; [by apply IH | done].
Qed.

Lemma result_mapM_Raise {A B} (f : A → result B) (l : list A) (e : exn) :
  result_mapM f l = Raise e → ∃ a, a ∈ l ∧ f a = Raise e.
Proof.
  induction l as [|a l IH]; simpl; [done|].
  rewrite bind_Raise. intros [Ha | (b & Hb & Hrest)].
  - exists a. split; [left | done].
  - apply bind_Raise in Hrest as [Hl | (bs & _ & [=])].
    destruct (IH Hl) as (a' & ? & ?). exists a'. split; [by right | done].
Qed.

(** ** Row selection *)

Lemma select_rows_fmap {A} (p : A → bool) (l : list A) :
  select_rows l (p <$> l) = filter (λ x, p x = true) l.
Proof.
  induction l as [|x l IH]; [done|].
  rewrite fmap_cons. simpl. rewrite IH. destruct (p x) eqn:Hp.
  - by rewrite filter_cons_True.
  - rewrite filter_cons_False; [done | by rewrite Hp].
Qed.

Lemma getitem_Ok df col cells :
  getitem df col = Ok cells ↔
  col ∈ columns df ∧ cells = (λ r, at_col r col) <$> rows df.
Proof.
  unfold getitem. case_bool_decide as Hc.
  - split; [by intros [= <-] | by intros [_ ->]].
  - split; [done | by intros [? _]].
Qed.

Lemma getitem_Raise df col e :
  getitem df col = Raise e ↔ (col ∉ columns df) ∧ e = KeyError col.
Proof.
  unfold getitem. case_bool_decide as Hc.
  - split; [done | by intros [? _]].
  - split; [by intros [= <-] | by intros [_ ->]].
Qed.

(** ** The ChEMBL filter *)

Lemma eq_str_true s c : eq_str s c = true ↔ c = Str s.
Proof.
  destruct c; simpl; try (split; [done | by intros [=]]).
  rewrite bool_decide_eq_true. naive_solver.
Qed.

Lemma isnull_true c : isnull c = true ↔ c = Null.
Proof. by destruct c. Qed.

Lemma filter_filter_and {A} (P Q : A → Prop) `{∀ x, Decision (P x)} `{∀ x, Decision (Q x)} (l : list A) :
  filter Q (filter P l) = filter (λ x, P x ∧ Q x) l.
Proof.
  induction l as [|x l IH]; [done|].
  destruct (decide (P x)) as [HP|HP].
  - rewrite (filter_cons_True P) by done.
    destruct (decide (Q x)) as [HQ|HQ].
    + rewrite !filter_cons_True by done. by f_equal.
    + rewrite !filter_cons_False by tauto. done.
  - rewrite (filter_cons_False P) by done.
    rewrite (filter_cons_False (λ x, P x ∧ Q x)) by tauto. done.
Qed.

Lemma filter_ext_iff {A} (P Q : A → Prop) `{∀ x, Decision (P x)} `{∀ x, Decision (Q x)} (l : list A) :
  (∀ x, x ∈ l → P x ↔ Q x) → filter P l = filter Q l.
Proof.
  induction l as [|x l IH]; intros Hext; [done|].
  assert (filter P l = filter Q l) as Hl by (apply IH; intros; apply Hext; by right).
  destruct (decide (P x)) as [HP|HP].
  - rewrite !filter_cons_True; [by f_equal | by apply Hext; [left|] | done].
  - rewrite !filter_cons_False; [done | | done]. intros HQ. apply HP, Hext; [left | done].
Qed.

Lemma filter_comm {A} (P Q : A → Prop) `{∀ x, Decision (P x)} `{∀ x, Decision (Q x)} (l : list A) :
  filter P (filter Q l) = filter Q (filter P l).
Proof.
  rewrite !filter_filter_and. apply filter_ext_iff. tauto.
Qed.

Lemma default_filter_chembl_Ok df df' :
  _default_filter_chembl df = Ok df' ↔
  "relation" ∈ columns df ∧ "data_validity_comment" ∈ columns df ∧
  "pchembl_value" ∈ columns df ∧
  df' = {| columns := columns df; rows := filter chembl_valid (rows df) |}.
Proof.
  unfold _default_filter_chembl. rewrite bind_Ok. setoid_rewrite getitem_Ok.
  split.
  - intros (rel & [Hrel ->] & Hrest).
    apply bind_Ok in Hrest as (cm & [Hcm ->]%getitem_Ok & Hrest).
    apply bind_Ok in Hrest as (pv & [Hpv ->]%getitem_Ok & [= <-]).
    simpl in *. split_and!; try done.
    unfold getitem_mask; simpl. f_equal.
    rewrite <-!list_fmap_compose, !select_rows_fmap, !filter_filter_and.
    apply filter_ext_iff. intros r _. unfold chembl_valid; simpl.
    rewrite eq_str_true, isnull_true, negb_true_iff, <-not_true_iff_false, isnull_true.
    tauto.
  - intros (Hrel & Hcm & Hpv & ->). eexists. split; [done|].
    apply bind_Ok. eexists. split; [by apply getitem_Ok|].
    apply bind_Ok. eexists. split; [by apply getitem_Ok|].
    unfold getitem_mask; simpl. do 2 f_equal.
    rewrite <-!list_fmap_compose, !select_rows_fmap, !filter_filter_and.
    apply filter_ext_iff. intros r _. unfold chembl_valid; simpl.
    rewrite eq_str_true, isnull_true, negb_true_iff, <-not_true_iff_false, isnull_true.
    tauto.
Qed.

(** ** Dict literals and the summary Series *)

Lemma list_to_map_dict_set k v (d : list (string * cell)) :
  (list_to_map (dict_set k v d) : gmap string cell) = <[k:=v]> (list_to_map d).
Proof.
  induction d as [|[k' v'] d IH]; simpl; [done|].
  case_bool_decide as Hk; simpl.
  - destruct Hk. by rewrite insert_insert_eq.
  - rewrite IH. by apply insert_insert_ne.
Qed.

Lemma dict_set_keys k v (d : list (string * cell)) :
  (dict_set k v d).*1 = if bool_decide (k ∈ d.*1) then d.*1 else d.*1 ++ [k].
Proof.
  induction d as [|[k' v'] d IH]; [done|].
  rewrite fmap_cons. cbn [dict_set fst].
  destruct (decide (k = k')) as [<-|Hk].
  - rewrite bool_decide_eq_true_2 by done.
    rewrite bool_decide_eq_true_2 by (apply elem_of_cons; by left). done.
  - rewrite (bool_decide_eq_false_2 (k = k')) by done.
    rewrite fmap_cons, IH. cbn [fst].
    destruct (decide (k ∈ d.*1)) as [Hin|Hin].
    + rewrite !bool_decide_eq_true_2; [done | apply elem_of_cons; by right | done].
    + rewrite !bool_decide_eq_false_2; [done | | done].
      by intros [?|?]%elem_of_cons.
Qed.

Lemma py_dict_keys (items : list (string * cell)) :
  (py_dict items).*1 = unique_in_order (items.*1).
Proof.
  unfold py_dict, unique_in_order.
  assert (∀ acc : list (string * cell),
    (foldl (λ d kv, dict_set kv.1 kv.2 d) acc items).*1 =
    foldl (λ acc k, if bool_decide (k ∈ acc) then acc else acc ++ [k]) (acc.*1) (items.*1)) as Hgen.
  { induction items as [|[k v] items IH]; intros acc; simpl; [done|].
    rewrite IH. by rewrite dict_set_keys. }
  apply (Hgen []).
Qed.

Lemma list_to_map_py_dict (items : list (string * cell)) :
  (list_to_map (py_dict items) : gmap string cell) =
  foldl (λ m kv, <[kv.1:=kv.2]> m) ∅ items.
Proof.
  unfold py_dict.
  assert (∀ acc : list (string * cell),
    (list_to_map (foldl (λ d kv, dict_set kv.1 kv.2 d) acc items) : gmap string cell) =
    foldl (λ m kv, <[kv.1:=kv.2]> m) (list_to_map acc) items) as Hgen.
  { induction items as [|[k v] items IH]; intros acc; simpl; [done|].
    rewrite IH. by rewrite list_to_map_dict_set. }
  apply (Hgen []).
Qed.

Lemma elem_of_unique_in_order k ks : k ∈ unique_in_order ks ↔ k ∈ ks.
Proof.
  unfold unique_in_order.
  assert (∀ acc, k ∈ foldl (λ acc k, if bool_decide (k ∈ acc) then acc else acc ++ [k]) acc ks
                 ↔ k ∈ acc ∨ k ∈ ks) as Hgen.
  { induction ks as [|k' ks IH]; intros acc; simpl.
    - rewrite elem_of_nil. tauto.
    - rewrite IH, elem_of_cons. case_bool_decide as Hin.
      + split; [tauto|]. intros [?|[->|?]]; tauto.
      + rewrite elem_of_app, list_elem_of_singleton. tauto. }
  rewrite Hgen, elem_of_nil. tauto.
Qed.

Lemma NoDup_unique_in_order ks : NoDup (unique_in_order ks).
Proof.
  unfold unique_in_order.
  assert (∀ acc, NoDup acc →
    NoDup (foldl (λ acc k, if bool_decide (k ∈ acc) then acc else acc ++ [k]) acc ks)) as Hgen.
  { induction ks as [|k' ks IH]; intros acc Hacc; simpl; [done|].
    apply IH. case_bool_decide as Hin; [done|].
    apply NoDup_app. split_and!; [done | | apply NoDup_singleton].
    intros x Hx ->%list_elem_of_singleton. done. }
  apply Hgen. constructor.
Qed.

Lemma elem_of_summary_columns self c :
  c ∈ summary_columns self ↔
  c = "number_compounds" ∨ c = "standard_deviation" ∨ c = self_activity_column self ∨
  c = "duplicated" ∨ c = "mark_to_remove".
Proof.
  unfold summary_columns. rewrite elem_of_unique_in_order.
  rewrite !elem_of_cons, elem_of_nil. tauto.
Qed.

Lemma mark_in_summary_columns self : "mark_to_remove" ∈ summary_columns self.
Proof. apply elem_of_summary_columns. tauto. Qed.

(** The summary columns when the median column has a name of its own. *)
Lemma summary_columns_distinct self :
  self_activity_column self ∉
    ["number_compounds"; "standard_deviation"; "duplicated"; "mark_to_remove"] →
  summary_columns self =
    ["number_compounds"; "standard_deviation"; self_activity_column self;
     "duplicated"; "mark_to_remove"].
Proof.
  intros Hnot. unfold summary_columns, unique_in_order. simpl.
  rewrite !elem_of_cons, elem_of_nil in Hnot.
  rewrite (bool_decide_eq_false_2 (self_activity_column self ∈ _)).
  2: { rewrite !elem_of_cons, elem_of_nil. tauto. }
  rewrite (bool_decide_eq_false_2 ("duplicated" ∈ _)).
  2: { rewrite !elem_of_cons, elem_of_nil. intros [?|[?|[Heq|?]]]; try done. symmetry in Heq. tauto. }
  simpl.
  rewrite (bool_decide_eq_false_2 ("mark_to_remove" ∈ _)).
  2: { rewrite !elem_of_cons, elem_of_nil. intros [?|[?|[Heq|[?|?]]]]; try done. symmetry in Heq. tauto. }
  done.
Qed.

(** ** Rows, projections and joins *)

Lemma lookup_project cols (r : gmap string cell) c :
  project cols r !! c = if decide (c ∈ cols) then r !! c else None.
Proof.
  unfold project. destruct (decide (c ∈ cols)) as [Hc|Hc].
  - destruct (r !! c) as [x|] eqn:Hr.
    + by apply map_lookup_filter_Some.
    + apply map_lookup_filter_None. left. done.
  - apply map_lookup_filter_None. right. intros x _. done.
Qed.

Lemma at_col_project cols r c :
  at_col (project cols r) c = if decide (c ∈ cols) then at_col r c else Null.
Proof. unfold at_col. rewrite lookup_project. by destruct (decide _). Qed.

Lemma at_col_union (a b : gmap string cell) c :
  at_col (a ∪ b) c = match a !! c with Some x => x | None => at_col b c end.
Proof.
  unfold at_col. rewrite lookup_union. destruct (a !! c), (b !! c); done.
Qed.

Lemma at_col_joined_left cols extra l R c :
  c ∈ cols → c ∉ extra →
  at_col (project cols l ∪ project extra R) c = at_col l c.
Proof.
  intros Hc Hne. rewrite at_col_union, lookup_project, decide_True by done.
  destruct (l !! c) as [x|] eqn:Hl; unfold at_col.
  - by rewrite Hl.
  - rewrite Hl, lookup_project, decide_False by done. done.
Qed.

Lemma at_col_joined_right cols extra l R c :
  c ∉ cols → c ∈ extra →
  at_col (project cols l ∪ project extra R) c = at_col R c.
Proof.
  intros Hc Hin. rewrite at_col_union, lookup_project, decide_False by done.
  by rewrite at_col_project, decide_True.
Qed.

Lemma project_dom cols (r : gmap string cell) c :
  is_Some (project cols r !! c) → c ∈ cols.
Proof. rewrite lookup_project. destruct (decide _); [done | by intros [? ?]]. Qed.

Lemma project_id cols (r : gmap string cell) :
  (∀ c, is_Some (r !! c) → c ∈ cols) → project cols r = r.
Proof.
  intros Hdom. apply map_eq. intros c. rewrite lookup_project.
  destruct (decide _) as [|Hc]; [done|].
  destruct (r !! c) eqn:Hr; [|done]. exfalso. apply Hc, Hdom. by rewrite Hr.
Qed.

Lemma project_nil (r : gmap string cell) : project [] r = ∅.
Proof.
  apply map_eq. intros c. rewrite lookup_project, lookup_empty.
  destruct (decide _) as [Hc|]; [by apply elem_of_nil in Hc | done].
Qed.

(** ** [groupby(...).head(1)] *)

Lemma head1_filter by_ seen l k :
  k ≠ Null →
  filter (λ r, at_col r by_ = k) (head1 by_ seen l) =
  if decide (k ∈ seen) then [] else take 1 (filter (λ r, at_col r by_ = k) l).
Proof.
  intros Hk. revert seen. induction l as [|r l IH]; intros seen.
  - simpl. by destruct (decide _).
  - cbn [head1]. destruct (decide (at_col r by_ = k)) as [Heq|Hne].
    + rewrite (bool_decide_eq_false_2 (at_col r by_ = Null)) by congruence.
      rewrite (filter_cons_True _ r l) by done.
      destruct (decide (k ∈ seen)) as [Hs|Hs].
      * rewrite bool_decide_eq_true_2 by (by rewrite Heq).
        rewrite IH. by rewrite decide_True.
      * rewrite bool_decide_eq_false_2 by (by rewrite Heq).
        rewrite filter_cons_True by done. rewrite IH.
        rewrite decide_True by (rewrite Heq; left). done.
    + rewrite (filter_cons_False _ r l) by done.
      case_bool_decide as Hnull; [apply IH|].
      case_bool_decide as Hseen; [apply IH|].
      rewrite filter_cons_False by done. rewrite IH.
      destruct (decide (k ∈ seen)) as [Hs|Hs].
      * rewrite decide_True by (by right). done.
      * rewrite decide_False; [done|]. intros [?|?]%elem_of_cons; congruence.
Qed.

Lemma elem_of_head1 by_ seen l r :
  r ∈ head1 by_ seen l → r ∈ l ∧ at_col r by_ ≠ Null ∧ at_col r by_ ∉ seen.
Proof.
  revert seen. induction l as [|r' l IH]; intros seen; cbn [head1].
  - by intros ?%elem_of_nil.
  - case_bool_decide as Hnull.
    { intros (? & ? & ?)%IH. split_and!; [by right | done | done]. }
    case_bool_decide as Hseen.
    { intros (? & ? & ?)%IH. split_and!; [by right | done | done]. }
    intros [->|Hin]%elem_of_cons.
    + split_and!; [by left | done | done].
    + apply IH in Hin as (? & ? & Hns). split_and!; [by right | done |].
      intros Hs. apply Hns. by right.
Qed.

Lemma head1_all by_ seen l :
  NoDup (ids_of by_ l) →
  (∀ r, r ∈ l → at_col r by_ ≠ Null ∧ at_col r by_ ∉ seen) →
  head1 by_ seen l = l.
Proof.
  revert seen. induction l as [|r l IH]; intros seen Hnd Hall; [done|].
  cbn [head1]. destruct (Hall r) as [Hn Hs]; [by left|].
  rewrite bool_decide_eq_false_2 by done. rewrite bool_decide_eq_false_2 by done.
  f_equal. unfold ids_of in Hnd. rewrite fmap_cons in Hnd.
  apply NoDup_cons in Hnd as [Hr Hnd]. apply IH; [done|].
  intros r' Hr'. destruct (Hall r') as [? ?]; [by right|]. split; [done|].
  intros [Heq|?]%elem_of_cons; [|done].
  apply Hr. rewrite <-Heq. apply list_elem_of_fmap. by exists r'.
Qed.

(** The identifiers of the rows that [head(1)] returns are pairwise distinct. *)
Lemma head1_NoDup by_ seen l : NoDup (ids_of by_ (head1 by_ seen l)).
Proof.
  revert seen. induction l as [|r l IH]; intros seen; cbn [head1].
  - constructor.
  - case_bool_decide as Hnull; [apply IH|].
    case_bool_decide as Hseen; [apply IH|].
    unfold ids_of. rewrite fmap_cons. apply NoDup_cons. split; [|apply IH].
    intros (r' & Heq & Hin)%list_elem_of_fmap.
    apply elem_of_head1 in Hin as (_ & _ & Hns). apply Hns. rewrite <-Heq. by left.
Qed.

(** ** Inverting the mark column *)

Lemma invert_select (l : list (gmap string cell)) keep :
  invert ((λ r, at_col r "mark_to_remove") <$> l) = Ok keep →
  select_rows l keep = filter not_marked l.
Proof.
  unfold invert. rewrite result_mapM_Ok. revert keep.
  induction l as [|r l IH]; intros keep Hall.
  - by inversion Hall.
  - rewrite fmap_cons in Hall. inversion Hall as [|c b ? keep' Hc Hrest]; subst.
    cbn [select_rows]. rewrite (IH _ Hrest).
    destruct (at_col r "mark_to_remove") as [| | | |m] eqn:Hm; try done.
    injection Hc as <-. destruct m; simpl.
    + rewrite filter_cons_False; [done|]. unfold not_marked. by rewrite Hm.
    + rewrite filter_cons_True; [done|]. unfold not_marked. by rewrite Hm.
Qed.

Lemma invert_Ok_intro (cells : list cell) :
  (∀ c, c ∈ cells → ∃ b, c = Bool b) → ∃ keep, invert cells = Ok keep.
Proof.
  induction cells as [|c cells IH]; intros Hall.
  - by exists [].
  - destruct (Hall c) as [b ->]; [by left|].
    destruct IH as [keep Hkeep]; [intros; apply Hall; by right|].
    exists (negb b :: keep). unfold invert in *. simpl. by rewrite Hkeep.
Qed.

(** ** Joining the summary back *)

Lemma filter_unique_key {K R} (g : K → result R) (Q : R → Prop)
    `{∀ x, Decision (Q x)} `{EqDecision K} (k0 : K) (keys : list K) (Rs : list R) :
  Forall2 (λ k r, g k = Ok r) keys Rs →
  NoDup keys →
  (∀ k r, g k = Ok r → Q r → k = k0) →
  filter Q Rs =
    match g k0 with
    | Ok r0 => if decide (k0 ∈ keys ∧ Q r0) then [r0] else []
    | Raise _ => []
    end.
Proof.
  intros Hall Hnd Hkey. induction Hall as [|k r keys Rs Hk Hall IH].
  - destruct (g k0); [|done]. rewrite decide_False; [done|].
    intros [?%elem_of_nil _]. done.
  - apply NoDup_cons in Hnd as [Hnotin Hnd]. specialize (IH Hnd).
    destruct (decide (Q r)) as [HQ|HQ].
    + assert (k = k0) as -> by eauto. rewrite Hk in *.
      rewrite filter_cons_True by done. rewrite IH.
      rewrite (decide_False (P := k0 ∈ keys ∧ Q r)) by tauto.
      rewrite decide_True; [done|]. split; [by left | done].
    + rewrite filter_cons_False by done. rewrite IH.
      destruct (g k0) as [r0|] eqn:Hg0; [|done].
      destruct (decide (k0 ∈ keys ∧ Q r0)) as [[Hin HQ0]|Hno].
      * rewrite decide_True; [done|]. split; [by right | done].
      * rewrite decide_False; [done|]. intros [[->|Hin]%elem_of_cons HQ0].
        -- rewrite Hk in Hg0. injection Hg0 as ->. done.
        -- tauto.
Qed.

Lemma list_bind_ext_in {A B} (f g : A → list B) (l : list A) :
  (∀ x, x ∈ l → f x = g x) → l ≫= f = l ≫= g.
Proof.
  induction l as [|x l IH]; intros Hext; [done|].
  rewrite !bind_cons. rewrite Hext by left. f_equal. apply IH.
  intros y Hy. apply Hext. by right.
Qed.

Lemma elem_of_group_keys (col : list cell) k :
  k ∈ group_keys col ↔ k ≠ Null ∧ k ∈ col.
Proof. unfold group_keys. by rewrite elem_of_remove_dups, list_elem_of_filter. Qed.

Lemma NoDup_group_keys col : NoDup (group_keys col).
Proof. apply NoDup_remove_dups. Qed.

Lemma remove_dups_NoDup {A} `{EqDecision A} (l : list A) : NoDup l → remove_dups l = l.
Proof.
  induction 1 as [|x l Hx Hnd IH]; [done|]. simpl.
  rewrite IH. by destruct (decide_rel _ x l).
Qed.

Lemma filter_all {A} (P : A → Prop) `{∀ x, Decision (P x)} (l : list A) :
  (∀ x, x ∈ l → P x) → filter P l = l.
Proof.
  induction l as [|x l IH]; intros Hall; [done|].
  rewrite filter_cons_True by (apply Hall; left). f_equal. apply IH.
  intros y Hy. apply Hall. by right.
Qed.

Lemma filter_none {A} (P : A → Prop) `{∀ x, Decision (P x)} (l : list A) :
  (∀ x, x ∈ l → ¬ P x) → filter P l = [].
Proof.
  induction l as [|x l IH]; intros Hall; [done|].
  rewrite filter_cons_False by (apply Hall; left). apply IH.
  intros y Hy. apply Hall. by right.
Qed.

(** ** The cleaning pipeline *)

Section Cleaning_properties.
Context `{PyNumerics}.

Implicit Types (self : Preprocessing) (ds : data_source) (F out : DataFrame).
Implicit Types (l r R : gmap string cell) (k : cell).

Lemma mark_to_remove_Ok self data act s :
  _mark_to_remove self data act = Ok s ↔
  act ∈ columns data ∧
  ∃ vals, astype_float ((λ r, at_col r act) <$> rows data) = Ok vals ∧
          s = summary_series self (length (rows data)) vals.
Proof.
  unfold _mark_to_remove. rewrite bind_Ok. split.
  - intros (col & [Hact ->]%getitem_Ok & Hrest).
    apply bind_Ok in Hrest as (vals & Hvals & [= <-]).
    split; [done|]. by exists vals.
  - intros (Hact & vals & Hvals & ->). eexists. split; [by apply getitem_Ok|].
    apply bind_Ok. by exists vals.
Qed.

Lemma summary_series_keys self n vals :
  (summary_series self n vals).*1 = summary_columns self.
Proof. unfold summary_series. by rewrite py_dict_keys. Qed.

Lemma summary_series_mark self n vals :
  (list_to_map (summary_series self n vals) : gmap string cell) !! "mark_to_remove"
  = Some (Bool (gt_one (np_std vals))).
Proof.
  unfold summary_series. rewrite list_to_map_py_dict. simpl.
  by rewrite lookup_insert_eq.
Qed.

Lemma summary_series_dom self n vals c :
  is_Some ((list_to_map (summary_series self n vals) : gmap string cell) !! c) →
  c ∈ summary_columns self.
Proof.
  intros [x Hx]. apply elem_of_list_to_map_2 in Hx.
  rewrite <-(summary_series_keys self n vals). apply list_elem_of_fmap. by exists (c, x).
Qed.

Lemma summary_row_Ok self ds F k R :
  summary_row self ds F k = Ok R ↔
  activity_column ds ∈ columns F ∧
  ∃ vals,
    astype_float ((λ r, at_col r (activity_column ds)) <$>
                  filter (λ r, at_col r (compound_id_column ds) = k) (rows F)) = Ok vals ∧
    R = <[compound_id_column ds := k]>
          (list_to_map (summary_series self
             (length (filter (λ r, at_col r (compound_id_column ds) = k) (rows F))) vals)).
Proof.
  unfold summary_row. rewrite bind_Ok. setoid_rewrite mark_to_remove_Ok. simpl.
  split.
  - intros (s & (Hact & vals & Hvals & ->) & [= <-]). split; [done|]. by exists vals.
  - intros (Hact & vals & Hvals & ->). eexists. split; [|done].
    split; [done|]. by exists vals.
Qed.

Lemma summary_row_id self ds F k R :
  summary_row self ds F k = Ok R → at_col R (compound_id_column ds) = k.
Proof.
  intros (_ & vals & _ & ->)%summary_row_Ok. unfold at_col.
  by rewrite lookup_insert_eq.
Qed.

Lemma summary_row_mark self ds F k R :
  compound_id_column ds ∉ summary_columns self →
  summary_row self ds F k = Ok R →
  ∃ vals,
    astype_float ((λ r, at_col r (activity_column ds)) <$>
                  filter (λ r, at_col r (compound_id_column ds) = k) (rows F)) = Ok vals ∧
    at_col R "mark_to_remove" = Bool (gt_one (np_std vals)).
Proof.
  intros Hid (_ & vals & Hvals & ->)%summary_row_Ok. exists vals. split; [done|].
  unfold at_col. rewrite lookup_insert_ne.
  - by rewrite summary_series_mark.
  - intros Heq. apply Hid. rewrite Heq. apply mark_in_summary_columns.
Qed.

Lemma summary_row_dom self ds F k R c :
  summary_row self ds F k = Ok R → is_Some (R !! c) →
  c ∈ compound_id_column ds :: summary_columns self.
Proof.
  intros (_ & vals & _ & ->)%summary_row_Ok.
  destruct (decide (compound_id_column ds = c)) as [<-|Hne]; [intros; by left|].
  rewrite lookup_insert_ne by done. intros ?%summary_series_dom. by right.
Qed.

(** The frame that [groupby(...).apply(...)] returns and its reset. *)
Lemma groupby_apply_Ok F by_ f g :
  groupby_apply F by_ f = Ok g ↔
  by_ ∈ columns F ∧
  ∃ values,
    Forall2 (λ k s, f (get_group F by_ k) = Ok s) (group_keys (ids_of by_ (rows F))) values ∧
    g = match values with
        | [] => {| index_name := by_; index := [];
                   frame := {| columns := columns F; rows := [] |} |}
        | s :: _ => {| index_name := by_; index := group_keys (ids_of by_ (rows F));
                       frame := {| columns := s.*1; rows := list_to_map <$> values |} |}
        end.
Proof.
  unfold groupby_apply. rewrite bind_Ok. split.
  - intros (col & [Hby ->]%getitem_Ok & Hrest).
    apply bind_Ok in Hrest as (values & Hvalues%result_mapM_Ok & Hg).
    split; [done|]. exists values. split; [done|].
    destruct values; by injection Hg as <-.
  - intros (Hby & values & Hvalues & ->). eexists. split; [by apply getitem_Ok|].
    apply bind_Ok. exists values. split; [by apply result_mapM_Ok|].
    by destruct values.
Qed.

Lemma right_rows_summary self ds F keys (values : list (list (string * cell))) :
  Forall2 (λ k s, _mark_to_remove self (get_group F (compound_id_column ds) k)
                    (activity_column ds) = Ok s) keys values →
  Forall2 (λ k R, summary_row self ds F k = Ok R) keys
    (zip_with (λ k r, <[compound_id_column ds := k]> r) keys (list_to_map <$> values)).
Proof.
  induction 1 as [|k s keys values Hk Hall IH]; [constructor|].
  rewrite fmap_cons. simpl. constructor; [|done].
  unfold summary_row. by rewrite Hk.
Qed.

Lemma id_in_join_keys self ds F :
  compound_id_column ds ∈ columns F → compound_id_column ds ∈ join_keys self ds F.
Proof. intros Hid. apply list_elem_of_filter. split; [by left | done]. Qed.

Lemma elem_of_extra_columns self ds F c :
  compound_id_column ds ∈ columns F →
  c ∈ extra_columns self ds F ↔ c ∈ summary_columns self ∧ c ∉ columns F.
Proof.
  intros Hid. unfold extra_columns, join_keys.
  rewrite list_elem_of_filter, list_elem_of_filter, elem_of_cons. split.
  - intros [Hnot [->|HS]]; [exfalso; apply Hnot; split; [by left | done]|].
    split; [done|]. intros Hc. apply Hnot. split; [by right | done].
  - intros [HS Hc]. split; [|by right]. by intros [_ ?].
Qed.

(** The rows of the merged frame, row by row of the filtered frame. *)
Lemma merged_rows self ds F Rs :
  compound_id_column ds ∈ columns F →
  Forall2 (λ k R, summary_row self ds F k = Ok R)
    (group_keys (ids_of (compound_id_column ds) (rows F))) Rs →
  (l ← rows F;
   r ← filter (keys_match (join_keys self ds F) l) Rs;
   [project (columns F) l ∪ project (extra_columns self ds F) r])
  = rows F ≫= joined self ds F.
Proof.
  intros Hid HRs. apply list_bind_ext_in. intros l Hl.
  rewrite (filter_unique_key (summary_row self ds F) _ (at_col l (compound_id_column ds)) _ _ HRs).
  - unfold joined. destruct (summary_row self ds F _) as [R|e]; [|done].
    destruct (decide (_ ∧ keys_match _ l R)) as [[Hin Hm]|Hno].
    + rewrite decide_True; [done|]. split; [|done].
      by apply elem_of_group_keys in Hin as [? _].
    + rewrite decide_False; [done|]. intros [Hnn Hm]. apply Hno. split; [|done].
      apply elem_of_group_keys. split; [done|].
      apply list_elem_of_fmap. by exists l.
  - apply NoDup_group_keys.
  - intros k R Hk Hm. unfold keys_match in Hm. rewrite Forall_forall in Hm.
    rewrite (Hm (compound_id_column ds)) by (by apply id_in_join_keys).
    symmetry. by eapply summary_row_id.
Qed.

(** Every row of the merged frame carries a boolean mark. *)
Lemma joined_mark self ds F l r' :
  compound_id_column ds ∈ columns F →
  compound_id_column ds ∉ summary_columns self →
  r' ∈ joined self ds F l →
  ∃ R vals, summary_row self ds F (at_col l (compound_id_column ds)) = Ok R ∧
    at_col l (compound_id_column ds) ≠ Null ∧
    keys_match (join_keys self ds F) l R ∧
    r' = project (columns F) l ∪ project (extra_columns self ds F) R ∧
    astype_float ((λ r, at_col r (activity_column ds)) <$>
      filter (λ r, at_col r (compound_id_column ds) = at_col l (compound_id_column ds))
        (rows F)) = Ok vals ∧
    at_col r' "mark_to_remove" = Bool (gt_one (np_std vals)).
Proof.
  intros Hid HidS. unfold joined.
  destruct (summary_row self ds F _) as [R|e] eqn:HR; [|by intros ?%elem_of_nil].
  destruct (decide _) as [[Hnn Hm]|]; [|by intros ?%elem_of_nil].
  intros ->%list_elem_of_singleton.
  destruct (summary_row_mark _ _ _ _ _ HidS HR) as (vals & Hvals & Hmark).
  exists R, vals. split_and!; try done.
  destruct (decide ("mark_to_remove" ∈ columns F)) as [Hc|Hc].
  - rewrite at_col_joined_left; [| done |].
    + unfold keys_match in Hm. rewrite Forall_forall in Hm. rewrite Hm; [done|].
      apply list_elem_of_filter. split; [|done]. right. apply mark_in_summary_columns.
    + rewrite elem_of_extra_columns by done. tauto.
  - rewrite at_col_joined_right; [done | done |].
    rewrite elem_of_extra_columns by done. split; [apply mark_in_summary_columns | done].
Qed.

Lemma result_bind_Ok {A B} (a : A) (k : A → result B) : Ok a ≫= k = k a.
Proof. done. Qed.

Lemma Forall2_exists {A B} (P : A → B → Prop) (l : list A) :
  (∀ a, a ∈ l → ∃ b, P a b) → ∃ bs, Forall2 P l bs.
Proof.
  induction l as [|a l IH]; intros Hall.
  - exists []. constructor.
  - destruct (Hall a) as [b Hb]; [by left|].
    destruct IH as [bs Hbs]; [intros; apply Hall; by right|].
    exists (b :: bs). by constructor.
Qed.

(** Running [clean_dataset] once every group has its summary. *)
Lemma clean_dataset_run self ds F (values : list (list (string * cell))) :
  type_of ds = ChEMBLApiDataSource →
  _default_filter_chembl (bioactivities_df ds) = Ok F →
  compound_id_column ds ∈ columns F →
  (compound_id_column ds ∉ summary_columns self) →
  values ≠ [] →
  Forall2 (λ k s, _mark_to_remove self (get_group F (compound_id_column ds) k)
                    (activity_column ds) = Ok s)
    (group_keys (ids_of (compound_id_column ds) (rows F))) values →
  clean_dataset self ds = Ok (clean_frame self ds F).
Proof.
  intros Hty HF Hid HidS Hne Hvalues.
  pose proof (right_rows_summary _ _ _ _ _ Hvalues) as HRs.
  destruct values as [|s0 values]; [done|]. clear Hne.
  assert (s0.*1 = summary_columns self) as Hs0.
  { inversion Hvalues as [|k0 ? ks ? Hk0 _]; subst.
    apply mark_to_remove_Ok in Hk0 as (_ & vals & _ & ->).
    apply summary_series_keys. }
  unfold clean_dataset, copy.
  rewrite bool_decide_eq_true_2 by done. rewrite HF, result_bind_Ok.
  erewrite (proj2 (groupby_apply_Ok F _ _ _)); [|split; [done|]; eexists; split; [exact Hvalues | reflexivity]].
  rewrite result_bind_Ok. unfold reset_index. cbn [index_name frame columns rows index].
  rewrite Hs0. rewrite bool_decide_eq_false_2 by done. rewrite result_bind_Ok.
  unfold pd_merge. cbn [columns rows].
  fold (join_keys self ds F). fold (extra_columns self ds F).
  rewrite bool_decide_eq_false_2.
  2: { intros Hnil. pose proof (id_in_join_keys self ds F Hid) as Hin.
       rewrite Hnil in Hin. by apply elem_of_nil in Hin. }
  rewrite result_bind_Ok.
  rewrite (merged_rows self ds F _ Hid HRs).
  unfold getitem at 1. cbn [columns rows].
  rewrite bool_decide_eq_true_2.
  2: { apply elem_of_app. destruct (decide ("mark_to_remove" ∈ columns F)); [by left|].
       right. apply elem_of_extra_columns; [done|].
       split; [apply mark_in_summary_columns | done]. }
  rewrite result_bind_Ok.
  destruct (invert_Ok_intro ((λ r, at_col r "mark_to_remove") <$> (rows F ≫= joined self ds F)))
    as [keep Hkeep].
  { intros c (r' & -> & Hr')%list_elem_of_fmap.
    apply list_elem_of_bind in Hr' as (l & Hr' & Hl).
    destruct (joined_mark _ _ _ _ _ Hid HidS Hr') as (R & vals & _ & _ & _ & _ & _ & ->).
    by eexists. }
  rewrite Hkeep, result_bind_Ok.
  unfold groupby_head1, getitem_mask. cbn [columns rows].
  rewrite bool_decide_eq_true_2 by (apply elem_of_app; by left).
  rewrite (invert_select _ _ Hkeep). done.
Qed.

(** The closed form of [clean_dataset]. *)
Lemma clean_dataset_Ok self ds out :
  clean_dataset self ds = Ok out ↔
  type_of ds = ChEMBLApiDataSource ∧
  ∃ F, _default_filter_chembl (bioactivities_df ds) = Ok F ∧
       compound_id_column ds ∈ columns F ∧
       (compound_id_column ds ∉ summary_columns self) ∧
       group_keys (ids_of (compound_id_column ds) (rows F)) ≠ [] ∧
       (∀ k, k ∈ group_keys (ids_of (compound_id_column ds) (rows F)) →
             ∃ R, summary_row self ds F k = Ok R) ∧
       out = clean_frame self ds F.
Proof.
  split.
  - intros Hrun. pose proof Hrun as Hrun'. unfold clean_dataset, copy in Hrun.
    apply bind_Ok in Hrun as (F & HF & Hrun).
    case_bool_decide as Hty; [|done].
    apply bind_Ok in Hrun as (g & (Hid & values & Hvalues & ->)%groupby_apply_Ok & Hrun).
    apply bind_Ok in Hrun as (right & Hright & _).
    assert (values ≠ [] ∧ compound_id_column ds ∉ summary_columns self) as [Hne HidS].
    { unfold reset_index in Hright. destruct values as [|s0 values].
      - cbn [index_name frame columns] in Hright.
        by rewrite bool_decide_eq_true_2 in Hright.
      - split; [done|]. cbn [index_name frame columns] in Hright.
        case_bool_decide as Hin; [done|].
        inversion Hvalues as [|k0 ? ks ? Hk0 _]; subst.
        apply mark_to_remove_Ok in Hk0 as (_ & vals & _ & ->).
        by rewrite summary_series_keys in Hin. }
    split; [done|]. exists F. split_and!; try done.
    + intros Hnil. rewrite Hnil in Hvalues. by inversion Hvalues.
    + intros k Hk. pose proof (right_rows_summary _ _ _ _ _ Hvalues) as HRs.
      apply list_elem_of_lookup in Hk as [i Hi].
      destruct (Forall2_lookup_l _ _ _ _ _ HRs Hi) as (R & _ & HR). by exists R.
    + rewrite (clean_dataset_run _ _ _ _ Hty HF Hid HidS Hne Hvalues) in Hrun'.
      by injection Hrun' as <-.
  - intros (Hty & F & HF & Hid & HidS & Hne & Hall & ->).
    destruct (Forall2_exists
      (λ k s, _mark_to_remove self (get_group F (compound_id_column ds) k)
                (activity_column ds) = Ok s)
      (group_keys (ids_of (compound_id_column ds) (rows F)))) as [values Hvalues].
    { intros k Hk. destruct (Hall k Hk) as [R HR]. unfold summary_row in HR.
      apply bind_Ok in HR as (s & Hs & _). by exists s. }
    apply (clean_dataset_run _ _ _ values); try done.
    intros ->. inversion Hvalues as [Hnil|]. by rewrite <-Hnil in Hne.
Qed.

(** ** Rows of the merged frame *)

Lemma joined_inv self ds F l r' :
  compound_id_column ds ∈ columns F →
  r' ∈ joined self ds F l →
  ∃ R, summary_row self ds F (at_col l (compound_id_column ds)) = Ok R ∧
       at_col l (compound_id_column ds) ≠ Null ∧
       r' = project (columns F) l ∪ project (extra_columns self ds F) R ∧
       agrees_on (columns F) r' l.
Proof.
  intros Hid. unfold joined.
  destruct (summary_row self ds F _) as [R|e] eqn:HR; [|by intros ?%elem_of_nil].
  destruct (decide _) as [[Hnn Hm]|]; [|by intros ?%elem_of_nil].
  intros ->%list_elem_of_singleton. exists R. split_and!; try done.
  intros c Hc. apply at_col_joined_left; [done|].
  rewrite elem_of_extra_columns by done. tauto.
Qed.

Lemma joined_fresh self ds F l R :
  fresh_summary self F →
  compound_id_column ds ∈ columns F →
  summary_row self ds F (at_col l (compound_id_column ds)) = Ok R →
  at_col l (compound_id_column ds) ≠ Null →
  joined self ds F l = [project (columns F) l ∪ project (extra_columns self ds F) R].
Proof.
  intros Hfresh Hid HR Hnn. unfold joined. rewrite HR.
  rewrite decide_True; [done|]. split; [done|].
  unfold keys_match. apply Forall_forall. intros c [[->|HS]%elem_of_cons Hc]%list_elem_of_filter.
  - symmetry. by eapply summary_row_id.
  - by destruct (Hfresh c HS).
Qed.

(** The rows of one group in the merged frame: the rows of the group in the
    filtered frame, each extended with the summary of the group. *)
Lemma merged_group self ds F k R (L : list (gmap string cell)) :
  fresh_summary self F →
  compound_id_column ds ∈ columns F →
  k ≠ Null →
  summary_row self ds F k = Ok R →
  filter (λ r, at_col r (compound_id_column ds) = k) (L ≫= joined self ds F) =
  (λ l, project (columns F) l ∪ project (extra_columns self ds F) R) <$>
    filter (λ l, at_col l (compound_id_column ds) = k) L.
Proof.
  intros Hfresh Hid Hk HR. induction L as [|l L IH]; [done|].
  rewrite bind_cons, filter_app, IH.
  destruct (decide (at_col l (compound_id_column ds) = k)) as [Heq|Hne].
  - rewrite (filter_cons_True _ l L) by done. rewrite fmap_cons.
    rewrite (joined_fresh self ds F l R); [|done|done|by rewrite Heq|by rewrite Heq].
    rewrite filter_cons_True; [done|].
    rewrite at_col_joined_left; [done|done|].
    rewrite elem_of_extra_columns by done. tauto.
  - rewrite (filter_cons_False _ l L) by done.
    rewrite (filter_none _ (joined self ds F l)); [done|].
    intros r' (R' & _ & _ & _ & Hag)%joined_inv; [|done].
    by rewrite (Hag _ Hid).
Qed.

(** What [clean_dataset] returns for one group, when the merge joins on the
    identifier alone: nothing when the group is marked, else the first row
    of the group, extended with the summary. *)
Lemma clean_frame_group self ds F k R :
  fresh_summary self F →
  compound_id_column ds ∈ columns F →
  (compound_id_column ds ∉ summary_columns self) →
  k ≠ Null →
  summary_row self ds F k = Ok R →
  filter (λ r, at_col r (compound_id_column ds) = k) (rows (clean_frame self ds F)) =
  if decide (not_marked R)
  then take 1 ((λ l, project (columns F) l ∪ project (extra_columns self ds F) R) <$>
                 filter (λ l, at_col l (compound_id_column ds) = k) (rows F))
  else [].
Proof.
  intros Hfresh Hid HidS Hk HR. unfold clean_frame. cbn [rows].
  rewrite head1_filter by done. rewrite decide_False by (by intros ?%elem_of_nil).
  rewrite (filter_comm _ not_marked).
  rewrite (merged_group self ds F k R) by done.
  assert (∀ l, not_marked (project (columns F) l ∪ project (extra_columns self ds F) R)
               ↔ not_marked R) as Hmark.
  { intros l. unfold not_marked. rewrite at_col_joined_right; [done| |].
    - apply Hfresh, mark_in_summary_columns.
    - apply elem_of_extra_columns; [done|].
      split; [apply mark_in_summary_columns | apply Hfresh, mark_in_summary_columns]. }
  destruct (decide (not_marked R)) as [Hm|Hm].
  - rewrite filter_all; [done|]. intros r' (l & -> & _)%list_elem_of_fmap. by apply Hmark.
  - rewrite filter_none; [done|]. intros r' (l & -> & _)%list_elem_of_fmap. by rewrite Hmark.
Qed.

(** ** Numerics of a group *)

Lemma Qc_of_nat_1 : Qc_of_nat 1 = 1.
Proof. by apply Qc_is_canon. Qed.

(** The population standard deviation of a single finite value is zero. *)
Lemma np_std_singleton (x : Qc) : np_sqrt 0 = 0 → np_std [Some x] = Some 0.
Proof.
  intros Hsqrt. unfold np_std, nanvar.
  change (omap id [Some x]) with [x]. change (length [x]) with 1%nat.
  rewrite bool_decide_eq_false_2 by lia.
  cbn zeta. change (default 0 <$> [Some x]) with [x]. change (1 - 0)%nat with 1%nat.
  rewrite fmap_cons, fmap_nil. cbn beta iota.
  rewrite Qc_of_nat_1, !np_sum_one, !np_div_one, np_sub_diag, np_mul_zero.
  cbn. by rewrite Hsqrt.
Qed.

(** [np.std] agrees with the population standard deviation of the
    specification on values without NaN. *)
Lemma np_std_population (xs : list Qc) : np_std (Some <$> xs) = population_std xs.
Proof.
  unfold np_std, nanvar, population_std.
  assert (omap id (Some <$> xs) = xs) as ->.
  { induction xs as [|x xs IH]; [done|]. rewrite fmap_cons. cbn. by rewrite IH. }
  assert (default 0 <$> (Some <$> xs) = xs) as ->.
  { rewrite <-list_fmap_compose. induction xs as [|x xs IH]; [done|].
    rewrite fmap_cons. cbn. by rewrite IH. }
  destruct (decide (xs = [])) as [->|Hne].
  - done.
  - rewrite bool_decide_eq_false_2 by (destruct xs; [done|cbn; lia]).
    rewrite bool_decide_eq_false_2 by done.
    rewrite Nat.sub_0_r, <-!list_fmap_compose. done.
Qed.

Global Instance Qcle_total : Total Qcle.
Proof.
  intros x y. destruct (Qclt_le_dec x y) as [Hlt|Hle]; [left; by apply Qclt_le_weak|by right].
Qed.

(** [np.median] is the middle value of the values in increasing order, on
    values without NaN. *)
Lemma np_median_sorted (xs : list Qc) :
  xs ≠ [] →
  ∃ s, s ≡ₚ xs ∧ Sorted Qcle s ∧ np_median (Some <$> xs) = Some (middle_value s).
Proof.
  intros Hne. exists (merge_sort Qcle xs).
  split; [apply merge_sort_Permutation|]. split; [apply Sorted_merge_sort, _|].
  unfold np_median. rewrite (mapM_fmap_Some id Some xs) by done. cbn [mbind option_bind].
  rewrite bool_decide_eq_false_2.
  - unfold middle_value. by destruct (Nat.even _).
  - rewrite (Permutation_length (merge_sort_Permutation Qcle xs)). by destruct xs.
Qed.

Lemma gt_one_false_singleton (v : float64) : np_sqrt 0 = 0 → gt_one (np_std [v]) = false.
Proof.
  intros Hsqrt. destruct v as [x|].
  - rewrite np_std_singleton by done. done.
  - done.
Qed.

Lemma astype_float_length col vals : astype_float col = Ok vals → length vals = length col.
Proof.
  unfold astype_float. rewrite result_mapM_Ok. intros Hall.
  symmetry. by eapply Forall2_length.
Qed.

(** ** The filtered frame *)

Lemma filtered_frame ds F :
  _default_filter_chembl (bioactivities_df ds) = Ok F →
  columns F = columns (bioactivities_df ds) ∧
  rows F = filter chembl_valid (rows (bioactivities_df ds)).
Proof. by intros (_ & _ & _ & ->)%default_filter_chembl_Ok. Qed.

Lemma clean_dataset_rows_from self ds F r' :
  compound_id_column ds ∈ columns F →
  r' ∈ rows (clean_frame self ds F) →
  at_col r' (compound_id_column ds) ≠ Null ∧
  ∃ l, l ∈ rows F ∧ r' ∈ joined self ds F l ∧ not_marked r'.
Proof.
  intros Hid Hr'. unfold clean_frame in Hr'. cbn [rows] in Hr'.
  apply elem_of_head1 in Hr' as (Hr' & Hnn & _). split; [done|].
  apply list_elem_of_filter in Hr' as [Hm Hr'].
  apply list_elem_of_bind in Hr' as (l & Hr' & Hl). by exists l.
Qed.

(** Every row of the output carries the cells of a row of the filtered
    frame. *)
Lemma clean_rows_agree self ds F out r' :
  _default_filter_chembl (bioactivities_df ds) = Ok F →
  clean_dataset self ds = Ok out →
  r' ∈ rows out →
  ∃ l, l ∈ rows F ∧ agrees_on (columns (bioactivities_df ds)) r' l.
Proof.
  intros HF (_ & F' & HF' & Hid & _ & _ & _ & ->)%clean_dataset_Ok Hr'.
  rewrite HF in HF'. injection HF' as <-.
  destruct (filtered_frame _ _ HF) as [<- _].
  apply clean_dataset_rows_from in Hr' as (_ & l & Hl & Hr' & _); [|done].
  apply joined_inv in Hr' as (R & _ & _ & _ & Hag); [|done].
  by exists l.
Qed.

(** The rows of the output that carry the identifier of one of its rows. *)
Lemma clean_rows_with_id self ds out r :
  clean_dataset self ds = Ok out →
  r ∈ rows out →
  rows_with_id ds (at_col r (compound_id_column ds)) out = [r].
Proof.
  intros (_ & F & _ & Hid & _ & _ & _ & ->)%clean_dataset_Ok Hr. unfold rows_with_id.
  assert (r ∈ filter (λ r', at_col r' (compound_id_column ds) = at_col r (compound_id_column ds))
                (rows (clean_frame self ds F))) as Hin
    by (by apply list_elem_of_filter).
  apply elem_of_head1 in Hr as (_ & Hnn & _).
  unfold clean_frame in *. cbn [rows] in *.
  rewrite head1_filter in Hin |- * by done.
  rewrite decide_False in Hin |- * by (by intros ?%elem_of_nil).
  destruct (filter _ _) as [|x xs]; [by apply elem_of_nil in Hin|].
  cbn [take] in *. by apply list_elem_of_singleton in Hin as ->.
Qed.

Lemma clean_ids_NoDup self ds out :
  clean_dataset self ds = Ok out →
  NoDup (ids_of (compound_id_column ds) (rows out)).
Proof.
  intros (_ & F & _ & _ & _ & _ & _ & ->)%clean_dataset_Ok. apply head1_NoDup.
Qed.

(** ** C3: the filter of the remote-database variant *)

(** C3. A row survives [_default_filter_chembl] exactly when its relation is
    "=", its [data_validity_comment] is null and its [pchembl_value] is not
    null; every row of the table [clean_dataset] returns carries the cells
    of such a row, in particular the relation "=". *)
Theorem chembl_filter_conjunction self ds F :
  _default_filter_chembl (bioactivities_df ds) = Ok F →
  (∀ r, r ∈ rows F ↔
        r ∈ rows (bioactivities_df ds) ∧
        at_col r "relation" = Str "=" ∧
        at_col r "data_validity_comment" = Null ∧
        at_col r "pchembl_value" ≠ Null) ∧
  (∀ out r', clean_dataset self ds = Ok out → r' ∈ rows out →
     at_col r' "relation" = Str "=" ∧
     ∃ l, l ∈ rows F ∧ agrees_on (columns (bioactivities_df ds)) r' l).
Proof.
  intros HF.
  assert (∀ r, r ∈ rows F ↔
            r ∈ rows (bioactivities_df ds) ∧
            at_col r "relation" = Str "=" ∧
            at_col r "data_validity_comment" = Null ∧
            at_col r "pchembl_value" ≠ Null) as Hsurvive.
  { pose proof HF as (_ & _ & _ & ->)%default_filter_chembl_Ok. cbn [rows].
    intros r. rewrite list_elem_of_filter. unfold chembl_valid. tauto. }
  split; [done|]. intros out r' Hrun Hr'.
  destruct (clean_rows_agree _ _ _ _ _ HF Hrun Hr') as (l & Hl & Hag).
  split; [|by exists l].
  pose proof HF as (Hrel & _)%default_filter_chembl_Ok.
  rewrite (Hag "relation") by done. by apply Hsurvive in Hl as (_ & ? & _).
Qed.

(** ** C2: one row per compound identifier *)

(** C2. In the table [clean_dataset] returns the compound identifiers are
    pairwise distinct: every identifier that occurs is carried by exactly
    one row. *)
Theorem output_ids_unique self ds out :
  clean_dataset self ds = Ok out →
  NoDup (ids_of (compound_id_column ds) (rows out)) ∧
  ∀ r, r ∈ rows out →
    length (rows_with_id ds (at_col r (compound_id_column ds)) out) = 1%nat.
Proof.
  intros Hrun. split; [by eapply clean_ids_NoDup|].
  intros r Hr. by rewrite (clean_rows_with_id _ _ _ _ Hrun Hr).
Qed.

(** ** C1: the threshold on the standard deviation *)

(** The summary of a group that was formed: the floats of its activity
    values exist and decide its mark. *)
Lemma group_floats self ds F out k :
  _default_filter_chembl (bioactivities_df ds) = Ok F →
  clean_dataset self ds = Ok out →
  k ≠ Null → group_of ds k ≠ [] →
  ∃ R vals,
    summary_row self ds F k = Ok R ∧
    astype_float ((λ r, at_col r (activity_column ds)) <$> group_of ds k) = Ok vals ∧
    at_col R "mark_to_remove" = Bool (gt_one (np_std vals)).
Proof.
  intros HF (_ & F' & HF' & Hid & HidS & _ & Hall & ->)%clean_dataset_Ok Hk Hgroup.
  rewrite HF in HF'. injection HF' as <-.
  destruct (filtered_frame _ _ HF) as [Hcols Hrows].
  unfold group_of in *. rewrite <-Hrows in *.
  destruct (Hall k) as [R HR].
  { apply elem_of_group_keys. split; [done|].
    destruct (filter _ (rows F)) as [|l ?] eqn:Hg; [done|].
    assert (l ∈ filter (λ l, at_col l (compound_id_column ds) = k) (rows F)) as Hl
      by (rewrite Hg; left).
    apply list_elem_of_filter in Hl as [<- Hl]. apply list_elem_of_fmap. by exists l. }
  destruct (summary_row_mark _ _ _ _ _ HidS HR) as (vals & Hvals & Hmark).
  by exists R, vals.
Qed.

(** A marked group leaves no row in the output, whatever the columns of the
    raw table are. *)
Lemma marked_group_absent self ds out k vals :
  clean_dataset self ds = Ok out →
  astype_float ((λ r, at_col r (activity_column ds)) <$> group_of ds k) = Ok vals →
  gt_one (np_std vals) = true →
  rows_with_id ds k out = [].
Proof.
  intros (_ & F & HF & Hid & HidS & _ & _ & ->)%clean_dataset_Ok Hvals Hgt.
  destruct (filtered_frame _ _ HF) as [_ Hrows].
  unfold rows_with_id. apply filter_none. intros r' Hr' Hk.
  apply clean_dataset_rows_from in Hr' as (_ & l & Hl & Hj & Hnm); [|done].
  destruct (joined_mark _ _ _ _ _ Hid HidS Hj) as (R & vals' & _ & _ & _ & Hr'_eq & Hvals' & Hmark).
  apply joined_inv in Hj as (_ & _ & _ & _ & Hag); [|done].
  rewrite <-(Hag _ Hid), Hk in Hvals'.
  unfold group_of in Hvals. rewrite <-Hrows, Hvals' in Hvals. injection Hvals as ->.
  unfold not_marked in Hnm. rewrite Hmark, Hgt in Hnm. done.
Qed.

Lemma group_summary self ds F out k :
  _default_filter_chembl (bioactivities_df ds) = Ok F →
  clean_dataset self ds = Ok out →
  fresh_summary self (bioactivities_df ds) →
  k ≠ Null → group_of ds k ≠ [] →
  ∃ R vals,
    summary_row self ds F k = Ok R ∧
    astype_float ((λ r, at_col r (activity_column ds)) <$> group_of ds k) = Ok vals ∧
    at_col R "mark_to_remove" = Bool (gt_one (np_std vals)) ∧
    rows_with_id ds k out =
      if decide (not_marked R)
      then take 1 ((λ l, project (columns F) l ∪ project (extra_columns self ds F) R) <$>
                     group_of ds k)
      else [].
Proof.
  intros HF Hrun Hfresh Hk Hgroup.
  destruct (group_floats _ _ _ _ _ HF Hrun Hk Hgroup) as (R & vals & HR & Hvals & Hmark).
  apply clean_dataset_Ok in Hrun as (_ & F' & HF' & Hid & HidS & _ & _ & ->).
  rewrite HF in HF'. injection HF' as <-.
  destruct (filtered_frame _ _ HF) as [Hcols Hrows].
  assert (fresh_summary self F) as HfreshF by (unfold fresh_summary; by rewrite Hcols).
  exists R, vals. split_and!; try done.
  unfold rows_with_id, group_of. rewrite <-Hrows. by apply clean_frame_group.
Qed.

(** C1 (amended). For a group of valid rows of a compound, with the floats
    of its activity cells: their standard deviation is the population
    standard deviation (the squared deviations from the mean, over N) when
    none is NaN, and when it is above 1 no row of the output carries the
    identifier of the group.  When the raw table has no column named like a
    summary column: a group whose standard deviation is not above 1 has
    exactly one row in the output, which carries the cells of the first row
    of the group; a group of one row has standard deviation 0 and has its
    row in the output. *)
Theorem threshold_policy self ds out k :
  np_sqrt 0 = 0 →
  clean_dataset self ds = Ok out →
  k ≠ Null → group_of ds k ≠ [] →
  ∃ vals,
    Forall2 (λ l v, cell_to_float (at_col l (activity_column ds)) = Ok v)
      (group_of ds k) vals ∧
    (∀ xs, vals = Some <$> xs → np_std vals = population_std xs) ∧
    (∀ s, np_std vals = Some s → (1 < s)%Qc → rows_with_id ds k out = []) ∧
    (fresh_summary self (bioactivities_df ds) →
     ((∀ s, np_std vals = Some s → (s ≤ 1)%Qc) →
        ∃ l r', head (group_of ds k) = Some l ∧ rows_with_id ds k out = [r'] ∧
                agrees_on (columns (bioactivities_df ds)) r' l) ∧
     (length (group_of ds k) = 1%nat →
        (∀ x, vals = [Some x] → np_std vals = Some 0) ∧
        ∃ l r', group_of ds k = [l] ∧ rows_with_id ds k out = [r'] ∧
                agrees_on (columns (bioactivities_df ds)) r' l)).
Proof.
  intros Hsqrt Hrun Hk Hgroup.
  pose proof Hrun as (_ & F & HF & Hid & _)%clean_dataset_Ok.
  destruct (group_floats _ _ _ _ _ HF Hrun Hk Hgroup) as (R0 & vals & _ & Hvals & _).
  exists vals. split.
  { unfold astype_float in Hvals. apply result_mapM_Ok in Hvals.
    by apply Forall2_fmap_l in Hvals. }
  split; [intros xs ->; apply np_std_population|]. split.
  { intros s Hs Hlt. apply (marked_group_absent self ds out k vals); [done|done|].
    rewrite Hs. simpl. by rewrite bool_decide_eq_true_2. }
  intros Hfresh.
  destruct (group_summary _ _ _ _ _ HF Hrun Hfresh Hk Hgroup)
    as (R & vals' & HR & Hvals' & Hmark & Hout).
  rewrite Hvals in Hvals'. injection Hvals' as <-.
  destruct (filtered_frame _ _ HF) as [Hcols _].
  assert (∀ l rest, group_of ds k = l :: rest → not_marked R →
            ∃ r', rows_with_id ds k out = [r'] ∧
                  agrees_on (columns (bioactivities_df ds)) r' l) as Hkeep.
  { intros l rest Hg Hnm. rewrite Hout, decide_True, Hg by done.
    eexists. split; [done|]. intros c Hc. rewrite <-Hcols in Hc.
    apply at_col_joined_left; [done|].
    rewrite elem_of_extra_columns by done. tauto. }
  split.
  - intros Hle. destruct (group_of ds k) as [|l rest] eqn:Hg; [done|].
    destruct (Hkeep l rest) as (r' & ? & ?); [done| |].
    + unfold not_marked. rewrite Hmark. destruct (np_std vals) as [s|]; [|done].
      simpl. rewrite bool_decide_eq_false_2; [done|]. by apply Qcle_not_lt, Hle.
    + by exists l, r'.
  - intros Hlen. split.
    + intros x ->. by apply np_std_singleton.
    + destruct (group_of ds k) as [|l [|]] eqn:Hg; try done.
      destruct (Hkeep l []) as (r' & ? & ?); [done| |by exists l, r'].
      apply astype_float_length in Hvals. rewrite length_fmap in Hvals.
      destruct vals as [|v [|]]; try done.
      unfold not_marked. rewrite Hmark. by rewrite gt_one_false_singleton.
Qed.

(** ** C4: the representative row *)


(** ** C5: the columns of the output *)

Lemma extra_columns_filter self ds F :
  compound_id_column ds ∈ columns F →
  extra_columns self ds F = filter (λ c, c ∉ columns F) (summary_columns self).
Proof.
  intros Hid. unfold extra_columns. rewrite filter_cons_False.
  - apply filter_ext_iff. intros c Hc. unfold join_keys.
    rewrite list_elem_of_filter, elem_of_cons. tauto.
  - intros Hnot. apply Hnot. by apply id_in_join_keys.
Qed.

(** C5 (amended). The columns of the table [clean_dataset] returns are the
    columns of the input followed by the summary columns the input does not
    have yet; for an input without columns of these names and a median
    column with a name of its own these are the five columns
    number_compounds, standard_deviation, the median column, duplicated and
    mark_to_remove. *)
Theorem output_columns self ds out :
  clean_dataset self ds = Ok out →
  columns out =
    columns (bioactivities_df ds) ++
    filter (λ c, c ∉ columns (bioactivities_df ds)) (summary_columns self) ∧
  (fresh_summary self (bioactivities_df ds) →
   self_activity_column self ∉
     ["number_compounds"; "standard_deviation"; "duplicated"; "mark_to_remove"] →
   columns out =
     columns (bioactivities_df ds) ++
     ["number_compounds"; "standard_deviation"; self_activity_column self;
      "duplicated"; "mark_to_remove"]).
Proof.
  intros (_ & F & HF & Hid & _ & _ & _ & ->)%clean_dataset_Ok.
  destruct (filtered_frame _ _ HF) as [Hcols _].
  assert (columns (clean_frame self ds F) =
          columns (bioactivities_df ds) ++
          filter (λ c, c ∉ columns (bioactivities_df ds)) (summary_columns self)) as Hgen.
  { unfold clean_frame. cbn [columns]. rewrite extra_columns_filter by done.
    by rewrite Hcols. }
  split; [done|]. intros Hfresh Hdistinct. rewrite Hgen.
  rewrite filter_all by done. by rewrite summary_columns_distinct.
Qed.

(** ** C6: an empty raw table *)

Lemma result_cases {A} (m : result A) : (∃ a, m = Ok a) ∨ (∃ e, m = Raise e).
Proof. destruct m; eauto. Qed.

(** C6. On a raw table without rows [clean_dataset] raises: no group is
    formed, [groupby(...).apply(...)] returns a frame that still has the
    identifier column, and [reset_index] cannot insert it a second time. *)
Theorem clean_dataset_empty_raises self ds :
  rows (bioactivities_df ds) = [] →
  (∃ e, clean_dataset self ds = Raise e) ∧
  (type_of ds = ChEMBLApiDataSource →
   "relation" ∈ columns (bioactivities_df ds) →
   "data_validity_comment" ∈ columns (bioactivities_df ds) →
   "pchembl_value" ∈ columns (bioactivities_df ds) →
   compound_id_column ds ∈ columns (bioactivities_df ds) →
   clean_dataset self ds = Raise (ValueError "cannot insert, already exists")).
Proof.
  intros Hempty. split.
  - destruct (result_cases (clean_dataset self ds)) as [[out Hout]|?]; [|done].
    apply clean_dataset_Ok in Hout as (_ & F & HF & _ & _ & Hkeys & _).
    destruct (filtered_frame _ _ HF) as [_ Hrows].
    rewrite Hempty in Hrows. by rewrite Hrows in Hkeys.
  - intros Hty Hrel Hcm Hpv Hid. unfold clean_dataset, copy.
    rewrite bool_decide_eq_true_2 by done.
    erewrite (proj2 (default_filter_chembl_Ok (bioactivities_df ds) _));
      [|split_and!; [done|done|done|reflexivity]].
    rewrite Hempty, result_bind_Ok.
    unfold groupby_apply, getitem. cbn [columns rows].
    rewrite bool_decide_eq_true_2 by done. cbn.
    unfold reset_index. cbn [index_name frame columns].
    by rewrite bool_decide_eq_true_2.
Qed.

(** ** The unsupported-source error *)

Lemma cell_to_float_Raise c e : cell_to_float c = Raise e → e ≠ unsupported_source.
Proof.
  destruct c as [|s| | |]; simpl; try done.
  destruct (py_float s); [done|]. by intros [= <-].
Qed.

Lemma mark_to_remove_Raise self data act e :
  _mark_to_remove self data act = Raise e → e ≠ unsupported_source.
Proof.
  unfold _mark_to_remove. rewrite bind_Raise.
  intros [[_ ->]%getitem_Raise | (col & _ & Hrest)]; [done|].
  apply bind_Raise in Hrest as [Hcast | (? & _ & ?)]; [|done].
  apply result_mapM_Raise in Hcast as (c & _ & Hc). by eapply cell_to_float_Raise.
Qed.

Lemma default_filter_chembl_Raise df e :
  _default_filter_chembl df = Raise e → ∃ col, e = KeyError col.
Proof.
  unfold _default_filter_chembl. rewrite bind_Raise.
  intros [[_ ->]%getitem_Raise | (? & _ & Hrest)]; [by eexists|].
  apply bind_Raise in Hrest as [[_ ->]%getitem_Raise | (? & _ & Hrest)]; [by eexists|].
  apply bind_Raise in Hrest as [[_ ->]%getitem_Raise | (? & _ & Hrest)]; [by eexists|].
  done.
Qed.

Lemma clean_dataset_chembl_Raise self ds e :
  type_of ds = ChEMBLApiDataSource →
  clean_dataset self ds = Raise e → e ≠ unsupported_source.
Proof.
  intros Hty. unfold clean_dataset, copy. rewrite bool_decide_eq_true_2 by done.
  rewrite bind_Raise. intros [(col & ->)%default_filter_chembl_Raise | (F & _ & Hrest)]; [done|].
  apply bind_Raise in Hrest as [Hg | (g & _ & Hrest)].
  { unfold groupby_apply in Hg.
    apply bind_Raise in Hg as [[_ ->]%getitem_Raise | (? & _ & Hg)]; [done|].
    apply bind_Raise in Hg as [Hg | (values & _ & Hg)].
    - apply result_mapM_Raise in Hg as (k & _ & Hk). by eapply mark_to_remove_Raise.
    - by destruct values. }
  apply bind_Raise in Hrest as [Hr | (right & _ & Hrest)].
  { unfold reset_index in Hr. case_bool_decide; [|done]. by injection Hr as <-. }
  apply bind_Raise in Hrest as [Hm | (merged & _ & Hrest)].
  { unfold pd_merge in Hm. case_bool_decide; [|done]. by injection Hm as <-. }
  apply bind_Raise in Hrest as [[_ ->]%getitem_Raise | (mark & _ & Hrest)]; [done|].
  apply bind_Raise in Hrest as [Hi | (keep & _ & Hrest)].
  { unfold invert in Hi. apply result_mapM_Raise in Hi as (c & _ & Hc).
    destruct c; try done; by injection Hc as <-. }
  unfold groupby_head1 in Hrest. case_bool_decide; [done|]. by injection Hrest as <-.
Qed.

(** On a data source that has a table, [clean_dataset] raises the error
    "Data source not recognized" exactly when the data source is not a
    [ChEMBLApiDataSource]. *)
Lemma unsupported_source_iff self ds :
  clean_dataset self ds = Raise unsupported_source ↔ type_of ds ≠ ChEMBLApiDataSource.
Proof.
  split.
  - intros Hraise Hty. by apply (clean_dataset_chembl_Raise self ds _ Hty Hraise).
  - intros Hty. unfold clean_dataset. by rewrite bool_decide_eq_false_2.
Qed.

(** ** C8: cleaning a cleaned table *)

Lemma bind_singletons {A} (f : A → list A) (l : list A) :
  (∀ x, x ∈ l → f x = [x]) → l ≫= f = l.
Proof.
  induction l as [|x l IH]; intros Hall; [done|].
  rewrite bind_cons, Hall by left. simpl. f_equal. apply IH.
  intros y Hy. apply Hall. by right.
Qed.

(** What the first pass knows about a row it returns for a group of one. *)
Lemma first_pass_row self ds F out r' :
  _default_filter_chembl (bioactivities_df ds) = Ok F →
  clean_dataset self ds = Ok out →
  r' ∈ rows out →
  length (group_of ds (at_col r' (compound_id_column ds))) = 1%nat →
  ∃ l v,
    l ∈ rows F ∧
    at_col l (compound_id_column ds) = at_col r' (compound_id_column ds) ∧
    at_col r' (compound_id_column ds) ≠ Null ∧
    activity_column ds ∈ columns F ∧
    cell_to_float (at_col l (activity_column ds)) = Ok v ∧
    not_marked r' ∧
    r' = project (columns F) l ∪
         project (extra_columns self ds F)
           (<[compound_id_column ds := at_col r' (compound_id_column ds)]>
              (list_to_map (summary_series self 1 [v]))).
Proof.
  intros HF Hrun Hr' Hlen.
  pose proof Hrun as (_ & F' & HF' & Hid & _ & _ & _ & Hout)%clean_dataset_Ok.
  rewrite HF in HF'. injection HF' as <-.
  destruct (filtered_frame _ _ HF) as [Hcols Hrows].
  rewrite Hout in Hr'.
  apply clean_dataset_rows_from in Hr' as (Hnn & l & Hl & Hj & Hnm); [|done].
  apply joined_inv in Hj as (R & HR & _ & Hr' & Hag); [|done].
  assert (at_col l (compound_id_column ds) = at_col r' (compound_id_column ds)) as Hk
    by (symmetry; by apply Hag).
  rewrite Hk in HR. apply summary_row_Ok in HR as (Hact & vals & Hvals & HR).
  unfold group_of in Hlen. rewrite <-Hrows in Hlen.
  destruct (filter _ (rows F)) as [|l0 [|]] eqn:Hg; try done.
  assert (l ∈ [l0]) as ->%list_elem_of_singleton.
  { rewrite <-Hg. by apply list_elem_of_filter. }
  rewrite fmap_cons in Hvals. unfold astype_float in Hvals. simpl in Hvals.
  apply bind_Ok in Hvals as (v & Hv & [= <-]).
  exists l0, v. split_and!; try done. subst R. exact Hr'.
Qed.

Lemma summary_series_lookup_dom self n vals c :
  c ∈ summary_columns self →
  is_Some ((list_to_map (summary_series self n vals) : gmap string cell) !! c).
Proof.
  intros Hc. rewrite <-(summary_series_keys self n vals) in Hc.
  apply list_elem_of_fmap in Hc as ([c' x] & -> & Hin).
  destruct (list_to_map (summary_series self n vals) !! (c', x).1) eqn:Hl; [done|].
  apply not_elem_of_list_to_map in Hl. exfalso. apply Hl.
  apply list_elem_of_fmap. by exists (c', x).
Qed.

(** C8 (amended). When the raw table has no column named like a summary
    column, the cleaned table is not empty and every compound in it had a
    single valid measurement in the raw table, cleaning the cleaned table
    again returns it unchanged. *)
Theorem clean_dataset_idempotent_on_singletons self ds out :
  clean_dataset self ds = Ok out →
  fresh_summary self (bioactivities_df ds) →
  rows out ≠ [] →
  (∀ r, r ∈ rows out → length (group_of ds (at_col r (compound_id_column ds))) = 1%nat) →
  clean_dataset self (with_table ds out) = Ok out.
Proof.
  intros Hrun Hfresh Hne Hsingle.
  pose proof Hrun as (Hty & F & HF & Hid & HidS & _ & _ & Hout)%clean_dataset_Ok.
  pose proof HF as (Hrel & Hcm & Hpv & _)%default_filter_chembl_Ok.
  destruct (filtered_frame _ _ HF) as [Hcols Hrows].
  assert (fresh_summary self F) as HfreshF by (unfold fresh_summary; by rewrite Hcols).
  pose proof (clean_ids_NoDup _ _ _ Hrun) as Hnodup.
  assert (columns out = columns F ++ summary_columns self) as Hcolumns.
  { rewrite Hout. unfold clean_frame. cbn [columns].
    rewrite extra_columns_filter, filter_all by done. done. }
  assert (extra_columns self ds F = summary_columns self) as Hextra
    by (rewrite extra_columns_filter, filter_all by done; done).
  assert (∀ c, c ∈ columns F → c ∈ columns out) as Hsub
    by (intros c Hc; rewrite Hcolumns; apply elem_of_app; by left).
  (* the rows of the cleaned table are valid rows *)
  assert (∀ r, r ∈ rows out → chembl_valid r) as Hvalid.
  { intros r Hr.
    destruct (clean_rows_agree _ _ _ _ _ HF Hrun Hr) as (l & Hl & Hag).
    rewrite Hrows in Hl. apply list_elem_of_filter in Hl as [(? & ? & ?) _].
    unfold chembl_valid. rewrite !Hag by done. done. }
  assert (_default_filter_chembl out = Ok out) as HF2.
  { apply default_filter_chembl_Ok. split_and!; [by apply Hsub; rewrite Hcols ..|].
    rewrite filter_all by done. by destruct out. }
  (* the group of a row of the cleaned table, and its summary *)
  assert (∀ r, r ∈ rows out →
    filter (λ r', at_col r' (compound_id_column ds) = at_col r (compound_id_column ds))
      (rows out) = [r]) as Hgroup2.
  { intros r Hr. by apply (clean_rows_with_id _ _ _ _ Hrun Hr). }
  assert (∀ r, r ∈ rows out →
    ∃ R, summary_row self (with_table ds out) out (at_col r (compound_id_column ds)) = Ok R ∧
         r = project (columns F) r ∪ project (summary_columns self) R ∧
         (∀ c, is_Some (r !! c) → c ∈ columns out) ∧
         (∀ c, c ∈ summary_columns self → at_col r c = at_col R c)) as Hsummary2.
  { intros r Hr.
    destruct (first_pass_row _ _ _ _ _ HF Hrun Hr (Hsingle r Hr))
      as (l & v & Hl & Hk & Hnn & Hact & Hv & Hnm & Hr_eq).
    rewrite Hextra in Hr_eq.
    set (R := <[compound_id_column ds := at_col r (compound_id_column ds)]>
                (list_to_map (summary_series self 1 [v]))) in *.
    assert (∀ c, c ∈ columns F → at_col r c = at_col l c) as Hag.
    { intros c Hc. rewrite Hr_eq. apply at_col_joined_left; [done|].
      intros HS. by apply (HfreshF c). }
    exists R. split_and!.
    - apply summary_row_Ok. cbn [with_table compound_id_column activity_column].
      split; [by apply Hsub|]. exists [v]. rewrite Hgroup2 by done. split; [|done].
      unfold astype_float. simpl. by rewrite (Hag _ Hact), Hv.
    - rewrite Hr_eq at 1. f_equal. apply map_eq. intros c. rewrite !lookup_project.
      destruct (decide (c ∈ columns F)) as [Hc|Hc]; [|done].
      rewrite Hr_eq, lookup_union, lookup_project, decide_True by done.
      rewrite lookup_project, decide_False by (intros HS; by apply (HfreshF c)).
      by destruct (l !! c).
    - intros c Hc. rewrite Hr_eq in Hc. apply lookup_union_is_Some in Hc as [Hc|Hc];
        apply project_dom in Hc; rewrite Hcolumns; apply elem_of_app; tauto.
    - intros c Hc. rewrite Hr_eq. apply at_col_joined_right; [|done].
      by apply HfreshF. }
  apply clean_dataset_Ok. split; [done|]. exists out.
  cbn [with_table bioactivities_df compound_id_column].
  split_and!; [done | by apply Hsub | done | | |].
  - assert (∃ r, r ∈ rows out) as [r Hin].
    { destruct (rows out) as [|r ?]; [done|]. exists r. left. }
    destruct (first_pass_row _ _ _ _ _ HF Hrun Hin (Hsingle r Hin)) as (_ & _ & _ & _ & Hnn & _).
    intros Hnil.
    assert (at_col r (compound_id_column ds) ∈
            group_keys (ids_of (compound_id_column ds) (rows out))) as Hk.
    { apply elem_of_group_keys. split; [done|]. apply list_elem_of_fmap. by exists r. }
    rewrite Hnil in Hk. by apply elem_of_nil in Hk.
  - intros k [_ (r & -> & Hr)%list_elem_of_fmap]%elem_of_group_keys.
    destruct (Hsummary2 r Hr) as (R & HR & _). by exists R.
  - assert (extra_columns self (with_table ds out) out = []) as Hextra2.
    { rewrite extra_columns_filter by (by apply Hsub).
      apply filter_none. intros c Hc Hnot. apply Hnot. rewrite Hcolumns.
      apply elem_of_app. by right. }
    assert (rows out ≫= joined self (with_table ds out) out = rows out) as Hjoined.
    { apply bind_singletons. intros r Hr.
      destruct (Hsummary2 r Hr) as (R & HR & Hr_eq & Hdom & HagS).
      destruct (first_pass_row _ _ _ _ _ HF Hrun Hr (Hsingle r Hr)) as (_ & _ & _ & _ & Hnn & _).
      unfold joined. cbn [with_table compound_id_column] in *. rewrite HR.
      rewrite decide_True.
      - rewrite Hextra2, project_nil, (right_id_L ∅ (∪)). by rewrite project_id.
      - split; [done|]. unfold keys_match. apply Forall_forall.
        intros c [[->|HS]%elem_of_cons _]%list_elem_of_filter.
        + symmetry. by apply (summary_row_id self (with_table ds out) out _ R).
        + by apply HagS. }
    unfold clean_frame. rewrite Hextra2, app_nil_r, Hjoined.
    cbn [with_table compound_id_column].
    rewrite filter_all.
    + rewrite head1_all; [by destruct out | done |].
      intros r Hr. split; [|by intros ?%elem_of_nil].
      by destruct (first_pass_row _ _ _ _ _ HF Hrun Hr (Hsingle r Hr)) as (_ & _ & _ & _ & ? & _).
    + intros r Hr.
      by destruct (first_pass_row _ _ _ _ _ HF Hrun Hr (Hsingle r Hr)) as (_ & _ & _ & _ & _ & _ & _ & ? & _).
Qed.

End Cleaning_properties.

(** ** Lower-casing and the case-insensitive comparison *)

Lemma nat_of_ascii_inj a b : nat_of_ascii a = nat_of_ascii b → a = b.
Proof.
  intros Heq. rewrite <-(ascii_nat_embedding a), <-(ascii_nat_embedding b). by rewrite Heq.
Qed.

Lemma nat_of_ascii_lower a :
  nat_of_ascii (ascii_lower a) =
  if bool_decide (65 ≤ nat_of_ascii a ≤ 90)%nat then (nat_of_ascii a + 32)%nat
  else nat_of_ascii a.
Proof.
  unfold ascii_lower. case_bool_decide; [|done].
  apply nat_ascii_embedding. lia.
Qed.

(** Two characters have the same lower case exactly when they are the same
    letter in upper or lower case, or the same character. *)
Lemma same_letter_lower a b :
  same_letter a b = true ↔ ascii_lower a = ascii_lower b.
Proof.
  unfold same_letter, is_upper.
  rewrite !orb_true_iff, !andb_true_iff, !bool_decide_eq_true.
  split.
  - intros Hsame. apply nat_of_ascii_inj. rewrite !nat_of_ascii_lower.
    destruct Hsame as [[->|[Ha Hb]]|[Hb Ha]]; [done| |]; repeat case_bool_decide; lia.
  - intros Heq%(f_equal nat_of_ascii). rewrite !nat_of_ascii_lower in Heq.
    destruct (decide (nat_of_ascii a = nat_of_ascii b)) as [Hab%nat_of_ascii_inj|Hab];
      [by left; left|].
    repeat case_bool_decide; [lia|left; right|right|lia]; split; try done; lia.
Qed.

Lemma same_ignoring_case_lower s t :
  same_ignoring_case s t = true ↔ str_lower s = str_lower t.
Proof.
  revert t. induction s as [|a s IH]; intros [|b t]; simpl; try done.
  rewrite andb_true_iff, same_letter_lower, IH. split.
  - by intros [-> ->].
  - by intros [= -> ->].
Qed.

Lemma str_lower_app s t : str_lower (s +:+ t) = str_lower s +:+ str_lower t.
Proof.
  induction s as [|a s IH]; [done|].
  change (String (ascii_lower a) (str_lower (s +:+ t)) =
          String (ascii_lower a) (str_lower s +:+ str_lower t)).
  by rewrite IH.
Qed.

(** A cut of the lower-cased string is a cut of the string. *)
Lemma str_lower_cut s a b :
  str_lower s = a +:+ b →
  ∃ s1 s2, s = s1 +:+ s2 ∧ str_lower s1 = a ∧ str_lower s2 = b.
Proof.
  revert s. induction a as [|x a IH]; intros s Heq.
  - by exists "", s.
  - destruct s as [|y s]; [done|].
    change (String (ascii_lower y) (str_lower s) = String x (a +:+ b)) in Heq.
    injection Heq as Hx Heq. destruct (IH s Heq) as (s1 & s2 & -> & <- & <-).
    exists (String y s1), s2. split_and!; [done| |done].
    simpl. by rewrite Hx.
Qed.

(** On ASCII strings: the lower-cased [s] contains the lower-cased [t]
    exactly when a part of [s] is [t] up to the case of the letters. *)
Lemma str_lower_contains s t :
  (∃ pre post, str_lower s = pre +:+ str_lower t +:+ post) ↔
  ∃ pre mid post, s = pre +:+ mid +:+ post ∧ same_ignoring_case mid t = true.
Proof.
  split.
  - intros (pre' & post' & Heq).
    apply str_lower_cut in Heq as (pre & rest & -> & <- & Hrest).
    apply str_lower_cut in Hrest as (mid & post & -> & Hmid & <-).
    exists pre, mid, post. split; [done|]. by apply same_ignoring_case_lower.
  - intros (pre & mid & post & -> & Hmid%same_ignoring_case_lower).
    exists (str_lower pre), (str_lower post). by rewrite !str_lower_app, Hmid.
Qed.

(** ** C10: the records kept by the fetch *)

Lemma str_prefix_spec a b : str_prefix a b = true ↔ ∃ post, b = a +:+ post.
Proof.
  revert b. induction a as [|x a IH]; intros b; simpl.
  - split; [intros _; by exists b | done].
  - destruct b as [|y b].
    + split; [done | by intros [post ?]].
    + rewrite andb_true_iff, bool_decide_eq_true, IH. split.
      * intros [-> [post ->]]. by exists post.
      * intros [post [= -> ->]]. split; [done | by exists post].
Qed.

Lemma str_contains_spec a b :
  str_contains a b = true ↔ ∃ pre post, b = pre +:+ a +:+ post.
Proof.
  induction b as [|y b IH]; simpl; rewrite orb_true_iff, str_prefix_spec.
  - split.
    + intros [[post Hpost]|?]; [|done]. by exists "", post.
    + intros (pre & post & Heq). left. exists post.
      destruct pre as [|]; [done | by simplify_eq/=].
  - rewrite IH. split.
    + intros [[post Hpost]|(pre & post & ->)].
      * by exists "", post.
      * by exists (String y pre), post.
    + intros ([|z pre] & post & Heq).
      * left. by exists post.
      * right. exists pre, post.
        change (String y b = String z (pre +:+ a +:+ post)) in Heq. by injection Heq.
Qed.

Lemma existsb_elem_of {A} (p : A → bool) (l : list A) :
  existsb p l = true ↔ ∃ x, x ∈ l ∧ p x = true.
Proof.
  induction l as [|y l IH]; simpl.
  - split; [done | by intros (x & ?%elem_of_nil & _)].
  - rewrite orb_true_iff, IH. split.
    + intros [Hy|(x & Hx & Hp)]; [exists y; split; [left | done] | exists x; split; [by right | done]].
    + intros (x & [->|Hx]%elem_of_cons & Hp); [by left | right; by exists x].
Qed.

Section Fetch_properties.
Context `{PyStrings}.

(** A record is accepted when its measurement type, lower-cased, contains
    one of the lower-cased accepted types. *)
Lemma accepted_true standard_types v :
  accepted standard_types v = true ↔
  ∃ types s t, standard_types = Some types ∧ v = Str s ∧ t ∈ types ∧
               ∃ pre post, py_lower s = pre +:+ py_lower t +:+ post.
Proof.
  unfold accepted. destruct standard_types as [types|].
  - destruct v as [|s| | |]; try (split; [done | by intros (? & ? & ? & _ & [=] & _)]).
    rewrite existsb_elem_of. split.
    + intros (t & Ht & Hc%str_contains_spec). by exists types, s, t.
    + intros (? & ? & t & [= <-] & [= <-] & Ht & Hc). exists t. split; [done|].
      by apply str_contains_spec.
  - split; [done | by intros (? & ? & ? & [=] & _)].
Qed.

Lemma record_pop_getitem d key k :
  k ≠ key → record_getitem (record_pop d key).2 k = record_getitem d k.
Proof.
  intros Hne. induction d as [|[k' v'] d IH]; simpl; [done|].
  destruct (decide (k' = key)) as [->|Hk'].
  - rewrite bool_decide_eq_true_2 by done. simpl.
    by rewrite bool_decide_eq_false_2 by done.
  - rewrite (bool_decide_eq_false_2 (k' = key)) by done.
    destruct (record_pop d key) as [x d'] eqn:Hpop. simpl in *.
    by rewrite IH.
Qed.

Lemma DataFrame_of_record_Ok d df :
  DataFrame_of_record d = Ok df →
  columns df = d.*1 ∧
  ∃ r, rows df = [r] ∧ ∀ k c, record_getitem d k = Ok (PCell c) → r !! k = Some c.
Proof.
  unfold DataFrame_of_record. intros (cells & Hcells%result_mapM_Ok & [= <-])%bind_Ok.
  split; [done|]. eexists. split; [done|]. cbn [rows].
  induction Hcells as [|[k' v'] [k'' c'] d cells Hkv Hall IH]; intros k c Hk; [done|].
  simpl in Hkv, Hk. apply bind_Ok in Hkv as (c0 & Hc0 & [= <- <-]).
  simpl. case_bool_decide as Hkk.
  - subst k'. injection Hk as ->. simpl in Hc0. injection Hc0 as <-.
    by rewrite lookup_insert_eq.
  - rewrite lookup_insert_ne by done. by apply IH.
Qed.

Lemma length_bind_rows (l : list DataFrame) :
  length (l ≫= rows) = sum_list_with (λ f, length (rows f)) l.
Proof.
  induction l as [|f l IH]; [done|].
  rewrite bind_cons, length_app, IH. done.
Qed.

(** What [pd.concat] keeps of each frame: its columns and its rows. *)
Lemma pd_concat_Ok frames df :
  pd_concat frames = Ok df →
  rows df = frames ≫= rows ∧
  length (rows df) = sum_list_with (λ f, length (rows f)) frames ∧
  ∀ c, c ∈ columns df ↔ ∃ f, f ∈ frames ∧ c ∈ columns f.
Proof.
  unfold pd_concat. destruct frames as [|f0 frames]; [done|]. intros [= <-].
  cbn [rows columns]. split_and!; [done| |].
  - exact (length_bind_rows (f0 :: frames)).
  - intros c. change (c ∈ unique_in_order ((f0 :: frames) ≫= columns) ↔ ∃ f, f ∈ f0 :: frames ∧ c ∈ columns f).
    rewrite elem_of_unique_in_order, list_elem_of_bind. split; intros (f & ? & ?); by exists f.
Qed.

(** On ASCII strings the match ignores the case of the letters: the record
    is accepted exactly when a part of its measurement type is an accepted
    type up to the case of the letters. *)
Lemma accepted_ascii types s :
  is_ascii s → Forall is_ascii types →
  accepted (Some types) (Str s) = true ↔
  ∃ t pre mid post, t ∈ types ∧ s = pre +:+ mid +:+ post ∧ same_ignoring_case mid t = true.
Proof.
  intros Hs Htypes. rewrite accepted_true. split.
  - intros (? & ? & t & [= <-] & [= <-] & Ht & Hc).
    rewrite !py_lower_ascii in Hc by (done || by eapply (proj1 (Forall_forall _ _) Htypes)).
    apply str_lower_contains in Hc as (pre & mid & post & ? & ?). by exists t, pre, mid, post.
  - intros (t & pre & mid & post & Ht & Heq & Hmid).
    exists types, s, t. split_and!; [done|done|done|].
    rewrite !py_lower_ascii by (done || by eapply (proj1 (Forall_forall _ _) Htypes)).
    apply str_lower_contains. by exists pre, mid, post.
Qed.

(** C10 (amended). For a record whose measurement type is a string or None:
    the record is accepted exactly when its lower-cased measurement type
    contains a lower-cased accepted type; an accepted record becomes a frame
    of one row that carries its scalar fields; any other record becomes a
    frame with the keys of the record as columns and no row, so that the
    concatenated raw table takes its column names and no row from it.  On
    ASCII strings the match is the case-insensitive substring match: a part
    of the measurement type is an accepted type up to the case of the
    letters. *)
Theorem get_compound_df_policy standard_types total idx compound_dict v :
  total ≠ 0%nat →
  record_getitem compound_dict "standard_type" = Ok (PCell v) →
  (v = Null ∨ ∃ s, v = Str s) →
  (accepted standard_types v = true ↔
     ∃ types s t, standard_types = Some types ∧ v = Str s ∧ t ∈ types ∧
                  ∃ pre post, py_lower s = pre +:+ py_lower t +:+ post) ∧
  (accepted standard_types v = true →
     ∀ df, get_compound_df standard_types total idx compound_dict = Ok df →
       ∃ r, rows df = [r] ∧
            ∀ k c, k ≠ "activity_properties" → k ≠ "ligand_efficiency" →
                   record_getitem compound_dict k = Ok (PCell c) → at_col r k = c) ∧
  (accepted standard_types v = false →
     get_compound_df standard_types total idx compound_dict =
       Ok {| columns := compound_dict.*1; rows := [] |}) ∧
  (∀ frames placeholder raw,
     rows placeholder = [] → pd_concat frames = Ok raw →
     ∃ raw', pd_concat (frames ++ [placeholder]) = Ok raw' ∧
             rows raw' = rows raw ∧
             ∀ c, c ∈ columns raw' ↔ c ∈ columns raw ∨ c ∈ columns placeholder) ∧
  (∀ types s, is_ascii s → Forall is_ascii types →
     (accepted (Some types) (Str s) = true ↔
      ∃ t pre mid post, t ∈ types ∧ s = pre +:+ mid +:+ post ∧
                        same_ignoring_case mid t = true)).
Proof.
  intros Htotal Hv Hshape.
  assert (print_progress_bar (idx + 1) total = Ok ()) as Hbar
    by (unfold print_progress_bar; by rewrite bool_decide_eq_false_2).
  assert ((match standard_types with
           | None => Ok false
           | Some types =>
               v ← record_getitem compound_dict "standard_type";
               match v with
               | PCell Null => Ok false
               | PCell (Str s) =>
                   Ok (existsb (λ t, str_contains (py_lower t) (py_lower s)) types)
               | _ => Raise (AttributeError "lower")
               end
           end) = Ok (accepted standard_types v)) as Hvalid.
  { unfold accepted. destruct standard_types as [types|]; [|done].
    rewrite Hv. by destruct Hshape as [->|[s ->]]. }
  split_and!.
  - apply accepted_true.
  - intros Hacc df Hrun. unfold get_compound_df in Hrun.
    rewrite Hvalid, result_bind_Ok, Hacc in Hrun.
    apply bind_Ok in Hrun as (df' & Hdf' & Hrun). rewrite Hbar in Hrun.
    injection Hrun as <-.
    destruct (record_pop compound_dict "activity_properties") as [x1 d1] eqn:Hpop1.
    destruct (record_pop d1 "ligand_efficiency") as [lig d2] eqn:Hpop2.
    apply bind_Ok in Hdf' as (cdf & Hcdf & Hdf').
    apply DataFrame_of_record_Ok in Hcdf as (Hcols & r & Hr & Hcells).
    assert (∀ k c, k ≠ "activity_properties" → k ≠ "ligand_efficiency" →
              record_getitem compound_dict k = Ok (PCell c) → r !! k = Some c) as Hget.
    { intros k c Hk1 Hk2 Hk. apply Hcells.
      replace d2 with (record_pop d1 "ligand_efficiency").2 by (by rewrite Hpop2).
      rewrite record_pop_getitem by done.
      replace d1 with (record_pop compound_dict "activity_properties").2 by (by rewrite Hpop1).
      by rewrite record_pop_getitem. }
    destruct lig as [[[]|lig|]|]; try done; try injection Hdf' as <-.
    + exists r. split; [done|]. intros k c ? ? Hk. unfold at_col. by erewrite Hget.
    + eexists. unfold concat_columns. cbn [rows]. rewrite Hr. split; [reflexivity|].
      intros k c ? ? Hk. unfold at_col. rewrite lookup_union.
      rewrite (Hget k c) by done. by destruct (_ !! k).
    + exists r. split; [done|]. intros k c ? ? Hk. unfold at_col. by erewrite Hget.
  - intros Hacc. unfold get_compound_df.
    by rewrite Hvalid, result_bind_Ok, Hacc, result_bind_Ok, Hbar.
  - intros frames placeholder raw Hempty Hraw.
    pose proof (pd_concat_Ok _ _ Hraw) as (Hrows & _ & Hcolumns).
    destruct frames as [|f0 frames]; [done|].
    eexists. split; [done|]. cbn [rows columns]. split.
    + rewrite Hrows. change ((f0 :: frames) ++ [placeholder]) with (f0 :: (frames ++ [placeholder])).
      rewrite !bind_cons, bind_app. simpl. rewrite Hempty. by rewrite !app_nil_r.
    + intros c. rewrite Hcolumns, elem_of_unique_in_order, list_elem_of_bind.
      split.
      * intros (f & Hc & [Hf|Hf%list_elem_of_singleton]%elem_of_app);
          [left; by exists f | right; by subst f].
      * intros [(f & Hf & Hc)|Hc].
        -- exists f. split; [done|]. apply elem_of_app. by left.
        -- exists placeholder. split; [done|]. apply elem_of_app. right. by left.
  - intros types s Hs Htypes. by apply accepted_ascii.
Qed.

End Fetch_properties.

(** ** C7 and C9: the data source as an object, the store after cleaning *)

Lemma prog_bind_run {A B} (m : prog A) (k : A → prog B) σ :
  (m ≫= k) σ = match m σ with
               | (Ok a, σ') => k a σ'
               | (Raise e, σ') => (Raise e, σ')
               end.
Proof. done. Qed.

Lemma returns_val_bind {A} (m : prog A) (k : A → prog positive) p kp σ :
  returns_val m p σ →
  (∀ a σ1, σ ⊆ σ1 → p = Ok a → returns_new (k a) (kp a) σ1) →
  returns_new (m ≫= k) (p ≫= kp) σ.
Proof.
  intros (σ1 & Hsub & Hm) Hk. unfold returns_new. rewrite prog_bind_run, Hm.
  destruct p as [a|e]; simpl.
  - destruct (Hk a σ1 Hsub eq_refl) as (σ2 & Hsub2 & Hrun).
    exists σ2. split; [by etrans|]. destruct (kp a) as [df|e]; [|done].
    destruct Hrun as (l & Hrun & Hfree & Hl). exists l. split_and!; [done| |done].
    destruct (σ !! l) as [x|] eqn:Hx; [|done].
    by rewrite (lookup_weaken _ _ _ _ Hx Hsub) in Hfree.
  - by exists σ1.
Qed.

Lemma returns_new_bind (m : prog positive) (k : positive → prog positive) p kp σ :
  returns_new m p σ →
  (∀ l df σ1, σ ⊆ σ1 → σ1 !! l = Some df → p = Ok df → returns_new (k l) (kp df) σ1) →
  returns_new (m ≫= k) (p ≫= kp) σ.
Proof.
  intros (σ1 & Hsub & Hm) Hk. unfold returns_new. rewrite prog_bind_run.
  destruct p as [df|e]; simpl.
  - destruct Hm as (l & Hm & Hfree & Hl). rewrite Hm.
    destruct (Hk l df σ1 Hsub Hl eq_refl) as (σ2 & Hsub2 & Hrun).
    exists σ2. split; [by etrans|]. destruct (kp df) as [df'|e]; [|done].
    destruct Hrun as (l' & Hrun & Hfree' & Hl'). exists l'. split_and!; [done| |done].
    destruct (σ !! l') as [x|] eqn:Hx; [|done].
    by rewrite (lookup_weaken _ _ _ _ Hx Hsub) in Hfree'.
  - rewrite Hm. by exists σ1.
Qed.

Lemma returns_lift {A} (r : result A) σ : returns_val (lift r) r σ.
Proof. by exists σ. Qed.

Lemma returns_new_from (r : result DataFrame) σ : returns_new (new_from r) r σ.
Proof.
  unfold returns_new, new_from. rewrite prog_bind_run. unfold lift, new.
  assert (σ !! fresh (dom σ) = None) as Hfresh
    by (apply not_elem_of_dom, is_fresh).
  destruct r as [df|e].
  - exists (<[fresh (dom σ) := df]> σ). split; [by apply insert_subseteq|].
    exists (fresh (dom σ)). by rewrite lookup_insert_eq.
  - by exists σ.
Qed.

Lemma returns_read {A} (f : DataFrame → result A) l df σ :
  σ !! l = Some df → returns_val (read f l) (f df) σ.
Proof.
  intros Hl. exists σ. split; [done|]. unfold read. rewrite prog_bind_run.
  unfold get. by rewrite Hl.
Qed.

Lemma returns_op1 f l df σ :
  σ !! l = Some df → returns_new (op1 f l) (f df) σ.
Proof.
  intros Hl. destruct (returns_new_from (f df) σ) as (σ' & Hsub & Hrun).
  exists σ'. split; [done|]. unfold op1. rewrite prog_bind_run. unfold get.
  by rewrite Hl.
Qed.

Lemma returns_op2 f l1 l2 a b σ :
  σ !! l1 = Some a → σ !! l2 = Some b → returns_new (op2 f l1 l2) (f a b) σ.
Proof.
  intros Hl1 Hl2.
  assert (op2 f l1 l2 σ = new_from (f a b) σ) as Heq.
  { unfold op2. rewrite prog_bind_run. unfold get at 1. rewrite Hl1, prog_bind_run.
    unfold get. by rewrite Hl2. }
  unfold returns_new. rewrite Heq. apply returns_new_from.
Qed.

Lemma returns_new_mret (m : prog positive) p σ :
  returns_new m p σ → returns_new (l ← m; mret l) p σ.
Proof.
  intros (σ' & Hsub & Hrun). exists σ'. split; [done|]. rewrite prog_bind_run.
  destruct p as [df|e].
  - destruct Hrun as (l & -> & ? & ?). by exists l.
  - by rewrite Hrun.
Qed.

Lemma returns_new_let (m : prog positive) (k : positive → prog positive) df0 p σ :
  returns_new m (Ok df0) σ →
  (∀ l σ1, σ ⊆ σ1 → σ1 !! l = Some df0 → returns_new (k l) p σ1) →
  returns_new (m ≫= k) p σ.
Proof.
  intros Hm Hk. apply (returns_new_bind m k (Ok df0) (λ _, p)); [done|].
  intros l df σ1 Hsub Hl [= <-]. by apply Hk.
Qed.

Lemma default_filter_chembl_obj_spec l df σ :
  σ !! l = Some df →
  returns_new (_default_filter_chembl_obj l) (_default_filter_chembl df) σ.
Proof.
  intros Hl. unfold _default_filter_chembl_obj, _default_filter_chembl.
  eapply returns_val_bind; [by apply (returns_read (λ d, getitem d "relation") l df)|].
  intros relation σ1 Hsub1 _.
  eapply returns_new_let.
  { eapply (returns_op1 (λ d, Ok (getitem_mask d (eq_str "=" <$> relation))) l df).
    by eapply lookup_weaken. }
  intros l1 σ2 Hsub2 Hl1.
  eapply returns_val_bind.
  { by apply (returns_read (λ d, getitem d "data_validity_comment") l1). }
  intros comment σ3 Hsub3 _.
  eapply returns_new_let.
  { eapply (returns_op1 (λ d, Ok (getitem_mask d (isnull <$> comment))) l1).
    by eapply lookup_weaken. }
  intros l2 σ4 Hsub4 Hl2.
  eapply returns_val_bind.
  { by apply (returns_read (λ d, getitem d "pchembl_value") l2). }
  intros pchembl σ5 Hsub5 _.
  apply returns_new_mret.
  eapply (returns_op1 (λ d, Ok (getitem_mask d (negb <$> (isnull <$> pchembl)))) l2).
  by eapply lookup_weaken.
Qed.

(** ** Programs that overwrite nothing *)











(** An operation in place does overwrite: the frame at its location is the
    changed one. *)
Lemma op1_inplace_overwrites f l df df' σ :
  σ !! l = Some df → f df = Ok df' →
  op1_inplace f l σ = (Ok (), <[l:=df']> σ).
Proof.
  intros Hl Hf. unfold op1_inplace. rewrite prog_bind_run. unfold get. rewrite Hl.
  rewrite prog_bind_run. unfold lift. by rewrite Hf.
Qed.

Section Objects_properties.
Context `{PyNumerics}.

(** The object program computes what the pipeline computes on values. *)
Lemma clean_dataset_obj_spec self o df σ :
  σ !! object_bioactivities_df o = Some df →
  returns_new (clean_dataset_obj self o) (clean_dataset self (snapshot o df)) σ.
Proof.
  intros Hl. unfold clean_dataset_obj, clean_dataset.
  cbn [snapshot bioactivities_df type_of compound_id_column activity_column].
  eapply returns_new_let.
  { by apply (returns_op1 (λ d, Ok (copy d)) _ df). }
  intros l0 σ0 Hsub0 Hl0.
  eapply returns_new_bind.
  { case_bool_decide.
    - by apply default_filter_chembl_obj_spec.
    - by exists σ0. }
  intros l1 F σ1 Hsub1 Hl1 _.
  eapply returns_val_bind.
  { by apply (returns_read
      (λ d, groupby_apply d (object_compound_id_column o)
              (λ x, _mark_to_remove self x (object_activity_column o))) l1 F). }
  intros g σ2 Hsub2 _.
  eapply returns_new_bind; [apply returns_new_from|].
  intros lr right σ3 Hsub3 Hlr _.
  eapply returns_new_bind.
  { apply (returns_op2 pd_merge l1 lr F right); [|done].
    eapply lookup_weaken; [done|]. by etrans. }
  intros lm merged σ4 Hsub4 Hlm _.
  eapply returns_val_bind.
  { by apply (returns_read (λ d, getitem d "mark_to_remove") lm merged). }
  intros mark σ5 Hsub5 _.
  eapply returns_val_bind; [apply returns_lift|].
  intros keep σ6 Hsub6 _.
  eapply returns_new_let.
  { apply (returns_op1 (λ d, Ok (getitem_mask d keep)) lm merged).
    eapply lookup_weaken; [done|]. by etrans. }
  intros lk σ7 Hsub7 Hlk.
  by apply (returns_op1 (λ d, groupby_head1 d (object_compound_id_column o)) lk).
Qed.

(** A data source object without a table: reading the attribute raises
    before the type of the data source is looked at. *)
Lemma clean_dataset_obj_no_table self o σ :
  σ !! object_bioactivities_df o = None →
  clean_dataset_obj self o σ = (Raise (AttributeError "bioactivities_df"), σ).
Proof.
  intros Hl. unfold clean_dataset_obj. rewrite prog_bind_run.
  unfold op1. rewrite prog_bind_run. unfold get. by rewrite Hl.
Qed.


(** C7 (amended). Without the attribute [bioactivities_df], [clean_dataset]
    raises AttributeError, whatever the type of the data source; it raises
    the error "Data source not recognized" exactly when the data source has
    the attribute and is not a [ChEMBLApiDataSource]. *)
Theorem unsupported_source_with_table self o σ :
  (σ !! object_bioactivities_df o = None →
     clean_dataset_obj self o σ = (Raise (AttributeError "bioactivities_df"), σ)) ∧
  ((∃ σ', clean_dataset_obj self o σ = (Raise unsupported_source, σ')) ↔
   is_Some (σ !! object_bioactivities_df o) ∧ object_type o ≠ ChEMBLApiDataSource).
Proof.
  split; [apply clean_dataset_obj_no_table|]. split.
  - intros [σ' Hrun]. destruct (σ !! object_bioactivities_df o) as [df|] eqn:Hl.
    + split; [done|].
      destruct (clean_dataset_obj_spec self o df σ Hl) as (σ'' & _ & Hspec).
      destruct (clean_dataset self (snapshot o df)) as [out|e] eqn:Hc.
      * destruct Hspec as (l' & Hrun' & _). congruence.
      * rewrite Hrun in Hspec. injection Hspec as <- _.
        by apply unsupported_source_iff in Hc.
    + rewrite clean_dataset_obj_no_table in Hrun by done. by injection Hrun.
  - intros [[df Hl] Hty].
    destruct (clean_dataset_obj_spec self o df σ Hl) as (σ' & _ & Hspec).
    rewrite (proj2 (unsupported_source_iff self (snapshot o df))) in Hspec by done.
    by exists σ'.
Qed.


End Objects_properties.

(** * Further properties of the code *)

Lemma result_mapM_Ok_exists {A B} (f : A → result B) (l : list A) :
  (∃ bs, result_mapM f l = Ok bs) ↔ ∀ a, a ∈ l → ∃ b, f a = Ok b.
Proof.
  split.
  - intros (bs & Hall%result_mapM_Ok) a (i & Hi)%list_elem_of_lookup.
    destruct (Forall2_lookup_l _ _ _ _ _ Hall Hi) as (b & _ & Hb). by exists b.
  - intros Hall. destruct (Forall2_exists (λ a b, f a = Ok b) l Hall) as [bs Hbs].
    exists bs. by apply result_mapM_Ok.
Qed.

Lemma result_mapM_Raise_exists {A B} (f : A → result B) (l : list A) :
  (∃ a e, a ∈ l ∧ f a = Raise e) → ∃ e, result_mapM f l = Raise e.
Proof.
  intros (a & e & Ha & He).
  destruct (result_cases (result_mapM f l)) as [[bs Hbs]|?]; [|done].
  destruct (proj1 (result_mapM_Ok_exists f l) (ex_intro _ bs Hbs) a Ha) as [b Hb].
  congruence.
Qed.

Lemma getitem_missing df col :
  col ∉ columns df → getitem df col = Raise (KeyError col).
Proof. intros. by apply getitem_Raise. Qed.

Lemma getitem_present df col :
  col ∈ columns df → getitem df col = Ok ((λ r, at_col r col) <$> rows df).
Proof. intros. by apply getitem_Ok. Qed.

Lemma default_filter_chembl_missing df col :
  col = "relation" ∧ "relation" ∉ columns df ∨
  "relation" ∈ columns df ∧
    (col = "data_validity_comment" ∧ "data_validity_comment" ∉ columns df ∨
     "data_validity_comment" ∈ columns df ∧
       col = "pchembl_value" ∧ "pchembl_value" ∉ columns df) →
  _default_filter_chembl df = Raise (KeyError col).
Proof.
  unfold _default_filter_chembl.
  intros [[-> Hrel]|[Hrel [[-> Hcm]|[Hcm [-> Hpv]]]]].
  - by rewrite getitem_missing.
  - rewrite getitem_present, result_bind_Ok by done.
    by rewrite getitem_missing.
  - rewrite getitem_present, result_bind_Ok by done.
    rewrite getitem_present, result_bind_Ok by done.
    by rewrite getitem_missing.
Qed.

(** ** The filter of the remote-database variant *)

(** X1. The filter keeps the columns, keeps the surviving rows in the order
    of the input, and filtering a filtered table changes nothing. *)
Theorem default_filter_chembl_idempotent df F :
  _default_filter_chembl df = Ok F →
  columns F = columns df ∧
  rows F `sublist_of` rows df ∧
  _default_filter_chembl F = Ok F.
Proof.
  intros (Hrel & Hcm & Hpv & ->)%default_filter_chembl_Ok. cbn [columns rows].
  split; [done|]. split; [apply sublist_filter|].
  apply default_filter_chembl_Ok. cbn [columns rows]. split_and!; try done.
  f_equal. symmetry. apply filter_all. by intros r [? _]%list_elem_of_filter.
Qed.

Section Cleaning_edges.
Context `{PyNumerics}.

Implicit Types (self : Preprocessing) (ds : data_source) (F out : DataFrame).

(** X2. A ChEMBL table without one of the columns the pipeline reads makes
    [clean_dataset] raise [KeyError] for the first column that is missing,
    in the order relation, data_validity_comment, pchembl_value, compound
    identifier, whatever the rows are. *)
Theorem clean_dataset_missing_column self ds :
  type_of ds = ChEMBLApiDataSource →
  ("relation" ∉ columns (bioactivities_df ds) →
     clean_dataset self ds = Raise (KeyError "relation")) ∧
  ("relation" ∈ columns (bioactivities_df ds) →
   "data_validity_comment" ∉ columns (bioactivities_df ds) →
     clean_dataset self ds = Raise (KeyError "data_validity_comment")) ∧
  ("relation" ∈ columns (bioactivities_df ds) →
   "data_validity_comment" ∈ columns (bioactivities_df ds) →
   "pchembl_value" ∉ columns (bioactivities_df ds) →
     clean_dataset self ds = Raise (KeyError "pchembl_value")) ∧
  ("relation" ∈ columns (bioactivities_df ds) →
   "data_validity_comment" ∈ columns (bioactivities_df ds) →
   "pchembl_value" ∈ columns (bioactivities_df ds) →
   compound_id_column ds ∉ columns (bioactivities_df ds) →
     clean_dataset self ds = Raise (KeyError (compound_id_column ds))).
Proof.
  intros Hty. unfold clean_dataset, copy. rewrite bool_decide_eq_true_2 by done.
  split_and!.
  - intros Hrel. by rewrite (default_filter_chembl_missing _ _ (or_introl (conj eq_refl Hrel))).
  - intros Hrel Hcm.
    by rewrite (default_filter_chembl_missing _ _ (or_intror (conj Hrel (or_introl (conj eq_refl Hcm))))).
  - intros Hrel Hcm Hpv.
    by rewrite (default_filter_chembl_missing _ _
      (or_intror (conj Hrel (or_intror (conj Hcm (conj eq_refl Hpv)))))).
  - intros Hrel Hcm Hpv Hid.
    erewrite (proj2 (default_filter_chembl_Ok (bioactivities_df ds) _));
      [|split_and!; [done|done|done|reflexivity]].
    rewrite result_bind_Ok. unfold groupby_apply.
    by rewrite getitem_missing.
Qed.

Lemma group_keys_nil (col : list cell) :
  group_keys col = [] ↔ ∀ c, c ∈ col → c = Null.
Proof.
  split.
  - intros Hnil c Hc. destruct (decide (c = Null)) as [|Hne]; [done|].
    assert (c ∈ group_keys col) as Hin by by apply elem_of_group_keys.
    rewrite Hnil in Hin. by apply elem_of_nil in Hin.
  - intros Hall. destruct (group_keys col) as [|k ks] eqn:Hk; [done|].
    assert (k ∈ group_keys col) as [Hne Hin]%elem_of_group_keys
      by (rewrite Hk; left).
    by apply Hall in Hin.
Qed.

Lemma elem_of_ids_of by_ (l : list (gmap string cell)) k :
  k ∈ ids_of by_ l ↔ ∃ r, r ∈ l ∧ at_col r by_ = k.
Proof.
  unfold ids_of. rewrite list_elem_of_fmap. split; intros (r & ? & ?); by exists r.
Qed.

(** The conversion of the activity cells of a group succeeds exactly when
    it succeeds on every row of the group. *)
Lemma astype_float_Ok_exists act (l : list (gmap string cell)) :
  (∃ vals, astype_float ((λ r, at_col r act) <$> l) = Ok vals) ↔
  ∀ r, r ∈ l → ∃ v, cell_to_float (at_col r act) = Ok v.
Proof.
  unfold astype_float. rewrite result_mapM_Ok_exists. split.
  - intros Hall r Hr. apply Hall. apply list_elem_of_fmap. by exists r.
  - intros Hall c (r & -> & Hr)%list_elem_of_fmap. by apply Hall.
Qed.

(** X3. On a raw table that has no column named like a summary column,
    [clean_dataset] returns a table exactly when the data source is a
    [ChEMBLApiDataSource], the raw table has the three columns of the filter,
    the identifier column and the activity column, at least one row passes
    the filter with an identifier, and the activity cell of every such row
    converts to a float. *)
Theorem clean_dataset_succeeds_iff self ds :
  fresh_summary self (bioactivities_df ds) →
  ((∃ out, clean_dataset self ds = Ok out) ↔
   type_of ds = ChEMBLApiDataSource ∧
   "relation" ∈ columns (bioactivities_df ds) ∧
   "data_validity_comment" ∈ columns (bioactivities_df ds) ∧
   "pchembl_value" ∈ columns (bioactivities_df ds) ∧
   compound_id_column ds ∈ columns (bioactivities_df ds) ∧
   activity_column ds ∈ columns (bioactivities_df ds) ∧
   (∃ r, r ∈ rows (bioactivities_df ds) ∧ chembl_valid r ∧
         at_col r (compound_id_column ds) ≠ Null) ∧
   (∀ r, r ∈ rows (bioactivities_df ds) → chembl_valid r →
         at_col r (compound_id_column ds) ≠ Null →
         ∃ v, cell_to_float (at_col r (activity_column ds)) = Ok v)).
Proof.
  intros Hfresh. split.
  - intros (out & (Hty & F & HF & Hid & HidS & Hne & Hsum & _)%clean_dataset_Ok).
    pose proof HF as (Hrel & Hcm & Hpv & _)%default_filter_chembl_Ok.
    destruct (filtered_frame _ _ HF) as [Hcols Hrows].
    rewrite Hcols in Hid.
    assert (∃ r, r ∈ rows (bioactivities_df ds) ∧ chembl_valid r ∧
                 at_col r (compound_id_column ds) ≠ Null) as Hex.
    { destruct (group_keys (ids_of (compound_id_column ds) (rows F))) as [|k ks] eqn:Hk;
        [done|].
      assert (k ∈ group_keys (ids_of (compound_id_column ds) (rows F)))
        as [Hk0 (r & Hr & <-)%elem_of_ids_of]%elem_of_group_keys by (rewrite Hk; left).
      rewrite Hrows in Hr. apply list_elem_of_filter in Hr as [? ?]. by exists r. }
    assert (∀ r, r ∈ rows (bioactivities_df ds) → chembl_valid r →
              at_col r (compound_id_column ds) ≠ Null →
              activity_column ds ∈ columns F ∧
              ∃ v, cell_to_float (at_col r (activity_column ds)) = Ok v) as Hrow.
    { intros r Hr Hv Hk.
      assert (r ∈ rows F) as HrF by (rewrite Hrows; by apply list_elem_of_filter).
      destruct (Hsum (at_col r (compound_id_column ds))) as [R HR].
      { apply elem_of_group_keys. split; [done|]. apply elem_of_ids_of. by exists r. }
      apply summary_row_Ok in HR as (Hact & vals & Hvals & _). split; [done|].
      apply (proj1 (astype_float_Ok_exists _ _) (ex_intro _ vals Hvals)).
      by apply list_elem_of_filter. }
    split_and!; try done.
    + destruct Hex as (r & Hr & Hv & Hk). rewrite <-Hcols. by apply (Hrow r).
    + intros r Hr Hv Hk. by apply (Hrow r).
  - intros (Hty & Hrel & Hcm & Hpv & Hid & Hact & (r0 & Hr0 & Hv0 & Hk0) & Hconv).
    assert (compound_id_column ds ∉ summary_columns self) as HidS
      by (intros Hin; by apply (Hfresh _ Hin)).
    set (F := {| columns := columns (bioactivities_df ds);
                 rows := filter chembl_valid (rows (bioactivities_df ds)) |}).
    assert (_default_filter_chembl (bioactivities_df ds) = Ok F) as HF
      by by apply default_filter_chembl_Ok.
    exists (clean_frame self ds F). apply clean_dataset_Ok. split; [done|].
    exists F. split_and!; try done.
    + intros Hnil. apply (proj1 (group_keys_nil _)) with (c := at_col r0 (compound_id_column ds)) in Hnil;
        [done|].
      apply elem_of_ids_of. exists r0. split; [|done]. by apply list_elem_of_filter.
    + intros k [Hk (r & Hr & <-)%elem_of_ids_of]%elem_of_group_keys.
      destruct (proj2 (astype_float_Ok_exists (activity_column ds)
        (filter (λ r', at_col r' (compound_id_column ds) = at_col r (compound_id_column ds))
           (rows F)))) as [vals Hvals].
      { intros r' [Heq [Hv' Hr']%list_elem_of_filter]%list_elem_of_filter.
        apply Hconv; [done|done|]. by rewrite Heq. }
      eexists. apply summary_row_Ok. split; [done|]. by exists vals.
Qed.

(** X4. When the columns are there but no row passes the filter with an
    identifier (every measurement censored, flagged or without a pChEMBL
    value), [clean_dataset] raises the [ValueError] of [reset_index]: it
    does not return a table without rows. *)
Theorem clean_dataset_nothing_valid self ds :
  type_of ds = ChEMBLApiDataSource →
  "relation" ∈ columns (bioactivities_df ds) →
  "data_validity_comment" ∈ columns (bioactivities_df ds) →
  "pchembl_value" ∈ columns (bioactivities_df ds) →
  compound_id_column ds ∈ columns (bioactivities_df ds) →
  (∀ r, r ∈ rows (bioactivities_df ds) → chembl_valid r →
        at_col r (compound_id_column ds) = Null) →
  clean_dataset self ds = Raise (ValueError "cannot insert, already exists").
Proof.
  intros Hty Hrel Hcm Hpv Hid Hnone. unfold clean_dataset, copy.
  rewrite bool_decide_eq_true_2 by done.
  erewrite (proj2 (default_filter_chembl_Ok (bioactivities_df ds) _));
    [|split_and!; [done|done|done|reflexivity]].
  rewrite result_bind_Ok. unfold groupby_apply.
  rewrite getitem_present by done. rewrite result_bind_Ok. cbn [columns rows].
  rewrite (proj2 (group_keys_nil _)).
  - cbn. unfold reset_index. cbn [index_name frame columns].
    by rewrite bool_decide_eq_true_2.
  - intros c (r & -> & [Hv Hr]%list_elem_of_filter)%list_elem_of_fmap. by apply Hnone.
Qed.

Lemma groupby_apply_Raise F by_ (f : DataFrame → result (list (string * cell))) e :
  groupby_apply F by_ f = Raise e →
  (by_ ∉ columns F) ∧ e = KeyError by_ ∨
  by_ ∈ columns F ∧ ∃ k, k ∈ group_keys (ids_of by_ (rows F)) ∧ f (get_group F by_ k) = Raise e.
Proof.
  unfold groupby_apply. intros [[? ->]%getitem_Raise|(col & [Hby ->]%getitem_Ok & Hrest)]%bind_Raise;
    [by left|].
  right. split; [done|].
  apply bind_Raise in Hrest as [Hm|(values & _ & Hrest)]; [|by destruct values].
  by apply result_mapM_Raise in Hm.
Qed.

Lemma groupby_apply_fails F by_ (f : DataFrame → result (list (string * cell))) k e :
  by_ ∈ columns F → k ∈ group_keys (ids_of by_ (rows F)) →
  f (get_group F by_ k) = Raise e →
  ∃ e', groupby_apply F by_ f = Raise e'.
Proof.
  intros Hby Hk Hf.
  destruct (result_cases (groupby_apply F by_ f)) as [[g Hg]|?]; [|done].
  apply groupby_apply_Ok in Hg as (_ & values & Hall & _).
  apply list_elem_of_lookup in Hk as [i Hi].
  destruct (Forall2_lookup_l _ _ _ _ _ Hall Hi) as (s & _ & Hs). congruence.
Qed.

Lemma clean_dataset_groupby_Raise self ds F e :
  type_of ds = ChEMBLApiDataSource →
  _default_filter_chembl (bioactivities_df ds) = Ok F →
  groupby_apply F (compound_id_column ds)
    (λ x, _mark_to_remove self x (activity_column ds)) = Raise e →
  clean_dataset self ds = Raise e.
Proof.
  intros Hty HF Hg. unfold clean_dataset, copy.
  rewrite bool_decide_eq_true_2 by done. rewrite HF, result_bind_Ok. by rewrite Hg.
Qed.

(** X5. The conversion of the activity column is all or nothing: when the
    columns of the filter and the identifier column are there and some row
    passes the filter with an identifier, a missing activity column raises
    [KeyError], and one activity cell that does not read as a float makes
    the whole call raise the [ValueError] of the conversion, whatever the
    other rows hold. *)
Theorem clean_dataset_activity_errors self ds r :
  type_of ds = ChEMBLApiDataSource →
  "relation" ∈ columns (bioactivities_df ds) →
  "data_validity_comment" ∈ columns (bioactivities_df ds) →
  "pchembl_value" ∈ columns (bioactivities_df ds) →
  compound_id_column ds ∈ columns (bioactivities_df ds) →
  r ∈ rows (bioactivities_df ds) → chembl_valid r →
  at_col r (compound_id_column ds) ≠ Null →
  (activity_column ds ∉ columns (bioactivities_df ds) →
     clean_dataset self ds = Raise (KeyError (activity_column ds))) ∧
  (activity_column ds ∈ columns (bioactivities_df ds) →
   (∃ e, cell_to_float (at_col r (activity_column ds)) = Raise e) →
     clean_dataset self ds = Raise (ValueError "could not convert string to float")).
Proof.
  intros Hty Hrel Hcm Hpv Hid Hr Hv Hk.
  set (F := {| columns := columns (bioactivities_df ds);
               rows := filter chembl_valid (rows (bioactivities_df ds)) |}).
  assert (_default_filter_chembl (bioactivities_df ds) = Ok F) as HF
    by by apply default_filter_chembl_Ok.
  assert (at_col r (compound_id_column ds) ∈
            group_keys (ids_of (compound_id_column ds) (rows F))) as Hkey.
  { apply elem_of_group_keys. split; [done|]. apply elem_of_ids_of. exists r.
    split; [|done]. by apply list_elem_of_filter. }
  split.
  - intros Hact.
    assert (∀ k, _mark_to_remove self (get_group F (compound_id_column ds) k)
                   (activity_column ds) = Raise (KeyError (activity_column ds))) as Hf.
    { intros k. unfold _mark_to_remove. by rewrite getitem_missing. }
    destruct (groupby_apply_fails F (compound_id_column ds)
      (λ x, _mark_to_remove self x (activity_column ds)) _ _ Hid Hkey (Hf _)) as [e' He'].
    rewrite (clean_dataset_groupby_Raise _ _ _ _ Hty HF He').
    apply groupby_apply_Raise in He' as [[? _]|(_ & k & _ & Hfk)]; [done|].
    rewrite Hf in Hfk. congruence.
  - intros Hact [e He].
    assert (∃ e', _mark_to_remove self
              (get_group F (compound_id_column ds) (at_col r (compound_id_column ds)))
              (activity_column ds) = Raise e') as [e0 He0].
    { destruct (result_cases (_mark_to_remove self
              (get_group F (compound_id_column ds) (at_col r (compound_id_column ds)))
              (activity_column ds))) as [[s Hs]|?]; [|done].
      apply mark_to_remove_Ok in Hs as (_ & vals & Hvals & _).
      destruct (proj1 (astype_float_Ok_exists _ _) (ex_intro _ vals Hvals) r) as [v Hv'].
      - cbn [rows get_group]. apply list_elem_of_filter. split; [done|].
        by apply list_elem_of_filter.
      - congruence. }
    destruct (groupby_apply_fails F (compound_id_column ds)
      (λ x, _mark_to_remove self x (activity_column ds)) _ _ Hid Hkey He0) as [e' He'].
    rewrite (clean_dataset_groupby_Raise _ _ _ _ Hty HF He').
    apply groupby_apply_Raise in He' as [[? _]|(_ & k & _ & Hfk)]; [done|].
    unfold _mark_to_remove in Hfk.
    apply bind_Raise in Hfk as [[Hno _]%getitem_Raise|(col & _ & Hfk)]; [done|].
    apply bind_Raise in Hfk as [Hfk|(? & _ & ?)]; [|done].
    apply result_mapM_Raise in Hfk as (c & _ & Hc).
    destruct c as [|s| | |]; simpl in Hc; try done.
    destruct (py_float s); [done|]. by injection Hc as <-.
Qed.

(** The cells of the Series of a group, for a median column with a name of
    its own. *)
Lemma summary_series_cells self n vals :
  self_activity_column self ∉
    ["number_compounds"; "standard_deviation"; "duplicated"; "mark_to_remove"] →
  let m : gmap string cell := list_to_map (summary_series self n vals) in
  m !! "number_compounds" = Some (Int (Z.of_nat n)) ∧
  m !! "standard_deviation" = Some (float_cell (np_std vals)) ∧
  m !! self_activity_column self = Some (float_cell (np_median vals)) ∧
  m !! "duplicated" = Some (Bool (bool_decide (1 < n)%nat)).
Proof.
  intros Hd. cbn zeta. unfold summary_series. rewrite list_to_map_py_dict. cbn [foldl fst snd].
  assert (self_activity_column self ≠ "number_compounds" ∧
          self_activity_column self ≠ "standard_deviation" ∧
          self_activity_column self ≠ "duplicated" ∧
          self_activity_column self ≠ "mark_to_remove") as (H1 & H2 & H3 & H4).
  { split_and!; intros Heq; apply Hd; rewrite Heq; set_solver. }
  split_and!.
  - by rewrite !lookup_insert_ne, lookup_insert_eq by done.
  - by rewrite !lookup_insert_ne, lookup_insert_eq by done.
  - by rewrite !lookup_insert_ne, lookup_insert_eq by done.
  - by rewrite !lookup_insert_ne, lookup_insert_eq by done.
Qed.

(** The row of the output for the compound of [r']. *)
Lemma clean_row_shape self ds F out r' :
  _default_filter_chembl (bioactivities_df ds) = Ok F →
  clean_dataset self ds = Ok out →
  fresh_summary self (bioactivities_df ds) →
  r' ∈ rows out →
  ∃ l vals,
    head (group_of ds (at_col r' (compound_id_column ds))) = Some l ∧
    at_col r' (compound_id_column ds) ≠ Null ∧
    astype_float ((λ r, at_col r (activity_column ds)) <$>
                    group_of ds (at_col r' (compound_id_column ds))) = Ok vals ∧
    gt_one (np_std vals) = false ∧
    r' = project (columns F) l ∪
         project (summary_columns self)
           (<[compound_id_column ds := at_col r' (compound_id_column ds)]>
              (list_to_map (summary_series self
                 (length (group_of ds (at_col r' (compound_id_column ds)))) vals))).
Proof.
  intros HF Hrun Hfresh Hr'.
  pose proof Hrun as (Hty & F' & HF' & Hid & HidS & _ & _ & Hout)%clean_dataset_Ok.
  assert (F' = F) as -> by congruence.
  destruct (filtered_frame _ _ HF) as [Hcols Hrows].
  destruct (clean_rows_agree _ _ _ _ _ HF Hrun Hr') as (l0 & Hl0 & Hag).
  assert (at_col r' (compound_id_column ds) ≠ Null) as Hk.
  { rewrite Hout in Hr'. by apply clean_dataset_rows_from in Hr' as [? _]. }
  assert (group_of ds (at_col r' (compound_id_column ds)) ≠ []) as Hne.
  { intros Hnil. assert (l0 ∈ group_of ds (at_col r' (compound_id_column ds))) as Hin.
    { unfold group_of. apply list_elem_of_filter. rewrite <-Hrows. split; [|done].
      symmetry. apply Hag. by rewrite <-Hcols. }
    rewrite Hnil in Hin. by apply elem_of_nil in Hin. }
  destruct (group_summary _ _ _ _ _ HF Hrun Hfresh Hk Hne) as (R & vals & HR & Hvals & Hmark & Hwith).
  rewrite (clean_rows_with_id _ _ _ _ Hrun Hr') in Hwith.
  destruct (decide (not_marked R)) as [Hnm|]; [|done].
  assert (fresh_summary self F) as HfreshF by (unfold fresh_summary; by rewrite Hcols).
  rewrite extra_columns_filter, filter_all in Hwith by done.
  assert (group_of ds (at_col r' (compound_id_column ds)) =
          filter (λ r, at_col r (compound_id_column ds) = at_col r' (compound_id_column ds))
            (rows F)) as Hgroup by (unfold group_of; by rewrite Hrows).
  apply summary_row_Ok in HR as (_ & vals' & Hvals' & HReq).
  rewrite <-Hgroup in Hvals', HReq.
  assert (vals' = vals) as -> by congruence.
  exists (default ∅ (head (group_of ds (at_col r' (compound_id_column ds))))), vals.
  destruct (group_of ds (at_col r' (compound_id_column ds))) as [|l g]; [done|].
  rewrite fmap_cons in Hwith. cbn [take] in Hwith. injection Hwith as Hr'eq.
  split_and!; try done.
  - unfold not_marked in Hnm. rewrite Hmark in Hnm. by injection Hnm.
  - cbn [head default]. by rewrite <-HReq.
Qed.

(** The floats of a group: cell by cell, with the standard deviation and
    the median of the specification when none is NaN. *)
Lemma group_values_spec ds (group : list (gmap string cell)) vals :
  group ≠ [] →
  astype_float ((λ r, at_col r (activity_column ds)) <$> group) = Ok vals →
  Forall2 (λ l v, cell_to_float (at_col l (activity_column ds)) = Ok v) group vals ∧
  (∀ xs, vals = Some <$> xs →
     np_std vals = population_std xs ∧
     ∃ s, s ≡ₚ xs ∧ Sorted Qcle s ∧ np_median vals = Some (middle_value s)).
Proof.
  intros Hne Hvals.
  assert (Forall2 (λ l v, cell_to_float (at_col l (activity_column ds)) = Ok v) group vals)
    as Hall.
  { unfold astype_float in Hvals. apply result_mapM_Ok in Hvals.
    by apply Forall2_fmap_l in Hvals. }
  split; [done|]. intros xs ->. split; [apply np_std_population|].
  apply np_median_sorted. intros ->. apply Forall2_length in Hall.
  by destruct group.
Qed.

(** X6. When the raw table has no column named like a summary column and
    the median column has a name of its own, a row of the output carries the
    summary of its compound: the number of valid measurements, the standard
    deviation of their floats (the population standard deviation when none
    is NaN), which is not above 1, their median (the middle value in
    increasing order) in the median column, whether there is more than one
    measurement, and False as the removal mark. *)
Theorem output_summary_cells self ds out r' :
  clean_dataset self ds = Ok out →
  fresh_summary self (bioactivities_df ds) →
  self_activity_column self ∉
    ["number_compounds"; "standard_deviation"; "duplicated"; "mark_to_remove"] →
  r' ∈ rows out →
  ∃ vals,
    Forall2 (λ l v, cell_to_float (at_col l (activity_column ds)) = Ok v)
      (group_of ds (at_col r' (compound_id_column ds))) vals ∧
    (∀ xs, vals = Some <$> xs →
       np_std vals = population_std xs ∧
       ∃ s, s ≡ₚ xs ∧ Sorted Qcle s ∧ np_median vals = Some (middle_value s)) ∧
    gt_one (np_std vals) = false ∧
    at_col r' "number_compounds" =
      Int (Z.of_nat (length (group_of ds (at_col r' (compound_id_column ds))))) ∧
    at_col r' "standard_deviation" = float_cell (np_std vals) ∧
    at_col r' (self_activity_column self) = float_cell (np_median vals) ∧
    at_col r' "duplicated" =
      Bool (bool_decide (1 < length (group_of ds (at_col r' (compound_id_column ds))))%nat) ∧
    at_col r' "mark_to_remove" = Bool false.
Proof.
  intros Hrun Hfresh Hd Hr'.
  pose proof Hrun as (Hty & F & HF & Hid & HidS & _ & _ & Hout)%clean_dataset_Ok.
  destruct (filtered_frame _ _ HF) as [Hcols Hrows].
  destruct (clean_row_shape _ _ _ _ _ HF Hrun Hfresh Hr')
    as (l & vals & Hhead & Hk & Hvals & Hgt & Hshape).
  exists vals.
  destruct (group_values_spec ds (group_of ds (at_col r' (compound_id_column ds))) vals)
    as [Hall Hspec]; [|done|].
  { intros Hnil. by rewrite Hnil in Hhead. }
  split; [done|]. split; [done|]. split; [done|].
  destruct (summary_series_cells self
    (length (group_of ds (at_col r' (compound_id_column ds)))) vals Hd) as (H1 & H2 & H3 & H4).
  assert (∀ c v, c ∈ summary_columns self →
            (list_to_map (summary_series self
               (length (group_of ds (at_col r' (compound_id_column ds)))) vals)
               : gmap string cell) !! c = Some v →
            at_col r' c = v) as Hcell.
  { intros c v Hc Hv. rewrite Hshape at 1. rewrite at_col_joined_right.
    - unfold at_col at 1. rewrite lookup_insert_ne by (intros <-; done). by rewrite Hv.
    - rewrite Hcols. by apply Hfresh.
    - done. }
  split_and!.
  - apply Hcell; [|done]. apply elem_of_summary_columns. tauto.
  - apply Hcell; [|done]. apply elem_of_summary_columns. tauto.
  - apply Hcell; [|done]. apply elem_of_summary_columns. tauto.
  - apply Hcell; [|done]. apply elem_of_summary_columns. tauto.
  - apply Hcell; [apply mark_in_summary_columns|].
    rewrite summary_series_mark. by rewrite Hgt.
Qed.

(** X7. When the raw table has no column named like a summary column, the
    compounds of the output are exactly the compounds that have a valid
    measurement and whose valid measurements have a standard deviation (the
    population standard deviation of their floats when none is NaN) that is
    not above 1. *)
Theorem output_compounds self ds out k :
  clean_dataset self ds = Ok out →
  fresh_summary self (bioactivities_df ds) →
  k ∈ ids_of (compound_id_column ds) (rows out) ↔
  k ≠ Null ∧ group_of ds k ≠ [] ∧
  ∃ vals,
    Forall2 (λ l v, cell_to_float (at_col l (activity_column ds)) = Ok v)
      (group_of ds k) vals ∧
    (∀ xs, vals = Some <$> xs → np_std vals = population_std xs) ∧
    gt_one (np_std vals) = false.
Proof.
  intros Hrun Hfresh.
  pose proof Hrun as (Hty & F & HF & Hid & HidS & _ & _ & Hout)%clean_dataset_Ok.
  split.
  - intros (r' & Hr' & <-)%elem_of_ids_of.
    destruct (clean_row_shape _ _ _ _ _ HF Hrun Hfresh Hr')
      as (l & vals & Hhead & Hk & Hvals & Hgt & _).
    assert (group_of ds (at_col r' (compound_id_column ds)) ≠ []) as Hne
      by (intros Hnil; by rewrite Hnil in Hhead).
    split; [done|]. split; [done|]. exists vals.
    destruct (group_values_spec ds _ vals Hne Hvals) as [Hall Hspec].
    split; [done|]. split; [|done]. intros xs Hxs. by apply Hspec.
  - intros (Hk & Hne & vals & Hall & _ & Hgt).
    assert (astype_float ((λ r, at_col r (activity_column ds)) <$> group_of ds k) = Ok vals)
      as Hvals by (by apply result_mapM_Ok, Forall2_fmap_l).
    destruct (group_summary _ _ _ _ _ HF Hrun Hfresh Hk Hne)
      as (R & vals' & HR & Hvals' & Hmark & Hwith).
    assert (vals' = vals) as -> by congruence.
    rewrite Hgt in Hmark. rewrite decide_True in Hwith by done.
    destruct (group_of ds k) as [|l g]; [done|].
    rewrite fmap_cons in Hwith. cbn [take] in Hwith.
    apply elem_of_ids_of. eexists.
    assert (project (columns F) l ∪ project (extra_columns self ds F) R ∈ rows_with_id ds k out)
      as [? ?]%list_elem_of_filter by (rewrite Hwith; left).
    done.
Qed.

Lemma head1_sublist by_ seen l : head1 by_ seen l `sublist_of` l.
Proof.
  revert seen. induction l as [|r l IH]; intros seen; cbn [head1]; [done|].
  repeat case_bool_decide; try (by apply sublist_cons).
  by apply sublist_skip.
Qed.

Lemma sublist_Forall2_l {A B} (R : A → B → Prop) (xs' xs : list A) (ys : list B) :
  xs' `sublist_of` xs → Forall2 R xs ys →
  ∃ ys', ys' `sublist_of` ys ∧ Forall2 R xs' ys'.
Proof.
  intros Hsub. revert ys.
  induction Hsub as [|x xs' xs Hsub IH|x xs' xs Hsub IH]; intros ys Hall.
  - exists []. split; [apply sublist_nil_l|constructor].
  - apply Forall2_cons_inv_l in Hall as (y & ys0 & Hxy & Hall & ->).
    destruct (IH _ Hall) as (ys' & Hys' & Hall').
    exists (y :: ys'). split; [by apply sublist_skip|by constructor].
  - apply Forall2_cons_inv_l in Hall as (y & ys0 & Hxy & Hall & ->).
    destruct (IH _ Hall) as (ys' & Hys' & Hall').
    exists ys'. split; [by apply sublist_cons|done].
Qed.

(** The merge pairs every row of the filtered frame with at most one summary
    row: the merged rows follow the order of the filtered frame. *)
Lemma joined_sublist self ds F (L : list (gmap string cell)) :
  ∃ sub, sub `sublist_of` L ∧
         Forall2 (λ r' l, r' ∈ joined self ds F l) (L ≫= joined self ds F) sub.
Proof.
  induction L as [|l L (sub & Hsub & Hall)].
  - exists []. split; [done|constructor].
  - rewrite bind_cons.
    destruct (joined self ds F l) as [|x xs] eqn:Hj.
    + exists sub. split; [by apply sublist_cons|done].
    + assert (xs = []) as ->.
      { unfold joined in Hj. destruct (summary_row _ _ _ _); [|done].
        destruct (decide _); [|done]. by injection Hj as _ <-. }
      exists (l :: sub). split; [by apply sublist_skip|].
      constructor; [|done]. rewrite Hj. left.
Qed.

(** X8. The rows of the output follow the order of the raw table: they
    carry, on the columns of the raw table, the cells of a subsequence of
    the rows that pass the filter. *)
Theorem output_order self ds out :
  clean_dataset self ds = Ok out →
  ∃ sub,
    sub `sublist_of` filter chembl_valid (rows (bioactivities_df ds)) ∧
    sub `sublist_of` rows (bioactivities_df ds) ∧
    Forall2 (agrees_on (columns (bioactivities_df ds))) (rows out) sub.
Proof.
  intros (Hty & F & HF & Hid & HidS & _ & _ & ->)%clean_dataset_Ok.
  destruct (filtered_frame _ _ HF) as [Hcols Hrows].
  destruct (joined_sublist self ds F (rows F)) as (sub0 & Hsub0 & Hall0).
  assert (rows (clean_frame self ds F) `sublist_of` (rows F ≫= joined self ds F)) as Hsub.
  { unfold clean_frame. cbn [rows]. etrans; [apply head1_sublist|apply sublist_filter]. }
  destruct (sublist_Forall2_l _ _ _ _ Hsub Hall0) as (sub & Hsub' & Hall).
  exists sub. split_and!.
  - rewrite <-Hrows. by etrans.
  - etrans; [|apply (sublist_filter chembl_valid)]. rewrite <-Hrows. by etrans.
  - eapply Forall2_impl; [done|]. intros r' l Hr'. cbn beta in Hr'.
    apply joined_inv in Hr' as (_ & _ & _ & _ & Hag); [|done]. by rewrite <-Hcols.
Qed.

End Cleaning_edges.

(** ** The fetch: from the records to the raw table *)

Section Fetch_extras.
Context `{PyStrings}.

Lemma print_progress_bar_Ok iteration total :
  total ≠ 0%nat → print_progress_bar iteration total = Ok ().
Proof. intros. unfold print_progress_bar. by rewrite bool_decide_eq_false_2. Qed.

(** The index of the record only moves the progress bar. *)
Lemma get_compound_df_idx standard_types total idx compound_dict :
  get_compound_df standard_types total idx compound_dict =
  get_compound_df standard_types total 0 compound_dict.
Proof. done. Qed.

Lemma result_mapM_enumerate {A B} (f : nat → A → result B) (g : A → result B)
    (l : list A) (a : nat) :
  (∀ i x, f i x = g x) →
  result_mapM (λ '(i, x), f i x) (zip (seq a (length l)) l) = result_mapM g l.
Proof.
  intros Hfg. revert a. induction l as [|x l IH]; intros a; [done|].
  cbn [length seq zip zip_with result_mapM]. by rewrite Hfg, IH.
Qed.

(** The constructor, without the indices. *)
Lemma ChEMBLApiDataSource_init_unfold target_id standard_types records :
  ChEMBLApiDataSource_init target_id standard_types records =
  (_ ← print_progress_bar 0 (length records);
   frames ← result_mapM (get_compound_df (self_standard_types standard_types)
                           (length records) 0) records;
   bioactivities_df ← pd_concat frames;
   Ok {| type_of := ChEMBLApiDataSource;
         bioactivities_df := bioactivities_df;
         smiles_column := "canonical_smiles";
         compound_id_column := "parent_molecule_chembl_id";
         activity_column := "pchembl_value" |}).
Proof.
  unfold ChEMBLApiDataSource_init.
  by rewrite (result_mapM_enumerate
    (λ idx d, get_compound_df (self_standard_types standard_types) (length records) idx d)
    (get_compound_df (self_standard_types standard_types) (length records) 0)).
Qed.

Lemma get_compound_df_Raise standard_types total idx compound_dict e :
  total ≠ 0%nat →
  get_compound_df standard_types total idx compound_dict = Raise e →
  e ≠ ZeroDivisionError.
Proof.
  intros Htotal. unfold get_compound_df. rewrite print_progress_bar_Ok by done.
  intros [Hvalid|(b & _ & Hrest)]%bind_Raise.
  - destruct standard_types as [types|]; [|done].
    apply bind_Raise in Hvalid as [Hget|(v & _ & Hv)].
    + clear -Hget. induction compound_dict as [|[k v] d IH]; simpl in Hget.
      * by injection Hget as <-.
      * case_bool_decide; [done|by apply IH].
    + destruct v as [[]| |]; try done; by injection Hv as <-.
  - apply bind_Raise in Hrest as [Hdf|(? & _ & ?)]; [|done].
    destruct b; [|done].
    destruct (record_pop compound_dict "activity_properties") as [x1 d1].
    destruct (record_pop d1 "ligand_efficiency") as [lig d2].
    apply bind_Raise in Hdf as [Hdf|(cdf & _ & Hlig)].
    + unfold DataFrame_of_record in Hdf.
      apply bind_Raise in Hdf as [Hdf|(? & _ & ?)]; [|done].
      apply result_mapM_Raise in Hdf as ([k v] & _ & Hkv).
      apply bind_Raise in Hkv as [Hkv|(? & _ & ?)]; [|done].
      destruct v; try done. by injection Hkv as <-.
    + destruct lig as [[[]| |]|]; try done; by injection Hlig as <-.
Qed.

(** X9. The constructor raises [ZeroDivisionError] exactly when the API
    returns no record for the target: the progress bar divides by the
    number of records before any record is looked at. *)
Theorem init_zero_division target_id standard_types records :
  ChEMBLApiDataSource_init target_id standard_types records = Raise ZeroDivisionError ↔
  records = [].
Proof.
  rewrite ChEMBLApiDataSource_init_unfold. split.
  - intros Hrun. destruct records as [|d records]; [done|]. exfalso.
    rewrite print_progress_bar_Ok, result_bind_Ok in Hrun by done.
    apply bind_Raise in Hrun as [Hm|(frames & _ & Hrun)].
    + apply result_mapM_Raise in Hm as (d' & _ & Hd').
      by apply get_compound_df_Raise in Hd'.
    + apply bind_Raise in Hrun as [Hc|(? & _ & ?)]; [|done].
      unfold pd_concat in Hc. destruct frames; [|done]. done.
  - by intros ->.
Qed.

(** What [get_compound_df] returns for a record: no row for a record that
    is not accepted, one row with the scalar fields of the record for an
    accepted one. *)
Lemma get_compound_df_Ok standard_types total idx compound_dict df :
  get_compound_df standard_types total idx compound_dict = Ok df →
  total ≠ 0%nat ∧
  if record_accepted standard_types compound_dict
  then ∃ r, rows df = [r] ∧
            ∀ k c, k ≠ "activity_properties" → k ≠ "ligand_efficiency" →
                   record_getitem compound_dict k = Ok (PCell c) → at_col r k = c
  else df = {| columns := compound_dict.*1; rows := [] |}.
Proof.
  intros Hrun.
  assert (total ≠ 0%nat) as Htotal.
  { intros ->. unfold get_compound_df in Hrun.
    apply bind_Ok in Hrun as (? & _ & Hrun). by apply bind_Ok in Hrun as (? & _ & ?). }
  split; [done|]. unfold get_compound_df in Hrun.
  rewrite print_progress_bar_Ok in Hrun by done.
  apply bind_Ok in Hrun as (b & Hb & Hrun).
  apply bind_Ok in Hrun as (df' & Hdf' & [= <-]).
  assert (b = record_accepted standard_types compound_dict) as <-.
  { unfold record_accepted, accepted. destruct standard_types as [types|].
    - apply bind_Ok in Hb as (v & -> & Hv).
      destruct v as [[]| |]; try done; by injection Hv as <-.
    - injection Hb as <-. by destruct (record_getitem _ _) as [[[]| |]|]. }
  destruct b; [|by injection Hdf' as <-].
  destruct (record_pop compound_dict "activity_properties") as [x1 d1] eqn:Hpop1.
  destruct (record_pop d1 "ligand_efficiency") as [lig d2] eqn:Hpop2.
  apply bind_Ok in Hdf' as (cdf & Hcdf & Hdf').
  apply DataFrame_of_record_Ok in Hcdf as (Hcols & r & Hr & Hcells).
  assert (∀ k c, k ≠ "activity_properties" → k ≠ "ligand_efficiency" →
            record_getitem compound_dict k = Ok (PCell c) → r !! k = Some c) as Hget.
  { intros k c Hk1 Hk2 Hk. apply Hcells.
    replace d2 with (record_pop d1 "ligand_efficiency").2 by (by rewrite Hpop2).
    rewrite record_pop_getitem by done.
    replace d1 with (record_pop compound_dict "activity_properties").2 by (by rewrite Hpop1).
    by rewrite record_pop_getitem. }
  destruct lig as [[[]|lig|]|]; try done; try injection Hdf' as <-.
  - exists r. split; [done|]. intros k c ? ? Hk. unfold at_col. by erewrite Hget.
  - eexists. unfold concat_columns. cbn [rows]. rewrite Hr. split; [reflexivity|].
    intros k c ? ? Hk. unfold at_col. rewrite lookup_union.
    rewrite (Hget k c) by done. by destruct (_ !! k).
  - exists r. split; [done|]. intros k c ? ? Hk. unfold at_col. by erewrite Hget.
Qed.

(** The rows of the frames of the records, against the accepted records. *)
Lemma fetched_frames standard_types total (records : list (list (string * pyval)))
    (frames : list DataFrame) :
  Forall2 (λ d df, get_compound_df standard_types total 0 d = Ok df) records frames →
  Forall2 (λ r d, ∀ k c, k ≠ "activity_properties" → k ≠ "ligand_efficiency" →
                         record_getitem d k = Ok (PCell c) → at_col r k = c)
    (frames ≫= rows)
    (filter (λ d, record_accepted standard_types d = true) records).
Proof.
  induction 1 as [|d df records frames Hd Hall IH]; [constructor|].
  rewrite bind_cons, filter_cons.
  apply get_compound_df_Ok in Hd as [_ Hd].
  destruct (record_accepted standard_types d).
  - destruct Hd as (r & -> & Hr). rewrite decide_True by done.
    by constructor.
  - subst df. by rewrite decide_False by done.
Qed.

(** X10. The raw table of the constructor holds the accepted records, one
    row each, in the order of the API: a row carries the scalar fields of
    its record, and its measurement type is an accepted one. *)
Theorem init_rows target_id standard_types records ds :
  ChEMBLApiDataSource_init target_id standard_types records = Ok ds →
  Forall2 (λ r d, ∀ k c, k ≠ "activity_properties" → k ≠ "ligand_efficiency" →
                         record_getitem d k = Ok (PCell c) → at_col r k = c)
    (rows (bioactivities_df ds))
    (filter (λ d, record_accepted (self_standard_types standard_types) d = true) records) ∧
  length (rows (bioactivities_df ds)) =
    length (filter (λ d, record_accepted (self_standard_types standard_types) d = true)
              records) ∧
  (∀ r, r ∈ rows (bioactivities_df ds) →
        accepted (self_standard_types standard_types) (at_col r "standard_type") = true).
Proof.
  rewrite ChEMBLApiDataSource_init_unfold.
  intros (_ & _ & (frames & Hframes%result_mapM_Ok & Hrun)%bind_Ok)%bind_Ok.
  apply bind_Ok in Hrun as (raw & Hraw & [= <-]). cbn [bioactivities_df].
  apply pd_concat_Ok in Hraw as (-> & _ & _).
  pose proof (fetched_frames _ _ _ _ Hframes) as Hall.
  split; [done|]. split; [by eapply Forall2_length|].
  intros r (i & Hi)%list_elem_of_lookup.
  destruct (Forall2_lookup_l _ _ _ _ _ Hall Hi) as (d & Hd & Hrd).
  apply list_elem_of_lookup_2, list_elem_of_filter in Hd as [Hacc _].
  unfold record_accepted in Hacc.
  destruct (record_getitem d "standard_type") as [[v| |]|] eqn:Hv; try done.
  by rewrite (Hrd "standard_type" v).
Qed.




Lemma record_pop_fst d key :
  (record_pop d key).1 =
  match record_getitem d key with Ok v => Some v | Raise _ => None end.
Proof.
  induction d as [|[k v] d IH]; simpl; [done|].
  case_bool_decide; [done|]. destruct (record_pop d key) as [x d']. by simpl in *.
Qed.

Lemma record_pop_keys d key :
  NoDup d.*1 → (record_pop d key).2.*1 = filter (λ k, k ≠ key) d.*1.
Proof.
  induction d as [|[k v] d IH]; intros Hnd; simpl; [done|].
  apply NoDup_cons in Hnd as [Hk Hnd]. cbn [fst] in Hk.
  rewrite filter_cons. case_bool_decide as Hkk.
  - subst k. rewrite decide_False by (by intros ?). cbn [snd].
    symmetry. apply filter_all. by intros k Hin ->.
  - rewrite decide_True by done.
    destruct (record_pop d key) as [x d'] eqn:Hpop. cbn [snd] in *.
    rewrite fmap_cons. cbn [fst]. by rewrite IH.
Qed.

Lemma DataFrame_of_record_dom d df r k :
  DataFrame_of_record d = Ok df → r ∈ rows df → k ∉ d.*1 → r !! k = None.
Proof.
  unfold DataFrame_of_record. intros (cells & Hcells%result_mapM_Ok & [= <-])%bind_Ok.
  cbn [rows]. intros ->%list_elem_of_singleton Hk.
  apply not_elem_of_list_to_map_1.
  assert (cells.*1 = d.*1) as ->; [|done].
  induction Hcells as [|[k' v'] [k'' c'] d cells Hkv Hall IH]; [done|].
  simpl in Hkv. apply bind_Ok in Hkv as (c0 & _ & [= <- <-]).
  rewrite !fmap_cons. cbn [fst]. f_equal. apply IH.
  intros Hin. apply Hk. rewrite fmap_cons. by right.
Qed.

(** X12. An accepted record with a nested [ligand_efficiency] dict becomes
    a frame whose columns are the keys of the record without
    [activity_properties] and [ligand_efficiency], followed by one column
    [ligand_efficiency_<key>] for every key of the nested dict; the row
    holds the nested value under that column, when no key of the record has
    that name. *)
Theorem ligand_efficiency_flattened standard_types total idx compound_dict lig df :
  get_compound_df standard_types total idx compound_dict = Ok df →
  record_accepted standard_types compound_dict = true →
  NoDup compound_dict.*1 → NoDup lig.*1 →
  record_getitem compound_dict "ligand_efficiency" = Ok (PDict lig) →
  columns df =
    filter (λ k, k ∉ ["activity_properties"; "ligand_efficiency"]) compound_dict.*1 ++
    ((λ kv, "ligand_efficiency_" +:+ kv.1) <$> lig) ∧
  ∃ r, rows df = [r] ∧
       ∀ k v, (k, v) ∈ lig → "ligand_efficiency_" +:+ k ∉ compound_dict.*1 →
              at_col r ("ligand_efficiency_" +:+ k) = v.
Proof.
  intros Hrun Hacc Hnd Hndl Hlig.
  assert (total ≠ 0%nat) as Htotal by (by apply get_compound_df_Ok in Hrun as [? _]).
  unfold get_compound_df in Hrun. rewrite print_progress_bar_Ok in Hrun by done.
  apply bind_Ok in Hrun as (b & Hb & Hrun).
  apply bind_Ok in Hrun as (df' & Hdf' & [= <-]).
  assert (b = record_accepted standard_types compound_dict) as Hbeq.
  { unfold record_accepted, accepted. destruct standard_types as [types|].
    - apply bind_Ok in Hb as (v & -> & Hv).
      destruct v as [[]| |]; try done; by injection Hv as <-.
    - injection Hb as <-.
      by destruct (record_getitem compound_dict "standard_type") as [[[]| |]|]. }
  rewrite Hacc in Hbeq. subst b.
  pose proof (record_pop_fst compound_dict "activity_properties") as Hx1.
  pose proof (record_pop_keys compound_dict "activity_properties" Hnd) as Hk1.
  pose proof (record_pop_getitem compound_dict "activity_properties" "ligand_efficiency") as Hg1.
  destruct (record_pop compound_dict "activity_properties") as [x1 d1]. cbn [fst snd] in *.
  assert (NoDup d1.*1) as Hnd1 by (rewrite Hk1; by apply NoDup_filter).
  pose proof (record_pop_fst d1 "ligand_efficiency") as Hx2.
  pose proof (record_pop_keys d1 "ligand_efficiency" Hnd1) as Hk2.
  destruct (record_pop d1 "ligand_efficiency") as [x2 d2]. cbn [fst snd] in *.
  rewrite Hg1, Hlig in Hx2 by done. subst x2.
  apply bind_Ok in Hdf' as (cdf & Hcdf & [= <-]).
  pose proof (DataFrame_of_record_Ok _ _ Hcdf) as (Hcols & r & Hr & _).
  assert (d2.*1 = filter (λ k, k ∉ ["activity_properties"; "ligand_efficiency"])
                    compound_dict.*1) as Hkeys.
  { rewrite Hk2, Hk1, filter_filter_and. apply filter_ext_iff. intros k _.
    rewrite !not_elem_of_cons. split.
    - intros [? ?]. split_and!; [done|done|apply not_elem_of_nil].
    - by intros (? & ? & _). }
  unfold concat_columns. cbn [columns rows]. rewrite Hcols, Hr, Hkeys.
  split; [done|]. eexists. split; [reflexivity|].
  intros k v Hkv Hfree. unfold at_col. rewrite lookup_union.
  rewrite (DataFrame_of_record_dom _ _ r _ Hcdf).
  - rewrite (elem_of_list_to_map_1 _ ("ligand_efficiency_" +:+ k) v); [done| |].
    + rewrite <-list_fmap_compose.
      assert ((fst ∘ (λ kv : string * cell, ("ligand_efficiency_" +:+ kv.1, kv.2))) <$> lig
              = (λ k, "ligand_efficiency_" +:+ k) <$> lig.*1) as ->
        by (by rewrite <-list_fmap_compose).
      apply NoDup_fmap_2; [|done]. intros a b Hab. by simplify_eq/=.
    + apply list_elem_of_fmap. by exists (k, v).
  - rewrite Hr. left.
  - rewrite Hkeys. intros [_ Hin]%list_elem_of_filter. done.
Qed.

(** ** The progress bar *)

Lemma str_length_app s t :
  String.length (s +:+ t) = (String.length s + String.length t)%nat.
Proof.
  induction s as [|a s IH]; [done|].
  change (S (String.length (s +:+ t)) = S (String.length s + String.length t)).
  by rewrite IH.
Qed.

Lemma str_repeat_length s n :
  String.length (str_repeat s n) = (n * String.length s)%nat.
Proof.
  induction n as [|n IH]; [done|]. cbn [str_repeat].
  rewrite str_length_app, IH. lia.
Qed.

(** X13. For a non-zero [total] and [iteration] at most [total], the bar
    has [length] cells, filled in proportion to [iteration]; with a bar of
    at least one cell it is entirely filled exactly at the last iteration,
    which is also when the final newline is printed. *)
Theorem progress_bar_line iteration total length fill :
  total ≠ 0%nat → (iteration ≤ total)%nat →
  ∃ filled,
    print_progress_bar_line iteration total length fill =
      Ok (str_repeat fill filled +:+ str_repeat "-" (length - filled),
          bool_decide (iteration = total)) ∧
    print_progress_bar iteration total = Ok () ∧
    (filled ≤ length)%nat ∧
    (filled * total ≤ length * iteration < (filled + 1) * total)%nat ∧
    ((0 < length)%nat → filled = length ↔ iteration = total) ∧
    String.length (str_repeat fill filled +:+ str_repeat "-" (length - filled)) =
      (filled * String.length fill + (length - filled))%nat.
Proof.
  intros Htotal Hle. exists (length * iteration / total)%nat.
  unfold print_progress_bar_line, print_progress_bar.
  rewrite !bool_decide_eq_false_2 by done.
  pose proof (Nat.div_mod_eq (length * iteration) total) as Hdiv.
  pose proof (Nat.mod_upper_bound (length * iteration) total Htotal) as Hmod.
  set (q := (length * iteration / total)%nat) in *.
  assert (q ≤ length)%nat as Hq by nia.
  split_and!; try done.
  - nia.
  - nia.
  - intros Hlen. split; [|intros ->].
    + intros Hql. rewrite Hql in Hdiv. nia.
    + nia.
  - rewrite str_length_app, !str_repeat_length. cbn. lia.
Qed.

End Fetch_extras.

(** ** The Series of a group, and the fetch followed by the cleaning *)

Section Fetch_and_clean.
Context `{PyNumerics} `{PyStrings}.

Lemma summary_series_duplicated self n vals :
  (list_to_map (summary_series self n vals) : gmap string cell) !! "duplicated"
  = Some (Bool (bool_decide (1 < n)%nat)).
Proof.
  unfold summary_series. rewrite list_to_map_py_dict. cbn [foldl fst snd].
  rewrite lookup_insert_ne by done. by rewrite lookup_insert_eq.
Qed.

(** X14. [_mark_to_remove] marks duplicated entries only: a group that
    is marked for removal has more than one row, and its Series says
    duplicated, whatever the name of the median column. *)
Theorem marked_is_duplicated self data act s :
  np_sqrt 0 = 0 →
  _mark_to_remove self data act = Ok s →
  (list_to_map s : gmap string cell) !! "mark_to_remove" = Some (Bool true) →
  (1 < length (rows data))%nat ∧
  (list_to_map s : gmap string cell) !! "duplicated" = Some (Bool true).
Proof.
  intros Hsqrt (_ & vals & Hvals & ->)%mark_to_remove_Ok Hmark.
  rewrite summary_series_mark in Hmark. injection Hmark as Hgt.
  apply astype_float_length in Hvals. rewrite length_fmap in Hvals.
  assert (1 < length (rows data))%nat as Hlen.
  { destruct vals as [|v [|v' vals]]; simpl in Hvals.
    - done.
    - by rewrite gt_one_false_singleton in Hgt.
    - lia. }
  split; [done|]. rewrite summary_series_duplicated.
  by rewrite bool_decide_eq_true_2.
Qed.

Lemma clean_dataset_no_rows self ds :
  rows (bioactivities_df ds) = [] → ∃ e, clean_dataset self ds = Raise e.
Proof.
  intros Hempty.
  destruct (result_cases (clean_dataset self ds)) as [[out Hout]|?]; [|done].
  apply clean_dataset_Ok in Hout as (_ & F & HF & _ & _ & Hkeys & _).
  destruct (filtered_frame _ _ HF) as [_ Hrows].
  rewrite Hempty in Hrows. by rewrite Hrows in Hkeys.
Qed.

Lemma placeholder_frames (records : list (list (string * pyval))) (frames : list DataFrame) :
  Forall2 (λ d df, df = {| columns := d.*1; rows := [] |}) records frames →
  frames ≫= columns = records ≫= (λ d, d.*1) ∧ frames ≫= rows = [].
Proof.
  induction 1 as [|d df records frames -> Hall [IHc IHr]]; [done|].
  rewrite !bind_cons. cbn [columns rows]. by rewrite IHc, IHr.
Qed.

(** X15. When the constructor succeeds and no record is accepted, the raw
    table has the keys of the records as columns and no row, and
    [clean_dataset] raises on the data source. *)
Theorem init_nothing_accepted self target_id standard_types records ds :
  ChEMBLApiDataSource_init target_id standard_types records = Ok ds →
  (∀ d, d ∈ records → record_accepted (self_standard_types standard_types) d = false) →
  bioactivities_df ds =
    {| columns := unique_in_order (records ≫= (λ d, d.*1)); rows := [] |} ∧
  ∃ e, clean_dataset self ds = Raise e.
Proof.
  rewrite ChEMBLApiDataSource_init_unfold.
  intros (_ & _ & (frames & Hframes%result_mapM_Ok & Hrun)%bind_Ok)%bind_Ok Hnone.
  apply bind_Ok in Hrun as (raw & Hraw & [= <-]). cbn [bioactivities_df].
  assert (Forall2 (λ d df, df = {| columns := d.*1; rows := [] |}) records frames) as Hall.
  { clear Hraw. remember (length records) as n eqn:Hn. clear Hn.
    induction Hframes as [|d df records frames Hd _ IH]; [constructor|].
    constructor.
    - apply get_compound_df_Ok in Hd as [_ Hd]. by rewrite Hnone in Hd by left.
    - apply IH. intros d' Hd'. apply Hnone. by right. }
  apply placeholder_frames in Hall as [Hc Hr].
  assert (raw = {| columns := unique_in_order (records ≫= (λ d, d.*1)); rows := [] |}) as ->.
  { unfold pd_concat in Hraw. destruct frames as [|f frames]; [done|].
    injection Hraw as <-. f_equal; [f_equal; exact Hc|exact Hr]. }
  split; [done|]. by apply clean_dataset_no_rows.
Qed.

(** X16. Without accepted types ([standard_types=None]) the records are
    not read: on a non-empty answer of the API the constructor succeeds,
    with a raw table that has the keys of the records as columns and no row,
    and [clean_dataset] raises on it. *)
Theorem init_without_types self target_id records :
  records ≠ [] →
  ∃ ds,
    ChEMBLApiDataSource_init target_id TypesNone records = Ok ds ∧
    bioactivities_df ds =
      {| columns := unique_in_order (records ≫= (λ d, d.*1)); rows := [] |} ∧
    ∃ e, clean_dataset self ds = Raise e.
Proof.
  intros Hne. rewrite ChEMBLApiDataSource_init_unfold. cbn [self_standard_types].
  assert (length records ≠ 0%nat) as Hlen by (by destruct records).
  rewrite print_progress_bar_Ok, result_bind_Ok by done.
  assert (result_mapM (get_compound_df None (length records) 0) records =
          Ok ((λ d, {| columns := d.*1; rows := [] |}) <$> records)) as ->.
  { apply result_mapM_Ok. apply Forall2_fmap_r, Forall_Forall2_diag, Forall_forall.
    intros d _. cbn. unfold get_compound_df.
    by rewrite print_progress_bar_Ok by done. }
  rewrite result_bind_Ok.
  destruct (placeholder_frames records ((λ d, {| columns := d.*1; rows := [] |}) <$> records))
    as [Hc Hr].
  { by apply Forall2_fmap_r, Forall_Forall2_diag, Forall_forall. }
  unfold pd_concat. destruct records as [|d records]; [done|].
  rewrite fmap_cons. rewrite fmap_cons in Hc, Hr. rewrite Hc, Hr, result_bind_Ok.
  eexists. split; [done|]. split; [done|]. by apply clean_dataset_no_rows.
Qed.

End Fetch_and_clean.

(** ** Rows that fail the filter, and the fetch followed by the cleaning *)

Lemma default_filter_chembl_ext df df' :
  columns df' = columns df →
  filter chembl_valid (rows df') = filter chembl_valid (rows df) →
  _default_filter_chembl df' = _default_filter_chembl df.
Proof.
  intros Hcols Hrows.
  destruct (decide ("relation" ∈ columns df)) as [Hrel|Hrel].
  - destruct (decide ("data_validity_comment" ∈ columns df)) as [Hcm|Hcm].
    + destruct (decide ("pchembl_value" ∈ columns df)) as [Hpv|Hpv].
      * rewrite (proj2 (default_filter_chembl_Ok df _)
                   (conj Hrel (conj Hcm (conj Hpv eq_refl)))).
        apply default_filter_chembl_Ok. rewrite Hcols, Hrows. by split_and!.
      * rewrite (default_filter_chembl_missing df "pchembl_value"),
          (default_filter_chembl_missing df' "pchembl_value"); [done| |];
          rewrite ?Hcols; right; split; [done| |done|]; right; by split_and!.
    + rewrite (default_filter_chembl_missing df "data_validity_comment"),
        (default_filter_chembl_missing df' "data_validity_comment"); [done| |];
        rewrite ?Hcols; right; split; [done| |done|]; by left.
  - rewrite (default_filter_chembl_missing df "relation"),
      (default_filter_chembl_missing df' "relation"); [done| |];
      rewrite ?Hcols; by left.
Qed.

Section Fetched.
Context `{PyStrings}.

Lemma record_getitem_key d k v : record_getitem d k = Ok v → k ∈ d.*1.
Proof.
  induction d as [|[k' v'] d IH]; simpl; [done|].
  case_bool_decide as Hk; [subst k'; left|]. intros Hd. right. by apply IH.
Qed.

Lemma record_pop_key d key k : k ≠ key → k ∈ d.*1 → k ∈ (record_pop d key).2.*1.
Proof.
  intros Hne. induction d as [|[k' v'] d IH]; simpl; [done|].
  intros [->|Hin]%elem_of_cons.
  - rewrite bool_decide_eq_false_2 by done.
    destruct (record_pop d key) as [x d']. cbn [snd]. rewrite fmap_cons. left.
  - case_bool_decide; [done|].
    destruct (record_pop d key) as [x d'] eqn:Hpop. cbn [snd] in *.
    rewrite fmap_cons. right. by apply IH.
Qed.

(** A key of the record, other than the two that are dropped, is a column of
    the frame of the record. *)
Lemma get_compound_df_column standard_types total idx compound_dict df k :
  get_compound_df standard_types total idx compound_dict = Ok df →
  k ≠ "activity_properties" → k ≠ "ligand_efficiency" →
  k ∈ compound_dict.*1 → k ∈ columns df.
Proof.
  intros Hrun Hk1 Hk2 Hk. unfold get_compound_df in Hrun.
  apply bind_Ok in Hrun as (b & _ & Hrun).
  apply bind_Ok in Hrun as (df' & Hdf' & Hrun).
  apply bind_Ok in Hrun as (? & _ & [= <-]).
  destruct b; [|by injection Hdf' as <-].
  pose proof (record_pop_key compound_dict "activity_properties" k Hk1 Hk) as Hin1.
  destruct (record_pop compound_dict "activity_properties") as [x1 d1]. cbn [snd] in Hin1.
  pose proof (record_pop_key d1 "ligand_efficiency" k Hk2 Hin1) as Hin2.
  destruct (record_pop d1 "ligand_efficiency") as [lig d2]. cbn [snd] in Hin2.
  apply bind_Ok in Hdf' as (cdf & Hcdf & Hdf').
  apply DataFrame_of_record_Ok in Hcdf as (Hcols & _).
  rewrite <-Hcols in Hin2.
  destruct lig as [[[]|lig|]|]; try done; injection Hdf' as <-; try done.
  unfold concat_columns. cbn [columns]. apply elem_of_app. by left.
Qed.

(** What a successful call of the constructor has computed. *)
Lemma init_Ok target_id standard_types records ds :
  ChEMBLApiDataSource_init target_id standard_types records = Ok ds →
  ∃ frames,
    Forall2 (λ d df, get_compound_df (self_standard_types standard_types)
                       (length records) 0 d = Ok df) records frames ∧
    ds = {| type_of := ChEMBLApiDataSource;
            bioactivities_df := {| columns := unique_in_order (frames ≫= columns);
                                   rows := frames ≫= rows |};
            smiles_column := "canonical_smiles";
            compound_id_column := "parent_molecule_chembl_id";
            activity_column := "pchembl_value" |}.
Proof.
  rewrite ChEMBLApiDataSource_init_unfold.
  intros (_ & _ & (frames & Hframes%result_mapM_Ok & Hrun)%bind_Ok)%bind_Ok.
  apply bind_Ok in Hrun as (raw & Hraw & [= <-]).
  exists frames. split; [done|].
  unfold pd_concat in Hraw. destruct frames; [done|]. by injection Hraw as <-.
Qed.

(** A row of the raw table stems from an accepted record that has a
    measurement type, and the raw table has the column of that type. *)
Lemma fetched_row target_id standard_types records ds l :
  ChEMBLApiDataSource_init target_id standard_types records = Ok ds →
  l ∈ rows (bioactivities_df ds) →
  "standard_type" ∈ columns (bioactivities_df ds) ∧
  accepted (self_standard_types standard_types) (at_col l "standard_type") = true.
Proof.
  intros (frames & Hframes & ->)%init_Ok. cbn [bioactivities_df rows columns].
  intros (df & Hl & Hdf)%list_elem_of_bind.
  apply list_elem_of_lookup in Hdf as [i Hi].
  destruct (Forall2_lookup_r _ _ _ _ _ Hframes Hi) as (d & Hd & Hrun).
  pose proof (get_compound_df_Ok _ _ _ _ _ Hrun) as [_ Hshape].
  unfold record_accepted in Hshape.
  destruct (record_getitem d "standard_type") as [[v| |]|] eqn:Hv;
    try (subst df; by apply elem_of_nil in Hl).
  destruct (accepted (self_standard_types standard_types) v) eqn:Hacc;
    [|subst df; by apply elem_of_nil in Hl].
  destruct Hshape as (r & Hr & Hcells). rewrite Hr in Hl.
  apply list_elem_of_singleton in Hl as ->. split.
  - apply elem_of_unique_in_order, list_elem_of_bind. exists df.
    split; [|by eapply list_elem_of_lookup_2].
    eapply get_compound_df_column; [done|done|done|]. by eapply record_getitem_key.
  - by rewrite (Hcells "standard_type" v).
Qed.

Section Pipeline.
Context `{PyNumerics}.

(** X17. The rows that fail the filter have no influence on the result:
    two raw tables with the same columns and the same valid rows give the
    same table, or the same error. *)
Theorem clean_dataset_ignores_invalid_rows self ds df' :
  columns df' = columns (bioactivities_df ds) →
  filter chembl_valid (rows df') = filter chembl_valid (rows (bioactivities_df ds)) →
  clean_dataset self (with_table ds df') = clean_dataset self ds.
Proof.
  intros Hcols Hrows. unfold clean_dataset, copy, with_table.
  cbn [type_of bioactivities_df compound_id_column activity_column].
  by rewrite (default_filter_chembl_ext _ _ Hcols Hrows).
Qed.

(** X18. The fetch followed by the cleaning: the data source the
    constructor builds is one [clean_dataset] recognises, and every row of
    the cleaned table is a measurement of an accepted type, with the
    relation [=], no validity comment, a pChEMBL value and a compound
    identifier. *)
Theorem fetch_then_clean self target_id standard_types records ds :
  ChEMBLApiDataSource_init target_id standard_types records = Ok ds →
  clean_dataset self ds ≠ Raise unsupported_source ∧
  ∀ out r', clean_dataset self ds = Ok out → r' ∈ rows out →
    accepted (self_standard_types standard_types) (at_col r' "standard_type") = true ∧
    at_col r' "relation" = Str "=" ∧
    at_col r' "data_validity_comment" = Null ∧
    at_col r' "pchembl_value" ≠ Null ∧
    at_col r' "parent_molecule_chembl_id" ≠ Null.
Proof.
  intros Hinit. split.
  - intros Hraise. eapply clean_dataset_chembl_Raise; [|exact Hraise|done].
    by apply init_Ok in Hinit as (frames & _ & ->).
  - intros out r' Hrun Hr'.
    pose proof Hrun as (_ & F & HF & Hid & _ & _ & _ & Hout)%clean_dataset_Ok.
    pose proof HF as (Hrel & Hcm & Hpv & _)%default_filter_chembl_Ok.
    destruct (filtered_frame _ _ HF) as [Hcols Hrows].
    destruct (clean_rows_agree _ _ _ _ _ HF Hrun Hr') as (l & Hl & Hag).
    rewrite Hrows in Hl. apply list_elem_of_filter in Hl as [(Hv1 & Hv2 & Hv3) Hl].
    destruct (fetched_row _ _ _ _ _ Hinit Hl) as [Hst Hacc].
    assert (compound_id_column ds = "parent_molecule_chembl_id") as Hidname
      by (by apply init_Ok in Hinit as (frames & _ & ->)).
    rewrite !Hag by done. split_and!; try done.
    rewrite Hout in Hr'. apply clean_dataset_rows_from in Hr' as [Hk _]; [|done].
    by rewrite Hidname in Hk.
Qed.

End Pipeline.

End Fetched.

(** * The pipeline on the examples *)

#[local] Existing Instance binary64_numerics.
#[local] Existing Instance ascii_strings.

Lemma fresh_summary_Forall self df :
  Forall (λ c, c ∉ columns df) (summary_columns self) → fresh_summary self df.
Proof. intros Hall c Hc. by rewrite Forall_forall in Hall; apply Hall. Qed.

Lemma sqrt64_zero : sqrt64 0 = 0.
Proof. reflexivity. Qed.

Lemma example_clean_run :
  clean_dataset default_preprocessing example_source = Ok example_clean.
Proof. vm_compute. reflexivity. Qed.

Lemma singles_clean_run :
  clean_dataset default_preprocessing (chembl_source singles_raw) = Ok singles_clean.
Proof. vm_compute. reflexivity. Qed.

Lemma example_fresh : fresh_summary default_preprocessing example_raw.
Proof. apply fresh_summary_Forall. compute_done. Qed.

(** The spec's example: the group A (5.0 and 5.2) has the standard
    deviation 0.10000000000000009 (binary64) and the median 5.1, and its
    first row is kept; the group B (9.0 and 20.0) has standard deviation 5.5
    and is removed; the censored row is not counted. *)
Example example_clean_rows :
  ids_of "parent_molecule_chembl_id" (rows example_clean) = [Str "A"; Str "C"] ∧
  ids_of "pchembl_value" (rows example_clean) = [Str "5.0"; Str "7.5"] ∧
  ids_of "median_activity_value" (rows example_clean)
    = [Num (Q2Qc (2871044762448691 # 562949953421312)); Num (Q2Qc (15 # 2))] ∧
  ids_of "standard_deviation" (rows example_clean)
    = [Num (Q2Qc (225179981368525 # 2251799813685248)); Num (Q2Qc 0)] ∧
  ids_of "number_compounds" (rows example_clean) = [Int 2; Int 1].
Proof. split_and!; compute_done. Qed.

(** The row kept for a group need not carry the median of the group. *)
Example representative_not_median :
  ∃ r, r ∈ rows example_clean ∧
       cell_to_float (at_col r "pchembl_value") = Ok (Some (Q2Qc (5 # 1))) ∧
       at_col r "median_activity_value" = Num (Q2Qc (2871044762448691 # 562949953421312)).
Proof.
  exists (default ∅ (head (rows example_clean))). split_and!; compute_done.
Qed.

(** The threshold is tested on the rounded standard deviation: the group of
    2.4 and 4.4 has the standard deviation 1.0000000000000002 in binary64
    and is removed. *)
Example rounding_decides_threshold :
  astype_float [Str "2.4"; Str "4.4"]
    = Ok [Some (Q2Qc (5404319552844595 # 2251799813685248));
          Some (Q2Qc (2476979795053773 # 562949953421312))] ∧
  np_std [Some (Q2Qc (5404319552844595 # 2251799813685248));
          Some (Q2Qc (2476979795053773 # 562949953421312))]
    = Some (Q2Qc (4503599627370497 # 4503599627370496)) ∧
  clean_dataset default_preprocessing (chembl_source borderline_raw) = Ok borderline_clean ∧
  ids_of "parent_molecule_chembl_id" (rows borderline_clean) = [Str "C"].
Proof. split_and!; [compute_done|compute_done|vm_compute; reflexivity|compute_done]. Qed.

(** ** Instances of the theorems *)

Lemma threshold_policy_witness :
  ∃ vals,
    Forall2 (λ l v, cell_to_float (at_col l (activity_column example_source)) = Ok v)
      (group_of example_source (Str "B")) vals ∧
    (∀ xs, vals = Some <$> xs → np_std vals = population_std xs) ∧
    (∀ s, np_std vals = Some s → (1 < s)%Qc →
       rows_with_id example_source (Str "B") example_clean = []) ∧
    (fresh_summary default_preprocessing (bioactivities_df example_source) →
     ((∀ s, np_std vals = Some s → (s ≤ 1)%Qc) →
        ∃ l r', head (group_of example_source (Str "B")) = Some l ∧
                rows_with_id example_source (Str "B") example_clean = [r'] ∧
                agrees_on (columns (bioactivities_df example_source)) r' l) ∧
     (length (group_of example_source (Str "B")) = 1%nat →
        (∀ x, vals = [Some x] → np_std vals = Some 0) ∧
        ∃ l r', group_of example_source (Str "B") = [l] ∧
                rows_with_id example_source (Str "B") example_clean = [r'] ∧
                agrees_on (columns (bioactivities_df example_source)) r' l)).
Proof.
  apply (threshold_policy default_preprocessing example_source example_clean (Str "B")).
  - exact sqrt64_zero.
  - exact example_clean_run.
  - compute_done.
  - compute_done.
Defined.

Lemma output_ids_unique_witness :
  NoDup (ids_of (compound_id_column example_source) (rows example_clean)) ∧
  ∀ r, r ∈ rows example_clean →
    length (rows_with_id example_source
              (at_col r (compound_id_column example_source)) example_clean) = 1%nat.
Proof.
  exact (output_ids_unique default_preprocessing example_source example_clean
           example_clean_run).
Defined.

Lemma chembl_filter_conjunction_witness :
  (∀ r, r ∈ rows example_filtered ↔
        r ∈ rows (bioactivities_df example_source) ∧
        at_col r "relation" = Str "=" ∧
        at_col r "data_validity_comment" = Null ∧
        at_col r "pchembl_value" ≠ Null) ∧
  (∀ out r', clean_dataset default_preprocessing example_source = Ok out → r' ∈ rows out →
     at_col r' "relation" = Str "=" ∧
     ∃ l, l ∈ rows example_filtered ∧
          agrees_on (columns (bioactivities_df example_source)) r' l).
Proof.
  apply (chembl_filter_conjunction default_preprocessing example_source example_filtered).
  vm_compute. reflexivity.
Defined.


Lemma output_columns_witness :
  columns example_clean =
    columns (bioactivities_df example_source) ++
    ["number_compounds"; "standard_deviation"; self_activity_column default_preprocessing;
     "duplicated"; "mark_to_remove"].
Proof.
  apply (proj2 (output_columns default_preprocessing example_source example_clean
                  example_clean_run)).
  - exact example_fresh.
  - compute_done.
Defined.

Lemma clean_dataset_empty_raises_witness :
  clean_dataset default_preprocessing (chembl_source empty_raw)
  = Raise (ValueError "cannot insert, already exists").
Proof.
  apply (proj2 (clean_dataset_empty_raises default_preprocessing (chembl_source empty_raw)
                  eq_refl)).
  - reflexivity.
  - compute_done.
  - compute_done.
  - compute_done.
  - compute_done.
Defined.

Lemma clean_dataset_idempotent_on_singletons_witness :
  clean_dataset default_preprocessing (chembl_source singles_raw) = Ok singles_clean ∧
  clean_dataset default_preprocessing (with_table (chembl_source singles_raw) singles_clean)
  = Ok singles_clean.
Proof.
  split; [exact singles_clean_run|].
  apply clean_dataset_idempotent_on_singletons.
  - exact singles_clean_run.
  - apply fresh_summary_Forall. compute_done.
  - compute_done.
  - apply Forall_forall. compute_done.
Defined.


Lemma get_compound_df_policy_witness :
  get_compound_df (Some ["IC50"]) 2 1 record_untyped
  = Ok {| columns := record_untyped.*1; rows := [] |} ∧
  accepted (Some ["ic50"]) (Str "IC50_fold") = true.
Proof.
  split.
  - apply (proj1 (proj2 (proj2
      (get_compound_df_policy (Some ["IC50"]) 2 1 record_untyped Null
         ltac:(discriminate) eq_refl (or_introl eq_refl))))).
    reflexivity.
  - apply (proj2 (proj2 (proj2 (proj2
      (get_compound_df_policy (Some ["ic50"]) 2 0 record_ic50 (Str "IC50_fold")
         ltac:(discriminate) eq_refl (or_intror (ex_intro _ "IC50_fold" eq_refl))))))
      ["ic50"] "IC50_fold").
    + compute_done.
    + compute_done.
    + exists "ic50", "", "IC50", "_fold". split_and!; [left|done|done].
Defined.

(** ** Inputs on which claims of the specification fail *)

(** C5, as stated: the output would have the input columns and the median
    column only.  The output of the example has the column mark_to_remove. *)
Lemma one_added_column_counterexample :
  clean_dataset default_preprocessing example_source = Ok example_clean ∧
  ¬ (∀ c, c ∈ columns example_clean ↔
          c ∈ columns (bioactivities_df example_source) ∨
          c = self_activity_column default_preprocessing).
Proof.
  split; [exact example_clean_run|]. intros Hall.
  destruct (proj1 (Hall "mark_to_remove")) as [Hin|Heq].
  - compute_done.
  - revert Hin. compute_done.
  - discriminate.
Qed.

(** C8, as stated: cleaning the cleaned table would return it again.  The
    cleaned example has the rows of A and C; cleaning it again keeps the row
    of C only, because the stored summary of A (two measurements) differs
    from the summary of the single row. *)
Lemma idempotence_counterexample :
  clean_dataset default_preprocessing example_source = Ok example_clean ∧
  clean_dataset default_preprocessing (with_table example_source example_clean)
    = Ok example_clean_again ∧
  ids_of "parent_molecule_chembl_id" (rows example_clean) = [Str "A"; Str "C"] ∧
  ids_of "parent_molecule_chembl_id" (rows example_clean_again) = [Str "C"] ∧
  example_clean_again ≠ example_clean.
Proof.
  split_and!.
  - exact example_clean_run.
  - vm_compute. reflexivity.
  - compute_done.
  - compute_done.
  - compute_done.
Qed.

(** C10, as stated: a record without an accepted measurement type would
    keep a (placeholder) row in the raw table.  The raw table of two
    records, one of them without measurement type, has one row. *)
Lemma placeholder_row_counterexample :
  ∃ ds, ChEMBLApiDataSource_init "CHEMBL202" (TypesStr "IC50") [record_ic50; record_untyped]
        = Ok ds ∧
        ids_of "parent_molecule_chembl_id" (rows (bioactivities_df ds)) = [Str "CHEMBL1"] ∧
        length (rows (bioactivities_df ds)) ≠ length [record_ic50; record_untyped].
Proof.
  eexists. split_and!.
  - vm_compute. reflexivity.
  - compute_done.
  - compute_done.
Qed.

(** C1, as stated for every raw table: a group of one row, whose standard
    deviation is 0, would have a row in the output.  In the cleaned example
    taken as the raw table, compound A has one row and standard deviation 0,
    and no row of the output: its stored summary differs from the summary
    of its single row, and the merge joins on the summary columns too. *)
Lemma threshold_counterexample :
  ∃ vals out,
    clean_dataset default_preprocessing (with_table example_source example_clean) = Ok out ∧
    length (group_of (with_table example_source example_clean) (Str "A")) = 1%nat ∧
    astype_float ((λ r, at_col r "pchembl_value") <$>
                    group_of (with_table example_source example_clean) (Str "A")) = Ok vals ∧
    np_std vals = Some 0 ∧
    rows_with_id (with_table example_source example_clean) (Str "A") out = [].
Proof.
  exists [Some (Q2Qc 5)], example_clean_again. split_and!.
  - vm_compute. reflexivity.
  - compute_done.
  - compute_done.
  - compute_done.
  - compute_done.
Qed.


(** C7, as stated: the unsupported-source error would be raised for every
    data source that is not the remote-database variant.  An object of the
    class DataSource has no attribute bioactivities_df: the call raises
    AttributeError at the copy, before the type is tested. *)
Lemma unsupported_source_counterexample :
  object_type bare_source = DataSource ∧
  clean_dataset_obj default_preprocessing bare_source ∅
  = (Raise (AttributeError "bioactivities_df"), ∅) ∧
  AttributeError "bioactivities_df" ≠ unsupported_source.
Proof. split_and!; [done|done|done]. Qed.

(** ** Instances of the further properties *)

Lemma default_filter_chembl_idempotent_witness :
  columns example_filtered = columns example_raw ∧
  rows example_filtered `sublist_of` rows example_raw ∧
  _default_filter_chembl example_filtered = Ok example_filtered.
Proof.
  apply (default_filter_chembl_idempotent example_raw example_filtered).
  vm_compute. reflexivity.
Defined.

Lemma clean_dataset_missing_column_witness :
  clean_dataset default_preprocessing (chembl_source no_pchembl_raw)
  = Raise (KeyError "pchembl_value").
Proof.
  apply (proj1 (proj2 (proj2
    (clean_dataset_missing_column default_preprocessing (chembl_source no_pchembl_raw)
       eq_refl)))); compute_done.
Defined.

Lemma clean_dataset_nothing_valid_witness :
  clean_dataset default_preprocessing (chembl_source censored_raw)
  = Raise (ValueError "cannot insert, already exists").
Proof.
  apply (clean_dataset_nothing_valid default_preprocessing (chembl_source censored_raw)).
  - reflexivity.
  - compute_done.
  - compute_done.
  - compute_done.
  - compute_done.
  - apply (proj1 (Forall_forall
      (λ r, chembl_valid r → at_col r "parent_molecule_chembl_id" = Null)
      (rows censored_raw))).
    compute_done.
Defined.

Lemma clean_dataset_activity_errors_witness :
  clean_dataset default_preprocessing (chembl_source unreadable_raw)
  = Raise (ValueError "could not convert string to float").
Proof.
  apply (proj2 (clean_dataset_activity_errors default_preprocessing
                  (chembl_source unreadable_raw)
                  (chembl_row "C" "CCC" "=" Null (Str "high"))
                  eq_refl ltac:(compute_done) ltac:(compute_done) ltac:(compute_done)
                  ltac:(compute_done) ltac:(compute_done) ltac:(compute_done)
                  ltac:(compute_done))).
  - compute_done.
  - exists (ValueError "could not convert string to float"). compute_done.
Defined.

Lemma output_summary_cells_witness :
  ∃ vals,
    Forall2 (λ l v, cell_to_float (at_col l (activity_column example_source)) = Ok v)
      (group_of example_source
         (at_col example_clean_first (compound_id_column example_source))) vals ∧
    (∀ xs, vals = Some <$> xs →
       np_std vals = population_std xs ∧
       ∃ s, s ≡ₚ xs ∧ Sorted Qcle s ∧ np_median vals = Some (middle_value s)) ∧
    gt_one (np_std vals) = false ∧
    at_col example_clean_first "number_compounds" =
      Int (Z.of_nat (length (group_of example_source
         (at_col example_clean_first (compound_id_column example_source))))) ∧
    at_col example_clean_first "standard_deviation" = float_cell (np_std vals) ∧
    at_col example_clean_first (self_activity_column default_preprocessing) =
      float_cell (np_median vals) ∧
    at_col example_clean_first "duplicated" =
      Bool (bool_decide (1 < length (group_of example_source
         (at_col example_clean_first (compound_id_column example_source))))%nat) ∧
    at_col example_clean_first "mark_to_remove" = Bool false.
Proof.
  apply (output_summary_cells default_preprocessing example_source example_clean
           example_clean_first).
  - exact example_clean_run.
  - exact example_fresh.
  - compute_done.
  - compute_done.
Defined.

Lemma output_compounds_witness :
  Str "B" ∈ ids_of (compound_id_column example_source) (rows example_clean) ↔
  Str "B" ≠ Null ∧ group_of example_source (Str "B") ≠ [] ∧
  ∃ vals,
    Forall2 (λ l v, cell_to_float (at_col l (activity_column example_source)) = Ok v)
      (group_of example_source (Str "B")) vals ∧
    (∀ xs, vals = Some <$> xs → np_std vals = population_std xs) ∧
    gt_one (np_std vals) = false.
Proof.
  apply (output_compounds default_preprocessing example_source example_clean (Str "B")).
  - exact example_clean_run.
  - exact example_fresh.
Defined.

Lemma clean_dataset_succeeds_iff_witness :
  (∃ out, clean_dataset default_preprocessing example_source = Ok out) ↔
  type_of example_source = ChEMBLApiDataSource ∧
  "relation" ∈ columns (bioactivities_df example_source) ∧
  "data_validity_comment" ∈ columns (bioactivities_df example_source) ∧
  "pchembl_value" ∈ columns (bioactivities_df example_source) ∧
  compound_id_column example_source ∈ columns (bioactivities_df example_source) ∧
  activity_column example_source ∈ columns (bioactivities_df example_source) ∧
  (∃ r, r ∈ rows (bioactivities_df example_source) ∧ chembl_valid r ∧
        at_col r (compound_id_column example_source) ≠ Null) ∧
  (∀ r, r ∈ rows (bioactivities_df example_source) → chembl_valid r →
        at_col r (compound_id_column example_source) ≠ Null →
        ∃ v, cell_to_float (at_col r (activity_column example_source)) = Ok v).
Proof.
  apply (clean_dataset_succeeds_iff default_preprocessing example_source).
  exact example_fresh.
Defined.


Lemma output_order_witness :
  ∃ sub,
    sub `sublist_of` filter chembl_valid (rows (bioactivities_df example_source)) ∧
    sub `sublist_of` rows (bioactivities_df example_source) ∧
    Forall2 (agrees_on (columns (bioactivities_df example_source))) (rows example_clean) sub.
Proof.
  exact (output_order default_preprocessing example_source example_clean example_clean_run).
Defined.

Lemma init_rows_witness :
  Forall2 (λ r d, ∀ k c, k ≠ "activity_properties" → k ≠ "ligand_efficiency" →
                         record_getitem d k = Ok (PCell c) → at_col r k = c)
    (rows (bioactivities_df example_fetch))
    (filter (λ d, record_accepted (self_standard_types (TypesStr "ic50")) d = true)
       example_records) ∧
  length (rows (bioactivities_df example_fetch)) =
    length (filter (λ d, record_accepted (self_standard_types (TypesStr "ic50")) d = true)
              example_records) ∧
  (∀ r, r ∈ rows (bioactivities_df example_fetch) →
        accepted (self_standard_types (TypesStr "ic50")) (at_col r "standard_type") = true).
Proof.
  apply (init_rows "CHEMBL202" (TypesStr "ic50") example_records example_fetch).
  vm_compute. reflexivity.
Defined.

Lemma ligand_efficiency_flattened_witness :
  columns example_compound_df =
    filter (λ k, k ∉ ["activity_properties"; "ligand_efficiency"]) record_ic50.*1 ++
    ((λ kv, "ligand_efficiency_" +:+ kv.1) <$> [("bei", Str "14.1"); ("le", Str "0.3")]) ∧
  ∃ r, rows example_compound_df = [r] ∧
       ∀ k v, (k, v) ∈ [("bei", Str "14.1"); ("le", Str "0.3")] →
              "ligand_efficiency_" +:+ k ∉ record_ic50.*1 →
              at_col r ("ligand_efficiency_" +:+ k) = v.
Proof.
  apply (ligand_efficiency_flattened (Some ["ic50"]) 3 0 record_ic50
           [("bei", Str "14.1"); ("le", Str "0.3")] example_compound_df).
  - vm_compute. reflexivity.
  - reflexivity.
  - compute_done.
  - compute_done.
  - reflexivity.
Defined.

Lemma progress_bar_line_witness :
  ∃ filled,
    print_progress_bar_line 25 50 50 "#" =
      Ok (str_repeat "#" filled +:+ str_repeat "-" (50 - filled),
          bool_decide (25 = 50)%nat) ∧
    print_progress_bar 25 50 = Ok () ∧
    (filled ≤ 50)%nat ∧
    (filled * 50 ≤ 50 * 25 < (filled + 1) * 50)%nat ∧
    ((0 < 50)%nat → filled = 50%nat ↔ 25%nat = 50%nat) ∧
    String.length (str_repeat "#" filled +:+ str_repeat "-" (50 - filled)) =
      (filled * String.length "#" + (50 - filled))%nat.
Proof.
  apply (progress_bar_line 25 50 50 "#"); lia.
Defined.

Lemma marked_is_duplicated_witness :
  (1 < length (rows example_group_B))%nat ∧
  (list_to_map example_series_B : gmap string cell) !! "duplicated" = Some (Bool true).
Proof.
  apply (marked_is_duplicated default_preprocessing example_group_B "pchembl_value"
           example_series_B).
  - exact sqrt64_zero.
  - vm_compute. reflexivity.
  - compute_done.
Defined.

Lemma init_nothing_accepted_witness :
  bioactivities_df untyped_fetch =
    {| columns := unique_in_order ([record_untyped] ≫= (λ d, d.*1)); rows := [] |} ∧
  ∃ e, clean_dataset default_preprocessing untyped_fetch = Raise e.
Proof.
  apply (init_nothing_accepted default_preprocessing "CHEMBL202" (TypesStr "ic50")
           [record_untyped] untyped_fetch).
  - vm_compute. reflexivity.
  - apply Forall_forall. compute_done.
Defined.

Lemma init_without_types_witness :
  ∃ ds,
    ChEMBLApiDataSource_init "CHEMBL202" TypesNone example_records = Ok ds ∧
    bioactivities_df ds =
      {| columns := unique_in_order (example_records ≫= (λ d, d.*1)); rows := [] |} ∧
    ∃ e, clean_dataset default_preprocessing ds = Raise e.
Proof.
  apply (init_without_types default_preprocessing "CHEMBL202" example_records).
  discriminate.
Defined.

Lemma clean_dataset_ignores_invalid_rows_witness :
  clean_dataset default_preprocessing (with_table example_source example_filtered)
  = clean_dataset default_preprocessing example_source.
Proof.
  apply (clean_dataset_ignores_invalid_rows default_preprocessing example_source
           example_filtered).
  - reflexivity.
  - compute_done.
Defined.

Lemma fetch_then_clean_witness :
  clean_dataset default_preprocessing example_fetch ≠ Raise unsupported_source ∧
  ∀ out r', clean_dataset default_preprocessing example_fetch = Ok out → r' ∈ rows out →
    accepted (self_standard_types (TypesStr "ic50")) (at_col r' "standard_type") = true ∧
    at_col r' "relation" = Str "=" ∧
    at_col r' "data_validity_comment" = Null ∧
    at_col r' "pchembl_value" ≠ Null ∧
    at_col r' "parent_molecule_chembl_id" ≠ Null.
Proof.
  apply (fetch_then_clean default_preprocessing "CHEMBL202" (TypesStr "ic50")
           example_records example_fetch).
  vm_compute. reflexivity.
Defined.
